(** * Temperature voting backend: storage, routes and their properties

    A shallow embedding of the in-memory storage class [MemStorage]
    (server/storage.ts), the request schema (shared/schema.ts) and the HTTP
    handlers registered by [registerRoutes] (server/routes.ts).

    Modelling conventions.
    - JavaScript numbers that hold integers (counts, hours, time values) are
      unbounded integers in [Z]; a [Date] is its time value, milliseconds since
      the epoch.
    - Dates are read twice. In the plain reading every integer is a time value
      and the local time is UTC shifted by a fixed offset [tz], given in
      minutes. Module [Js] gives the query of the recent votes and the handler
      of the vote history with the dates of JavaScript: a time value beyond
      8.64e15 ms is an Invalid Date, on which a comparison is false and
      [toISOString] throws (the handler then answers 500), and the local time
      is that of a host time zone whose offset may change. The two readings
      agree where no date is invalid and the offset does not change (last
      part of the file). Every date that is valid is below [2^53], so the
      arithmetic on valid dates is exact.
    - Temperatures are exact rationals in [Q]. The temperature formula is also
      given in binary64 arithmetic ([newTemperature_binary64]) and compared
      with the rational one.
    - A JavaScript [Map] is an association list in insertion order with
      pairwise distinct keys ([JsMap]).
    - Every handler runs at one instant [now]; the results of the
      [randomUUID()] calls it makes are explicit inputs ([Rand]).
    - A string is the sequence of its UTF-8 bytes. *)

From Stdlib Require Import List ZArith QArith Qround String Ascii Bool Lia.
From Stdlib Require Import PrimFloat.
From Stdlib Require Import Lqa Qabs Permutation Sorted.
From Stdlib Require Uint63.
Import ListNotations.

Local Open Scope Z_scope.
Local Open Scope string_scope.
Local Open Scope list_scope.

(* The decimal literal 0.1 of the source is not a binary64 number; it denotes
   the nearest one, as in JavaScript. *)
Local Set Warnings "-inexact-float".

(** ** Keys with a boolean equality *)

Class KeyEq (K : Type) := {
  keqb : K -> K -> bool;
  keqb_eq : forall a b, keqb a b = true <-> a = b
}.

#[export] Instance KeyEq_string : KeyEq string :=
  {| keqb := String.eqb; keqb_eq := String.eqb_eq |}.

#[export] Instance KeyEq_Z : KeyEq Z :=
  {| keqb := Z.eqb; keqb_eq := Z.eqb_eq |}.

(** ** JavaScript [Map]: insertion-ordered, one entry per key *)

Module JsMap.
Section Ops.
Context {K V : Type} `{KeyEq K}.

Definition t := list (K * V).

Definition empty : t := [].

Fixpoint get (k : K) (m : t) : option V :=
  match m with
  | [] => None
  | (k', v) :: r => if keqb k k' then Some v else get k r
  end.

Definition has (k : K) (m : t) : bool :=
  match get k m with Some _ => true | None => false end.

(** [set] overwrites the value of a present key where it stands and appends
    a new key at the end. *)
Fixpoint set (k : K) (v : V) (m : t) : t :=
  match m with
  | [] => [(k, v)]
  | (k', v') :: r => if keqb k k' then (k, v) :: r else (k', v') :: set k v r
  end.

Definition delete (k : K) (m : t) : t :=
  filter (fun e => negb (keqb k (fst e))) m.

Definition keys (m : t) : list K := map fst m.
Definition values (m : t) : list V := map snd m.

(** Well-formed maps: no key occurs twice. *)
Definition wf (m : t) : Prop := NoDup (keys m).
End Ops.
Arguments t : clear implicits.
End JsMap.

(** ** Time values *)

Definition msPerSecond : Z := 1000.
Definition msPerMinute : Z := 60000.
Definition msPerHour : Z := 3600000.
Definition msPerDay : Z := 86400000.

Definition Day (t : Z) : Z := t / msPerDay.
Definition HourFromTime (t : Z) : Z := (t / msPerHour) mod 24.
Definition MinFromTime (t : Z) : Z := (t / msPerMinute) mod 60.

Definition LocalTime (tz t : Z) : Z := t + tz * msPerMinute.
Definition UTC (tz t : Z) : Z := t - tz * msPerMinute.

(** [Date.prototype.getMinutes] and [Date.prototype.setMinutes(min, sec, ms)]:
    both work on the local time. This is the plain reading, for a host [tz]
    minutes ahead of UTC and dates in range; [Js.getMinutes] and
    [Js.setMinutes] below are the general ones. *)
Definition getMinutes (tz t : Z) : Z := MinFromTime (LocalTime tz t).

Definition setMinutes (tz t min sec ms : Z) : Z :=
  let lt := LocalTime tz t in
  UTC tz (Day lt * msPerDay + HourFromTime lt * msPerHour
          + min * msPerMinute + sec * msPerSecond + ms).

(** [toISOString().substring(0, 16)] is [YYYY-MM-DDTHH:MM] in UTC: it names
    the UTC minute of the instant, represented here by the minute's index. *)
Definition isoMinuteKey (t : Z) : Z := t / msPerMinute.

(** ** Data model (shared/schema.ts) *)

Record Zone := {
  zone_id : string;
  zone_name : string;
  zone_temperature : Q;
  zone_hotVotes : Z;
  zone_coldVotes : Z;
  zone_activeVoters : Z;
  zone_lastUpdated : Z
}.

Record Vote := {
  vote_id : string;
  vote_zoneId : string;
  vote_voteType : string;
  vote_timestamp : Z
}.

Record TemperatureHistory := {
  th_id : string;
  th_zoneId : string;
  th_temperature : Q;
  th_timestamp : Z
}.

Record ActiveConnection := {
  conn_id : string;
  conn_sessionId : string;
  conn_lastSeen : Z
}.

(** [voteRequestSchema]: the validated request. *)
Record VoteRequest := {
  vr_zoneId : string;
  vr_voteType : string
}.

(** A JSON value as far as the schema looks at it. *)
Inductive JValue :=
| JUndefined
| JNull
| JBool (b : bool)
| JNum (n : Z)
| JStr (s : string)
| JOther.

(** A request body: not an object at all, or an object of which the schema
    reads the two fields [zoneId] and [voteType] ([JUndefined] when absent). *)
Inductive Body :=
| BodyNotObject
| BodyObject (zoneId voteType : JValue).

(** [voteRequestSchema.parse]: [None] stands for the thrown [ZodError]. *)
Definition voteRequestSchema_parse (b : Body) : option VoteRequest :=
  match b with
  | BodyObject (JStr z) (JStr v) =>
      if (String.eqb v "hot" || String.eqb v "cold")%bool
      then Some {| vr_zoneId := z; vr_voteType := v |}
      else None
  | _ => None
  end.

(** ** MemStorage (server/storage.ts) *)

Record MemStorage := {
  zones : JsMap.t string Zone;
  votes : JsMap.t string Vote;
  temperatureHistory : JsMap.t string TemperatureHistory;
  activeConnections : JsMap.t string ActiveConnection
}.

Definition with_zones (zs : JsMap.t string Zone) (st : MemStorage) :=
  {| zones := zs; votes := votes st;
     temperatureHistory := temperatureHistory st;
     activeConnections := activeConnections st |}.

Definition with_votes (vs : JsMap.t string Vote) (st : MemStorage) :=
  {| zones := zones st; votes := vs;
     temperatureHistory := temperatureHistory st;
     activeConnections := activeConnections st |}.

Definition with_temperatureHistory
    (hs : JsMap.t string TemperatureHistory) (st : MemStorage) :=
  {| zones := zones st; votes := votes st;
     temperatureHistory := hs;
     activeConnections := activeConnections st |}.

Definition with_activeConnections
    (cs : JsMap.t string ActiveConnection) (st : MemStorage) :=
  {| zones := zones st; votes := votes st;
     temperatureHistory := temperatureHistory st;
     activeConnections := cs |}.

Definition defaultZones : list (string * string * Q) :=
  [ ("standing", "1F Standing Area", 223 # 10);
    ("zone-a", "1F Zone A", 218 # 10);
    ("zone-b", "1F Zone B", 227 # 10);
    ("zone-c", "2F Zone C", 215 # 10);
    ("recharge", "2F Recharge Zone", 231 # 10) ]%Q.

Definition initializeDefaultZones (now : Z) : JsMap.t string Zone :=
  fold_left
    (fun m '(id, name, temp) =>
       JsMap.set id
         {| zone_id := id; zone_name := name; zone_temperature := temp;
            zone_hotVotes := 0; zone_coldVotes := 0; zone_activeVoters := 0;
            zone_lastUpdated := now |} m)
    defaultZones JsMap.empty.

(** [new MemStorage()], constructed at time [now]. *)
Definition MemStorage_new (now : Z) : MemStorage :=
  {| zones := initializeDefaultZones now;
     votes := JsMap.empty;
     temperatureHistory := JsMap.empty;
     activeConnections := JsMap.empty |}.

Definition getAllZones (st : MemStorage) : list Zone :=
  JsMap.values (zones st).

Definition getZone (st : MemStorage) (id : string) : option Zone :=
  JsMap.get id (zones st).

Definition updateZoneTemperature (now : Z) (id : string) (temperature : Q)
    (st : MemStorage) : option Zone * MemStorage :=
  match JsMap.get id (zones st) with
  | None => (None, st)
  | Some zone =>
      let updatedZone :=
        {| zone_id := zone_id zone; zone_name := zone_name zone;
           zone_temperature := temperature;
           zone_hotVotes := zone_hotVotes zone;
           zone_coldVotes := zone_coldVotes zone;
           zone_activeVoters := zone_activeVoters zone;
           zone_lastUpdated := now |} in
      (Some updatedZone, with_zones (JsMap.set id updatedZone (zones st)) st)
  end.

Definition updateZoneVotes (now : Z) (id : string) (hotVotes coldVotes : Z)
    (st : MemStorage) : option Zone * MemStorage :=
  match JsMap.get id (zones st) with
  | None => (None, st)
  | Some zone =>
      let updatedZone :=
        {| zone_id := zone_id zone; zone_name := zone_name zone;
           zone_temperature := zone_temperature zone;
           zone_hotVotes := hotVotes;
           zone_coldVotes := coldVotes;
           zone_activeVoters := zone_activeVoters zone;
           zone_lastUpdated := now |} in
      (Some updatedZone, with_zones (JsMap.set id updatedZone (zones st)) st)
  end.

Definition createVote (now : Z) (id : string) (insertVote : VoteRequest)
    (st : MemStorage) : Vote * MemStorage :=
  let vote :=
    {| vote_id := id; vote_zoneId := vr_zoneId insertVote;
       vote_voteType := vr_voteType insertVote; vote_timestamp := now |} in
  (vote, with_votes (JsMap.set id vote (votes st)) st).

Definition getVotesByZone (st : MemStorage) (zoneId : string) : list Vote :=
  filter (fun vote => String.eqb (vote_zoneId vote) zoneId)
         (JsMap.values (votes st)).

(** The plain reading, for a cutoff and timestamps that are valid dates;
    [Js.getRecentVotesByZone] below is the general one. *)
Definition getRecentVotesByZone (now : Z) (st : MemStorage)
    (zoneId : string) (minutes : Z) : list Vote :=
  let cutoff := now - minutes * 60 * 1000 in
  filter (fun vote =>
            (String.eqb (vote_zoneId vote) zoneId
             && (cutoff <=? vote_timestamp vote)%Z)%bool)
         (JsMap.values (votes st)).

Definition addTemperatureHistory (now : Z) (id : string)
    (zoneId : string) (temperature : Q) (st : MemStorage)
    : TemperatureHistory * MemStorage :=
  let history :=
    {| th_id := id; th_zoneId := zoneId; th_temperature := temperature;
       th_timestamp := now |} in
  (history,
   with_temperatureHistory (JsMap.set id history (temperatureHistory st)) st).

(** [updateConnection]: [id] is the result of [randomUUID()], used only when
    no record carries [sessionId] yet. *)
Definition updateConnection (now : Z) (id : string) (sessionId : string)
    (st : MemStorage) : ActiveConnection * MemStorage :=
  match find (fun conn => String.eqb (conn_sessionId conn) sessionId)
             (JsMap.values (activeConnections st)) with
  | Some existing =>
      let updated :=
        {| conn_id := conn_id existing;
           conn_sessionId := conn_sessionId existing;
           conn_lastSeen := now |} in
      (updated,
       with_activeConnections
         (JsMap.set (conn_id existing) updated (activeConnections st)) st)
  | None =>
      let connection :=
        {| conn_id := id; conn_sessionId := sessionId;
           conn_lastSeen := now |} in
      (connection,
       with_activeConnections
         (JsMap.set id connection (activeConnections st)) st)
  end.

Definition getActiveConnections (st : MemStorage) : list ActiveConnection :=
  JsMap.values (activeConnections st).

Definition cleanupOldConnections (now : Z) (minutes : Z) (st : MemStorage)
    : MemStorage :=
  let cutoff := now - minutes * 60 * 1000 in
  let toRemove :=
    map fst (filter (fun e => (conn_lastSeen (snd e) <? cutoff)%Z)
                    (activeConnections st)) in
  with_activeConnections
    (fold_left (fun m id => JsMap.delete id m) toRemove (activeConnections st))
    st.

Record VoteCounts := { hotVotes : Z; coldVotes : Z }.

Definition getRecentVoteCounts (now : Z) (st : MemStorage)
    (zoneId : string) (minutes : Z) : VoteCounts :=
  let recentVotes := getRecentVotesByZone now st zoneId minutes in
  {| hotVotes :=
       Z.of_nat (List.length (filter (fun vote => String.eqb (vote_voteType vote) "hot")
                                recentVotes));
     coldVotes :=
       Z.of_nat (List.length (filter (fun vote => String.eqb (vote_voteType vote) "cold")
                                recentVotes)) |}.

(** ** Routes (server/routes.ts) *)

(** The values returned by the [randomUUID()] calls of one request: the
    fallback session id, and the ids of the connection record, of the vote
    and of the temperature sample. *)
Record Rand := {
  rnd_session : string;
  rnd_connection : string;
  rnd_vote : string;
  rnd_history : string
}.

Inductive Response (A : Type) :=
| Ok200 (body : A)
| Fail (status : Z) (message : string).
Arguments Ok200 {A} body.
Arguments Fail {A} status message.

(** [req.headers['x-session-id'] as string || randomUUID()]: an absent or
    empty header is falsy. *)
Definition sessionIdOf (header : option string) (rnd : Rand) : string :=
  match header with
  | Some s => if String.eqb s "" then rnd_session rnd else s
  | None => rnd_session rnd
  end.

Definition withRecentVotes (zone : Zone) (recentVotes : VoteCounts) : Zone :=
  {| zone_id := zone_id zone; zone_name := zone_name zone;
     zone_temperature := zone_temperature zone;
     zone_hotVotes := hotVotes recentVotes;
     zone_coldVotes := coldVotes recentVotes;
     zone_activeVoters := zone_activeVoters zone;
     zone_lastUpdated := zone_lastUpdated zone |}.

(** [GET /api/zones] *)
Definition get_api_zones (now : Z) (rnd : Rand) (header : option string)
    (st : MemStorage) : Response (list Zone) * MemStorage :=
  let sessionId := sessionIdOf header rnd in
  let st1 := snd (updateConnection now (rnd_connection rnd) sessionId st) in
  let zones := getAllZones st1 in
  let updatedZones :=
    map (fun zone =>
           let recentVotes := getRecentVoteCounts now st1 (zone_id zone) 10 in
           withRecentVotes zone recentVotes)
        zones in
  (Ok200 updatedZones, st1).

(** [GET /api/zones/:id] *)
Definition get_api_zone (st : MemStorage) (id : string) : Response Zone :=
  match getZone st id with
  | None => Fail 404 "Zone not found"
  | Some zone => Ok200 zone
  end.

(** [Math.round]: the nearest integer, halves towards plus infinity. *)
Definition Math_round (x : Q) : Z := Qfloor (x + (1 # 2)).

Definition newTemperature (recentVotes : VoteCounts) : Q :=
  let voteDifference := hotVotes recentVotes - coldVotes recentVotes in
  let baseTemperature := 22%Q in
  let temperatureAdjustment := (inject_Z voteDifference * (1 # 10))%Q in
  (inject_Z (Math_round ((baseTemperature + temperatureAdjustment) * 10)) / 10)%Q.

(** *** The same computation on binary64 numbers *)

Definition float_of_Z (z : Z) : float :=
  match z with
  | Z0 => 0%float
  | Zpos _ => PrimFloat.of_uint63 (Uint63.of_Z z)
  | Zneg p => PrimFloat.opp (PrimFloat.of_uint63 (Uint63.of_Z (Zpos p)))
  end.

(** [Math.floor] for numbers of magnitude below [2^51]: adding and taking
    away [2^52] rounds to an integer, which is one too high when it exceeds
    the argument. *)
Definition Math_floor_binary64 (x : float) : float :=
  let two52 := 4503599627370496%float in
  let r := (if PrimFloat.ltb x 0 then (x - two52) + two52
            else (x + two52) - two52)%float in
  (if PrimFloat.ltb x r then r - 1 else r)%float.

Definition Math_round_binary64 (x : float) : float :=
  Math_floor_binary64 (x + 0.5)%float.

Definition newTemperature_binary64 (recentVotes : VoteCounts) : float :=
  let voteDifference :=
    float_of_Z (hotVotes recentVotes - coldVotes recentVotes) in
  let baseTemperature := 22.0%float in
  let temperatureAdjustment := (voteDifference * 0.1)%float in
  (Math_round_binary64 ((baseTemperature + temperatureAdjustment) * 10) / 10)%float.

(** The body of a successful vote: [{...updatedZone, hotVotes, coldVotes}]. *)
Record VoteResponse := {
  vresp_zone : option Zone;
  vresp_hotVotes : Z;
  vresp_coldVotes : Z
}.

(** [POST /api/vote] *)
Definition post_api_vote (now : Z) (rnd : Rand) (header : option string)
    (body : Body) (st : MemStorage) : Response VoteResponse * MemStorage :=
  match voteRequestSchema_parse body with
  | None => (Fail 400 "Invalid vote data", st)
  | Some validatedData =>
      match getZone st (vr_zoneId validatedData) with
      | None => (Fail 404 "Zone not found", st)
      | Some _ =>
          let sessionId := sessionIdOf header rnd in
          let st1 :=
            snd (updateConnection now (rnd_connection rnd) sessionId st) in
          let st2 := snd (createVote now (rnd_vote rnd) validatedData st1) in
          let recentVotes :=
            getRecentVoteCounts now st2 (vr_zoneId validatedData) 10 in
          let temperature := newTemperature recentVotes in
          let st3 :=
            snd (updateZoneTemperature now (vr_zoneId validatedData)
                   temperature st2) in
          let st4 :=
            snd (addTemperatureHistory now (rnd_history rnd)
                   (vr_zoneId validatedData) temperature st3) in
          let updatedZone := getZone st4 (vr_zoneId validatedData) in
          (Ok200 {| vresp_zone := updatedZone;
                    vresp_hotVotes := hotVotes recentVotes;
                    vresp_coldVotes := coldVotes recentVotes |},
           st4)
      end
  end.

(** *** [parseInt] with no radix argument; [None] is [NaN]. *)

(** A string is the sequence of its UTF-8 bytes. The white space and line
    terminators that [parseInt] skips are, of one byte: TAB, LF, VT, FF, CR
    and SP; of two bytes: U+00A0; of three bytes: U+1680, U+2000 to U+200A,
    U+2028, U+2029, U+202F, U+205F, U+3000 and U+FEFF. *)
Definition isStrWhiteSpaceChar (c : ascii) : bool :=
  let n := nat_of_ascii c in
  (Nat.eqb n 32 || Nat.eqb n 9 || Nat.eqb n 10 || Nat.eqb n 11
   || Nat.eqb n 12 || Nat.eqb n 13)%bool.

Definition isStrWhiteSpaceChar2 (c1 c2 : ascii) : bool :=
  (Nat.eqb (nat_of_ascii c1) 194 && Nat.eqb (nat_of_ascii c2) 160)%bool.

Definition isStrWhiteSpaceChar3 (c1 c2 c3 : ascii) : bool :=
  let n1 := nat_of_ascii c1 in
  let n2 := nat_of_ascii c2 in
  let n3 := nat_of_ascii c3 in
  ((Nat.eqb n1 225 && Nat.eqb n2 154 && Nat.eqb n3 128)
   || (Nat.eqb n1 226 && Nat.eqb n2 128
       && ((Nat.leb 128 n3 && Nat.leb n3 138)
           || Nat.eqb n3 168 || Nat.eqb n3 169 || Nat.eqb n3 175))
   || (Nat.eqb n1 226 && Nat.eqb n2 129 && Nat.eqb n3 159)
   || (Nat.eqb n1 227 && Nat.eqb n2 128 && Nat.eqb n3 128)
   || (Nat.eqb n1 239 && Nat.eqb n2 187 && Nat.eqb n3 191))%bool.

Fixpoint trimStart (s : string) : string :=
  match s with
  | String c1 r1 =>
      if isStrWhiteSpaceChar c1 then trimStart r1
      else
        match r1 with
        | String c2 r2 =>
            if isStrWhiteSpaceChar2 c1 c2 then trimStart r2
            else
              match r2 with
              | String c3 r3 =>
                  if isStrWhiteSpaceChar3 c1 c2 c3 then trimStart r3 else s
              | EmptyString => s
              end
        | EmptyString => s
        end
  | EmptyString => s
  end.

Definition digitValue (c : ascii) : option Z :=
  let n := Z.of_nat (nat_of_ascii c) in
  if ((48 <=? n) && (n <=? 57))%bool%Z then Some (n - 48)
  else if ((97 <=? n) && (n <=? 122))%bool%Z then Some (n - 87)
  else if ((65 <=? n) && (n <=? 90))%bool%Z then Some (n - 55)
  else None.

(** The longest prefix of digits of the radix; [acc] is [None] until a
    digit has been read. *)
Fixpoint parseDigits (radix : Z) (s : string) (acc : option Z) : option Z :=
  match s with
  | EmptyString => acc
  | String c r =>
      match digitValue c with
      | Some d =>
          if (d <? radix)%Z
          then parseDigits radix r
                 (Some (match acc with Some a => a * radix + d | None => d end))
          else acc
      | None => acc
      end
  end.

Definition parseInt (s : string) : option Z :=
  let s1 := trimStart s in
  let '(sign, s2) :=
    match s1 with
    | String "-" r => (-1, r)
    | String "+" r => (1, r)
    | _ => (1, s1)
    end in
  let '(radix, s3) :=
    match s2 with
    | String "0" (String "x" r) => (16, r)
    | String "0" (String "X" r) => (16, r)
    | _ => (10, s2)
    end in
  match parseDigits radix s3 None with
  | Some n => Some (sign * n)
  | None => None
  end.

(** [parseInt(req.query.hours as string) || 6]: a missing parameter is
    [undefined], whose parse is [NaN]; [NaN] and [0] are falsy. *)
Definition parseIntQuery (query : option string) : option Z :=
  match query with
  | Some s => parseInt s
  | None => None
  end.

Definition hoursOf (query : option string) : Z :=
  match parseIntQuery query with
  | None => 6
  | Some 0 => 6
  | Some h => h
  end.

(** *** [GET /api/zones/:id/vote-history] *)

Record IntervalCount := { hot : Z; cold : Z }.

Record HistoryEntry := {
  he_timestamp : Z;
  he_hotVotes : Z;
  he_coldVotes : Z
}.

(** Round down to the nearest 10-minute mark:
    [d.setMinutes(Math.floor(d.getMinutes() / 10) * 10, 0, 0)]. *)
Definition floorToTenMinutes (tz t : Z) : Z :=
  let minutes := getMinutes tz t / 10 * 10 in
  setMinutes tz t minutes 0 0.

(** The body of [allVotes.forEach]. *)
Definition groupVote (tz : Z) (intervalData : JsMap.t Z IntervalCount)
    (vote : Vote) : JsMap.t Z IntervalCount :=
  let voteDate := floorToTenMinutes tz (vote_timestamp vote) in
  let intervalKey := isoMinuteKey voteDate in
  let intervalData1 :=
    if JsMap.has intervalKey intervalData then intervalData
    else JsMap.set intervalKey {| hot := 0; cold := 0 |} intervalData in
  match JsMap.get intervalKey intervalData1 with
  | Some data =>
      JsMap.set intervalKey
        (if String.eqb (vote_voteType vote) "hot"
         then {| hot := hot data + 1; cold := cold data |}
         else {| hot := hot data; cold := cold data + 1 |})
        intervalData1
  | None => intervalData1
  end.

(** The body of the loop over [i]. *)
Definition historyEntry (tz now : Z) (intervalData : JsMap.t Z IntervalCount)
    (i : Z) : HistoryEntry :=
  let intervalDate := floorToTenMinutes tz (now - i * 10 * 60 * 1000) in
  let intervalKey := isoMinuteKey intervalDate in
  let data :=
    match JsMap.get intervalKey intervalData with
    | Some d => d
    | None => {| hot := 0; cold := 0 |}
    end in
  {| he_timestamp := intervalDate;
     he_hotVotes := hot data;
     he_coldVotes := cold data |}.

(** [for (let i = n - 1; i >= 0; i--) result.push(...)]. *)
Fixpoint historyLoop (tz now : Z) (intervalData : JsMap.t Z IntervalCount)
    (n : nat) : list HistoryEntry :=
  match n with
  | O => []
  | S i =>
      historyEntry tz now intervalData (Z.of_nat i)
      :: historyLoop tz now intervalData i
  end.

(** The handler in the plain reading, where no date is invalid and nothing
    throws; [Js.get_vote_history] below is the handler with its [catch]. *)
Definition get_vote_history (tz now : Z) (st : MemStorage) (zoneId : string)
    (hoursQuery : option string) : Response (list HistoryEntry) :=
  let hours := hoursOf hoursQuery in
  let allVotes := getRecentVotesByZone now st zoneId (hours * 60) in
  let intervalData := fold_left (groupVote tz) allVotes JsMap.empty in
  let totalIntervals := hours * 6 in
  Ok200 (historyLoop tz now intervalData (Z.to_nat totalIntervals)).

(** ** Timers and runs of the server *)

(** [startTemperatureHistoryCapture]: one sample per zone; [ids k] is the id
    drawn for the [k]-th zone. *)
Definition temperatureHistoryTick (now : Z) (ids : nat -> string)
    (st : MemStorage) : MemStorage :=
  snd (fold_left
         (fun '(k, s) zone =>
            (S k, snd (addTemperatureHistory now (ids k) (zone_id zone)
                         (zone_temperature zone) s)))
         (JsMap.values (zones st)) (O, st)).

(** [startConnectionCleanup] *)
Definition connectionCleanupTick (now : Z) (st : MemStorage) : MemStorage :=
  cleanupOldConnections now 5 st.

Inductive Event :=
| EvGetZones (now : Z) (rnd : Rand) (header : option string)
| EvPostVote (now : Z) (rnd : Rand) (header : option string) (body : Body)
| EvHistoryTick (now : Z) (ids : nat -> string)
| EvCleanupTick (now : Z).

Definition step (st : MemStorage) (ev : Event) : MemStorage :=
  match ev with
  | EvGetZones now rnd header => snd (get_api_zones now rnd header st)
  | EvPostVote now rnd header body => snd (post_api_vote now rnd header body st)
  | EvHistoryTick now ids => temperatureHistoryTick now ids st
  | EvCleanupTick now => connectionCleanupTick now st
  end.

Definition run (evs : list Event) (st : MemStorage) : MemStorage :=
  fold_left step evs st.

(** The states of a server started at some time and driven by any sequence
    of requests and timer ticks. *)
Definition reachable (st : MemStorage) : Prop :=
  exists t0 evs, st = run evs (MemStorage_new t0).

(** ** Vocabulary of the properties *)

(** The number of votes of a ledger that satisfy a test. *)
Fixpoint countVotes (p : Vote -> bool) (ledger : list Vote) : Z :=
  match ledger with
  | [] => 0
  | v :: r => (if p v then 1 else 0) + countVotes p r
  end.

(** A vote of type [voteType] for [zoneId], not older than ten minutes at
    time [now]. *)
Definition inWindow (now : Z) (zoneId voteType : string) (v : Vote) : bool :=
  (String.eqb (vote_zoneId v) zoneId
   && String.eqb (vote_voteType v) voteType
   && (now - 10 * msPerMinute <=? vote_timestamp v)%Z)%bool.

Definition windowCounts (now : Z) (zoneId : string) (ledger : list Vote)
    : VoteCounts :=
  {| hotVotes := countVotes (inWindow now zoneId "hot") ledger;
     coldVotes := countVotes (inWindow now zoneId "cold") ledger |}.

(** The two fields the request schema reads. *)
Definition zoneIdOf (b : Body) : JValue :=
  match b with BodyObject z _ => z | BodyNotObject => JUndefined end.

Definition voteTypeOf (b : Body) : JValue :=
  match b with BodyObject _ v => v | BodyNotObject => JUndefined end.

(** The connection records of a store: every record is filed under its own
    id, and no two records carry the same session id. *)
Definition filedUnderId (m : JsMap.t string ActiveConnection) : Prop :=
  Forall (fun e => conn_id (snd e) = fst e) m.

Definition onePerSession (m : JsMap.t string ActiveConnection) : Prop :=
  NoDup (map conn_sessionId (JsMap.values m)).

Definition conn_inv (m : JsMap.t string ActiveConnection) : Prop :=
  JsMap.wf m /\ filedUnderId m /\ onePerSession m.

(** Calls of the two connection methods, in any order. *)
Inductive ConnCall :=
| Touch (now : Z) (id sessionId : string)
| Sweep (now minutes : Z).

Definition connCall (st : MemStorage) (c : ConnCall) : MemStorage :=
  match c with
  | Touch now id sessionId => snd (updateConnection now id sessionId st)
  | Sweep now minutes => cleanupOldConnections now minutes st
  end.

(** Every vote of the ledger names a zone of the store. *)
Definition votesReferenceZones (st : MemStorage) : Prop :=
  forall v, In v (JsMap.values (votes st)) -> getZone st (vote_zoneId v) <> None.

(** ** Sample data *)

Definition rndA : Rand :=
  {| rnd_session := "anon-1"; rnd_connection := "conn-1";
     rnd_vote := "vote-1"; rnd_history := "sample-1" |}.

Definition rndB : Rand :=
  {| rnd_session := "anon-2"; rnd_connection := "conn-2";
     rnd_vote := "vote-2"; rnd_history := "sample-2" |}.

(** A server started at time 0 that took one hot vote for [zone-a], sent by
    session [alice] one second later. *)
Definition hotVoteEvent : Event :=
  EvPostVote 1000 rndA (Some "alice") (BodyObject (JStr "zone-a") (JStr "hot")).

Definition storeAfterHotVote : MemStorage :=
  run [hotVoteEvent] (MemStorage_new 0).

(** ** The rest of the storage class and of the routes *)

Definition updateZoneActiveVoters (now : Z) (id : string) (activeVoters : Z)
    (st : MemStorage) : option Zone * MemStorage :=
  match JsMap.get id (zones st) with
  | None => (None, st)
  | Some zone =>
      let updatedZone :=
        {| zone_id := zone_id zone; zone_name := zone_name zone;
           zone_temperature := zone_temperature zone;
           zone_hotVotes := zone_hotVotes zone;
           zone_coldVotes := zone_coldVotes zone;
           zone_activeVoters := activeVoters;
           zone_lastUpdated := now |} in
      (Some updatedZone, with_zones (JsMap.set id updatedZone (zones st)) st)
  end.

(** [Array.prototype.sort] with the comparator
    [(a, b) => a.timestamp.getTime() - b.timestamp.getTime()]: the sort is
    stable, so it is the insertion of each sample before the first one that
    is not earlier. *)
Fixpoint insertByTimestamp (x : TemperatureHistory)
    (l : list TemperatureHistory) : list TemperatureHistory :=
  match l with
  | [] => [x]
  | y :: r =>
      if (th_timestamp x <=? th_timestamp y)%Z then x :: y :: r
      else y :: insertByTimestamp x r
  end.

Fixpoint sortByTimestamp (l : list TemperatureHistory)
    : list TemperatureHistory :=
  match l with
  | [] => []
  | x :: r => insertByTimestamp x (sortByTimestamp r)
  end.

Definition getTemperatureHistory (now : Z) (st : MemStorage)
    (zoneId : string) (hours : Z) : list TemperatureHistory :=
  let cutoff := now - hours * 60 * 60 * 1000 in
  sortByTimestamp
    (filter (fun history =>
               (String.eqb (th_zoneId history) zoneId
                && (cutoff <=? th_timestamp history)%Z)%bool)
            (JsMap.values (temperatureHistory st))).

(** The body of [GET /api/stats]; [averageTemperature] is [None] for the
    [NaN] that the division by [zones.length = 0] gives. *)
Record Stats := {
  stats_totalVotes : Z;
  stats_hotVotes : Z;
  stats_coldVotes : Z;
  stats_averageTemperature : option Q;
  stats_connectedUsers : Z;
  stats_zones : Z
}.

Definition roundToTenth (x : Q) : Q :=
  (inject_Z (Math_round (x * 10)) / 10)%Q.

Definition get_api_stats (now : Z) (st : MemStorage) : Response Stats :=
  let zones := getAllZones st in
  let activeConnections := getActiveConnections st in
  let totals :=
    fold_left
      (fun '(totalHotVotes, totalColdVotes) zone =>
         let recentVotes := getRecentVoteCounts now st (zone_id zone) 10 in
         (totalHotVotes + hotVotes recentVotes,
          totalColdVotes + coldVotes recentVotes))
      zones (0, 0) in
  let totalHotVotes := fst totals in
  let totalColdVotes := snd totals in
  let totalVotes := totalHotVotes + totalColdVotes in
  let averageTemperature :=
    match zones with
    | [] => None
    | _ :: _ =>
        Some (fold_left (fun sum zone => sum + zone_temperature zone)%Q zones 0%Q
              / inject_Z (Z.of_nat (List.length zones)))%Q
    end in
  Ok200 {| stats_totalVotes := totalVotes;
           stats_hotVotes := totalHotVotes;
           stats_coldVotes := totalColdVotes;
           stats_averageTemperature := option_map roundToTenth averageTemperature;
           stats_connectedUsers := Z.of_nat (List.length activeConnections);
           stats_zones := Z.of_nat (List.length zones) |}.

(** ** The vote bar of a zone card (client/src/pages/home.tsx) *)

Definition hotPercentage (zone : Zone) : Q :=
  let totalVotes := zone_hotVotes zone + zone_coldVotes zone in
  if (0 <? totalVotes)%Z
  then (inject_Z (zone_hotVotes zone) / inject_Z totalVotes * 100)%Q
  else 50%Q.

Definition Math_max (a b : Q) : Q := if Qle_bool a b then b else a.

(** The width of the bar, in percent, and whether it takes the red
    gradient ([hotPercentage >= 50]) rather than the blue one. *)
Definition barWidth (zone : Zone) : Q :=
  Math_max (hotPercentage zone) (100 - hotPercentage zone)%Q.

Definition barIsRed (zone : Zone) : bool :=
  Qle_bool 50 (hotPercentage zone).

(** ** More vocabulary *)

Fixpoint sumZ (l : list Z) : Z :=
  match l with
  | [] => 0
  | x :: r => x + sumZ r
  end.

(** The fields of a stored zone that no route writes, with the key the zone
    is filed under. *)
Definition zoneFixedPart (e : string * Zone)
    : string * string * string * Z * Z * Z :=
  (fst e, zone_id (snd e), zone_name (snd e), zone_hotVotes (snd e),
   zone_coldVotes (snd e), zone_activeVoters (snd e)).

Definition seedFixedPart : list (string * string * string * Z * Z * Z) :=
  map (fun '(id, name, _) => (id, id, name, 0, 0, 0)) defaultZones.

Definition zonesAsSeeded (st : MemStorage) : Prop :=
  map zoneFixedPart (zones st) = seedFixedPart.

(** Every vote of the ledger is a hot or a cold one. *)
Definition votesWellTyped (st : MemStorage) : Prop :=
  forall v, In v (JsMap.values (votes st)) ->
            vote_voteType v = "hot" \/ vote_voteType v = "cold".

(** A vote cast in the last ten minutes, for whatever zone. *)
Definition isRecent (now : Z) (v : Vote) : bool :=
  (now - 10 * msPerMinute <=? vote_timestamp v)%Z.

(** The vote falls into the bucket that starts at [start]. *)
Definition inBucket (tz start : Z) (v : Vote) : bool :=
  (floorToTenMinutes tz (vote_timestamp v) =? start)%Z.

Definition isHot (v : Vote) : bool := String.eqb (vote_voteType v) "hot".

(** A whole number of tenths. *)
Definition wholeTenths (x : Q) : Prop := exists n : Z, (x == n # 10)%Q.

(** [intervalData.get(intervalKey) || { hot: 0, cold: 0 }] *)
Definition countsOr0 (o : option IntervalCount) : IntervalCount :=
  match o with
  | Some d => d
  | None => {| hot := 0; cold := 0 |}
  end.

(** The bucket key of a vote. *)
Definition voteKey (tz : Z) (v : Vote) : Z :=
  isoMinuteKey (floorToTenMinutes tz (vote_timestamp v)).

(** A ledger entry is filed under its id, is a hot or a cold vote and names
    a zone of the store. *)
Definition ledgerEntryOk (st : MemStorage) (e : string * Vote) : Prop :=
  vote_id (snd e) = fst e
  /\ (vote_voteType (snd e) = "hot" \/ vote_voteType (snd e) = "cold")
  /\ getZone st (vote_zoneId (snd e)) <> None.

(** ** Dates with their range and host time zones with transitions *)

(** The definitions of the vote history above read every integer as the time
    value of a [Date] and take the local time for UTC shifted by one offset.
    The module [Js] below gives the same code with the two features of
    JavaScript dates that they leave out: a time value beyond 8.64e15 ms is
    [NaN] (an Invalid Date, [None] here), on which comparisons are false and
    [toISOString] throws; and the local time is that of the host time zone,
    whose offset may change. *)

Local Open Scope Z_scope.

Definition maxTimeValue : Z := 8640000000000000.

(** [TimeClip], as applied by [new Date(value)]. *)
Definition TimeClip (t : Z) : option Z :=
  if Z.abs t <=? maxTimeValue then Some t else None.

(** A host time zone, by its offsets from UTC in milliseconds: the offset in
    force at a UTC instant ([LocalTZA(t, true)]), and the offset by which a
    local time value is read ([LocalTZA(t, false)]). *)
Record TimeZone := {
  offsetAtUtc : Z -> Z;
  offsetOfLocal : Z -> Z
}.

(** A zone that is always [minutes] minutes ahead of UTC. *)
Definition fixedOffset (minutes : Z) : TimeZone :=
  {| offsetAtUtc := fun _ => minutes * msPerMinute;
     offsetOfLocal := fun _ => minutes * msPerMinute |}.

(** A zone whose offset changes once, at the UTC instant [instant], from
    [before] to [after]. A local time that occurs twice or not at all is read
    with the offset before the transition. *)
Definition oneTransition (instant before after : Z) : TimeZone :=
  {| offsetAtUtc := fun t => if t <? instant then before else after;
     offsetOfLocal :=
       fun tl => if tl <? instant + Z.max before after then before else after |}.

(** America/New_York around the end of daylight saving time on 2023-11-05,
    at 06:00 UTC: from UTC-4 to UTC-5. *)
Definition newYork2023 : TimeZone :=
  oneTransition 1699164000000 (-4 * msPerHour) (-5 * msPerHour).

(** No zone is further than a day from UTC. *)
Definition zoneBounded (zone : TimeZone) : Prop :=
  forall t, Z.abs (offsetAtUtc zone t) <= msPerDay
            /\ Z.abs (offsetOfLocal zone t) <= msPerDay.

(** The offsets by which local times are read are whole minutes, as those of
    all zones have been since 1972. *)
Definition wholeMinuteOffsets (zone : TimeZone) : Prop :=
  forall t, offsetOfLocal zone t mod msPerMinute = 0.

(** What a rounding to a ten-minute mark can move an instant by, in a bounded
    zone: twice a day and ten minutes. *)
Definition zoneMargin : Z := 2 * msPerDay + 10 * msPerMinute.

(** The first 16 characters of [toISOString()]: [YYYY-MM-DDTHH:MM] names the
    UTC minute for the years 0 to 9999; for the other years the string has a
    sign and six digits of year, and its first 16 characters,
    [+YYYYYY-MM-DDTHH], name the UTC hour. *)
Inductive IsoKey :=
| KeyMinute (minute : Z)
| KeyHour (hour : Z).

Definition IsoKey_eqb (a b : IsoKey) : bool :=
  match a, b with
  | KeyMinute x, KeyMinute y => x =? y
  | KeyHour x, KeyHour y => x =? y
  | _, _ => false
  end.

#[export] Instance KeyEq_IsoKey : KeyEq IsoKey :=
  {| keqb := IsoKey_eqb;
     keqb_eq :=
       ltac:(intros [x|x] [y|y]; simpl; split; intros E;
             try discriminate; try (apply Z.eqb_eq in E; congruence);
             try (injection E as ->; apply Z.eqb_refl)) |}.

Definition plainYear (t : Z) : bool :=
  (-62167219200000 <=? t) && (t <? 253402300800000).

Definition isoPrefix16 (t : Z) : IsoKey :=
  if plainYear t then KeyMinute (t / msPerMinute) else KeyHour (t / msPerHour).

Module Js.

Definition LocalTime (zone : TimeZone) (t : Z) : Z :=
  t + offsetAtUtc zone t.

Definition UTC (zone : TimeZone) (t : Z) : Z :=
  t - offsetOfLocal zone t.

(** [Date.prototype.getMinutes]: [NaN] for an Invalid Date. *)
Definition getMinutes (zone : TimeZone) (d : option Z) : option Z :=
  match d with
  | Some t => Some (MinFromTime (LocalTime zone t))
  | None => None
  end.

(** [Date.prototype.setMinutes(min, sec, ms)]: the new time value of the
    date. *)
Definition setMinutes (zone : TimeZone) (d : option Z) (min : option Z)
    (sec ms : Z) : option Z :=
  match d, min with
  | Some t, Some m =>
      let lt := LocalTime zone t in
      TimeClip (UTC zone (Day lt * msPerDay + HourFromTime lt * msPerHour
                          + m * msPerMinute + sec * msPerSecond + ms))
  | _, _ => None
  end.

(** [d.setMinutes(Math.floor(d.getMinutes() / 10) * 10, 0, 0)] *)
Definition floorToTenMinutes (zone : TimeZone) (d : option Z) : option Z :=
  let minutes :=
    match getMinutes zone d with
    | Some m => Some (m / 10 * 10)
    | None => None
    end in
  setMinutes zone d minutes 0 0.

(** [vote.timestamp >= cutoff] on two dates: false when either is invalid. *)
Definition getRecentVotesByZone (now : Z) (st : MemStorage)
    (zoneId : string) (minutes : Z) : list Vote :=
  let cutoff := TimeClip (now - minutes * 60 * 1000) in
  filter (fun vote =>
            (String.eqb (vote_zoneId vote) zoneId
             && match TimeClip (vote_timestamp vote), cutoff with
                | Some t, Some c => c <=? t
                | _, _ => false
                end)%bool)
         (JsMap.values (votes st)).

(** The body of [allVotes.forEach]; [None] once [toISOString] has thrown. *)
Definition groupVote (zone : TimeZone)
    (acc : option (JsMap.t IsoKey IntervalCount)) (vote : Vote)
    : option (JsMap.t IsoKey IntervalCount) :=
  match acc with
  | None => None
  | Some intervalData =>
      let voteDate := TimeClip (vote_timestamp vote) in
      match floorToTenMinutes zone voteDate with
      | None => None
      | Some rounded =>
          let intervalKey := isoPrefix16 rounded in
          let intervalData1 :=
            if JsMap.has intervalKey intervalData then intervalData
            else JsMap.set intervalKey {| hot := 0; cold := 0 |} intervalData in
          match JsMap.get intervalKey intervalData1 with
          | Some data =>
              Some (JsMap.set intervalKey
                      (if String.eqb (vote_voteType vote) "hot"
                       then {| hot := hot data + 1; cold := cold data |}
                       else {| hot := hot data; cold := cold data + 1 |})
                      intervalData1)
          | None => Some intervalData1
          end
      end
  end.

(** The body of the loop over [i]; [None] when [toISOString] throws. *)
Definition historyEntry (zone : TimeZone) (now : Z)
    (intervalData : JsMap.t IsoKey IntervalCount) (i : Z)
    : option HistoryEntry :=
  let intervalDate :=
    match TimeClip now with
    | Some n => TimeClip (n - i * 10 * 60 * 1000)
    | None => None
    end in
  match floorToTenMinutes zone intervalDate with
  | None => None
  | Some rounded =>
      let intervalKey := isoPrefix16 rounded in
      let data :=
        match JsMap.get intervalKey intervalData with
        | Some d => d
        | None => {| hot := 0; cold := 0 |}
        end in
      Some {| he_timestamp := rounded;
              he_hotVotes := hot data;
              he_coldVotes := cold data |}
  end.

Fixpoint historyLoop (zone : TimeZone) (now : Z)
    (intervalData : JsMap.t IsoKey IntervalCount) (n : nat)
    : option (list HistoryEntry) :=
  match n with
  | O => Some []
  | S i =>
      match historyEntry zone now intervalData (Z.of_nat i) with
      | None => None
      | Some e =>
          match historyLoop zone now intervalData i with
          | None => None
          | Some result => Some (e :: result)
          end
      end
  end.

(** [GET /api/zones/:id/vote-history] with its [catch]. *)
Definition get_vote_history (zone : TimeZone) (now : Z) (st : MemStorage)
    (zoneId : string) (hoursQuery : option string)
    : Response (list HistoryEntry) :=
  let hours := hoursOf hoursQuery in
  let allVotes := getRecentVotesByZone now st zoneId (hours * 60) in
  match fold_left (groupVote zone) allVotes (Some JsMap.empty) with
  | None => Fail 500 "Failed to fetch vote history"
  | Some intervalData =>
      let totalIntervals := hours * 6 in
      match historyLoop zone now intervalData (Z.to_nat totalIntervals) with
      | None => Fail 500 "Failed to fetch vote history"
      | Some result => Ok200 result
      end
  end.

(** The vote falls into the bucket that starts at [start]. *)
Definition inBucket (zone : TimeZone) (start : Z) (v : Vote) : bool :=
  match floorToTenMinutes zone (TimeClip (vote_timestamp v)) with
  | Some rounded => rounded =? start
  | None => false
  end.

(** The vote has the bucket key [key]. *)
Definition hasKey (zone : TimeZone) (key : IsoKey) (v : Vote) : bool :=
  match floorToTenMinutes zone (TimeClip (vote_timestamp v)) with
  | Some rounded => IsoKey_eqb key (isoPrefix16 rounded)
  | None => false
  end.

End Js.

Local Open Scope string_scope.
Local Open Scope list_scope.

(** * Properties *)

Lemma keqb_refl {K} `{KeyEq K} (a : K) : keqb a a = true.
Proof. now apply keqb_eq. Qed.

Lemma keqb_neq {K} `{KeyEq K} (a b : K) : keqb a b = false <-> a <> b.
Proof.
  split.
  - intros E Heq. apply keqb_eq in Heq. congruence.
  - intros N. destruct (keqb a b) eqn:E; [|reflexivity].
    apply keqb_eq in E. contradiction.
Qed.

(** ** Facts about [JsMap] *)

Section JsMapFacts.
Context {K V : Type} `{KeyEq K}.
Implicit Types (m : JsMap.t K V) (k : K) (v : V).

Lemma get_In m k v : JsMap.get k m = Some v -> In (k, v) m.
Proof.
  induction m as [|[k' v'] r IH]; simpl; [discriminate|].
  destruct (keqb k k') eqn:E.
  - intros [= ->]. apply keqb_eq in E. subst. now left.
  - intros G. right. auto.
Qed.

Lemma get_None_keys m k : JsMap.get k m = None <-> ~ In k (JsMap.keys m).
Proof.
  induction m as [|[k' v'] r IH]; simpl.
  - tauto.
  - destruct (keqb k k') eqn:E.
    + apply keqb_eq in E. subst. split; [discriminate|]. intros N. tauto.
    + apply keqb_neq in E. rewrite IH. split.
      * intros N [->|Hin]; tauto.
      * tauto.
Qed.

Lemma wf_In_get m k v : JsMap.wf m -> In (k, v) m -> JsMap.get k m = Some v.
Proof.
  unfold JsMap.wf.
  induction m as [|[k' v'] r IH]; simpl; [tauto|].
  intros W [Heq|Hin].
  - inversion Heq; subst. now rewrite keqb_refl.
  - inversion W as [|? ? Hnot W']; subst.
    destruct (keqb k k') eqn:E.
    + apply keqb_eq in E. subst. exfalso. apply Hnot.
      change k' with (fst (k', v)). now apply in_map.
    + auto.
Qed.

Lemma wf_In_unique m k v v' :
  JsMap.wf m -> In (k, v) m -> In (k, v') m -> v = v'.
Proof.
  intros W H1 H2.
  apply (wf_In_get _ _ _ W) in H1. apply (wf_In_get _ _ _ W) in H2.
  congruence.
Qed.

Lemma get_set_same m k v : JsMap.get k (JsMap.set k v m) = Some v.
Proof.
  induction m as [|[k' v'] r IH]; simpl.
  - now rewrite keqb_refl.
  - destruct (keqb k k') eqn:E; simpl.
    + now rewrite keqb_refl.
    + now rewrite E.
Qed.

Lemma get_set_other m k k' v :
  k' <> k -> JsMap.get k' (JsMap.set k v m) = JsMap.get k' m.
Proof.
  intros N. induction m as [|[k0 v0] r IH]; simpl.
  - apply keqb_neq in N. now rewrite N.
  - destruct (keqb k k0) eqn:E; simpl.
    + apply keqb_eq in E. subst k0. apply keqb_neq in N. now rewrite N.
    + now rewrite IH.
Qed.

Lemma get_set_not_None m k k' v :
  JsMap.get k' m <> None -> JsMap.get k' (JsMap.set k v m) <> None.
Proof.
  intros G. destruct (keqb k' k) eqn:E.
  - apply keqb_eq in E. subst. now rewrite get_set_same.
  - apply keqb_neq in E. now rewrite get_set_other.
Qed.

Lemma set_fresh m k v :
  JsMap.get k m = None -> JsMap.set k v m = m ++ [(k, v)].
Proof.
  induction m as [|[k' v'] r IH]; simpl; [reflexivity|].
  destruct (keqb k k'); [discriminate|].
  intros G. now rewrite IH.
Qed.

Lemma keys_set_present m k v :
  In k (JsMap.keys m) -> JsMap.keys (JsMap.set k v m) = JsMap.keys m.
Proof.
  induction m as [|[k' v'] r IH]; simpl; [tauto|].
  intros Hin. destruct (keqb k k') eqn:E; simpl.
  - apply keqb_eq in E. now subst.
  - f_equal. apply IH. destruct Hin as [->|]; [|assumption].
    rewrite keqb_refl in E. discriminate.
Qed.

Lemma In_set m k v e :
  In e (JsMap.set k v m) -> e = (k, v) \/ In e m.
Proof.
  induction m as [|[k' v'] r IH]; simpl.
  - intros [<-|[]]. now left.
  - destruct (keqb k k'); simpl.
    + intros [<-|Hin]; auto.
    + intros [<-|Hin]; auto. destruct (IH Hin); auto.
Qed.

Lemma In_set_same m k v : In (k, v) (JsMap.set k v m).
Proof. apply get_In, get_set_same. Qed.

Lemma wf_set m k v : JsMap.wf m -> JsMap.wf (JsMap.set k v m).
Proof.
  unfold JsMap.wf.
  induction m as [|[k' v'] r IH]; simpl; intros W.
  - constructor; [simpl; tauto | constructor].
  - inversion W as [|? ? Hnot W']; subst.
    destruct (keqb k k') eqn:E; simpl.
    + apply keqb_eq in E. subst. now constructor.
    + constructor; [|auto].
      intros Hin. apply in_map_iff in Hin. destruct Hin as [[k0 v0] [E0 Hin]].
      simpl in E0. subst k0. apply In_set in Hin. destruct Hin as [Heq|Hin].
      * inversion Heq; subst. rewrite keqb_refl in E. discriminate.
      * apply Hnot. change k' with (fst (k', v0)). now apply in_map.
Qed.

(** Deleting a list of keys one after the other keeps the entries whose key
    is not in the list. *)
Lemma fold_delete (ks : list K) m :
  fold_left (fun m' k => JsMap.delete k m') ks m
  = filter (fun e => negb (existsb (fun k => keqb k (fst e)) ks)) m.
Proof.
  revert m. induction ks as [|k ks IH]; intros m; simpl.
  - induction m as [|e r IHm]; simpl; [reflexivity|]. now rewrite <- IHm.
  - rewrite IH. unfold JsMap.delete.
    induction m as [|e r IHm]; simpl; [reflexivity|].
    destruct (keqb k (fst e)); simpl.
    + apply IHm.
    + destruct (existsb _ ks); simpl; [apply IHm | now rewrite IHm].
Qed.

Lemma wf_filter (p : K * V -> bool) m : JsMap.wf m -> JsMap.wf (filter p m).
Proof.
  unfold JsMap.wf, JsMap.keys.
  induction m as [|e r IH]; simpl; intros W; [constructor|].
  inversion W as [|? ? Hnot W']; subst.
  destruct (p e); simpl; [|auto].
  constructor; [|auto].
  intros Hin. apply Hnot. apply in_map_iff in Hin.
  destruct Hin as [e' [E Hin]]. apply filter_In in Hin.
  rewrite <- E. apply in_map. tauto.
Qed.
End JsMapFacts.

(** ** Ten-minute marks *)

Lemma floorToTenMinutes_mod (tz t : Z) :
  floorToTenMinutes tz t = t - (t + tz * 60000) mod 600000.
Proof.
  unfold floorToTenMinutes, setMinutes, getMinutes, UTC, LocalTime, Day,
    HourFromTime, MinFromTime, msPerDay, msPerHour, msPerMinute, msPerSecond.
  Z.div_mod_to_equations. lia.
Qed.

Lemma floorToTenMinutes_shift (tz t i : Z) :
  floorToTenMinutes tz (t - i * 10 * 60 * 1000)
  = floorToTenMinutes tz t - i * 600000.
Proof.
  rewrite !floorToTenMinutes_mod.
  replace (t - i * 10 * 60 * 1000 + tz * 60000)
    with (t + tz * 60000 + (- i) * 600000) by lia.
  rewrite Z.mod_add by lia. lia.
Qed.

(** The mark is at most ten minutes before the instant, and it is a multiple
    of ten minutes on the local clock. *)
Lemma floorToTenMinutes_bucket (tz t : Z) :
  floorToTenMinutes tz t <= t < floorToTenMinutes tz t + 600000
  /\ LocalTime tz (floorToTenMinutes tz t) mod 600000 = 0.
Proof.
  rewrite floorToTenMinutes_mod. unfold LocalTime, msPerMinute.
  pose proof (Z.mod_pos_bound (t + tz * 60000) 600000 ltac:(lia)) as B.
  split; [lia|].
  replace (t - (t + tz * 60000) mod 600000 + tz * 60000)
    with (t + tz * 60000 - (t + tz * 60000) mod 600000) by lia.
  rewrite Zminus_mod, Z.mod_mod by lia.
  rewrite Z.sub_diag. reflexivity.
Qed.

(** ** The vote-history series *)

Lemma hoursOf_requested (q : option string) (h : Z) :
  parseIntQuery q = Some h -> h <> 0 -> hoursOf q = h.
Proof.
  unfold hoursOf. intros -> N. destruct h; [contradiction| |]; reflexivity.
Qed.

Lemma hoursOf_default (q : option string) :
  parseIntQuery q = None \/ parseIntQuery q = Some 0 -> hoursOf q = 6.
Proof. unfold hoursOf. now intros [-> | ->]. Qed.

Example parseInt_decimal : parseInt "24" = Some 24.
Proof. reflexivity. Qed.

Example parseInt_zero : parseIntQuery (Some "0") = Some 0.
Proof. reflexivity. Qed.

Example parseInt_not_a_number : parseIntQuery (Some "abc") = None.
Proof. reflexivity. Qed.

Example parseInt_missing : parseIntQuery None = None.
Proof. reflexivity. Qed.

Example parseInt_negative : hoursOf (Some "-2") = -2.
Proof. reflexivity. Qed.

(** A no-break space (bytes 194, 160) and a byte order mark (239, 187, 191)
    before the digits are skipped. *)
Example parseInt_unicode_space :
  parseInt (String (ascii_of_nat 194) (String (ascii_of_nat 160) "1")) = Some 1
  /\ parseInt (String (ascii_of_nat 239) (String (ascii_of_nat 187)
                 (String (ascii_of_nat 191) " 12"))) = Some 12.
Proof. split; reflexivity. Qed.

Lemma historyLoop_length tz now d n :
  List.length (historyLoop tz now d n) = n.
Proof. induction n; simpl; congruence. Qed.

Lemma historyLoop_nth tz now d n k :
  (k < n)%nat ->
  nth_error (historyLoop tz now d n) k
  = Some (historyEntry tz now d (Z.of_nat (n - 1 - k))).
Proof.
  revert k. induction n as [|i IH]; intros k Hk; [lia|].
  destruct k as [|k]; cbn [historyLoop nth_error].
  - replace (S i - 1 - 0)%nat with i by lia. reflexivity.
  - replace (S i - 1 - S k)%nat with (i - 1 - k)%nat by lia.
    apply IH. lia.
Qed.

Lemma historyEntry_timestamp tz now d i :
  he_timestamp (historyEntry tz now d i)
  = floorToTenMinutes tz now - i * 600000.
Proof. unfold historyEntry; simpl. apply floorToTenMinutes_shift. Qed.

(** The [k]-th entry of the series, counted from the oldest. *)
Lemma historyLoop_timestamp tz now d n k e :
  nth_error (historyLoop tz now d n) k = Some e ->
  (k < n)%nat
  /\ he_timestamp e
     = floorToTenMinutes tz now - Z.of_nat (n - 1 - k) * 600000.
Proof.
  intros E.
  assert (Hk : (k < n)%nat).
  { rewrite <- (historyLoop_length tz now d n).
    apply nth_error_Some. congruence. }
  split; [exact Hk|].
  rewrite historyLoop_nth in E by exact Hk.
  injection E as <-. apply historyEntry_timestamp.
Qed.

Lemma historyLoop_no_data tz now n :
  Forall (fun e => he_hotVotes e = 0 /\ he_coldVotes e = 0)
         (historyLoop tz now JsMap.empty n).
Proof. induction n; simpl; constructor; auto. Qed.

Lemma getRecentVotesByZone_none now st zoneId minutes :
  (forall v, In v (JsMap.values (votes st)) -> vote_zoneId v = zoneId ->
             vote_timestamp v < now - minutes * 60 * 1000) ->
  getRecentVotesByZone now st zoneId minutes = [].
Proof.
  intros Hold. unfold getRecentVotesByZone.
  induction (JsMap.values (votes st)) as [|v r IH]; simpl; [reflexivity|].
  destruct (String.eqb (vote_zoneId v) zoneId) eqn:E; simpl.
  - apply String.eqb_eq in E.
    pose proof (Hold v (or_introl eq_refl) E) as Hlt.
    destruct (Z.leb_spec (now - minutes * 60 * 1000) (vote_timestamp v));
      [lia|].
    apply IH. intros; apply Hold; simpl; auto.
  - apply IH. intros; apply Hold; simpl; auto.
Qed.

(** C9. A [hours] parameter that is missing, that does not parse to a
    number, or that parses to 0 is replaced by 6: the answer then has 36
    buckets, and in particular is not empty. *)
Theorem vote_history_default_hours (tz now : Z) (st : MemStorage)
    (zoneId : string) (q : option string) :
  parseIntQuery q = None \/ parseIntQuery q = Some 0 ->
  hoursOf q = 6
  /\ exists series,
       get_vote_history tz now st zoneId q = Ok200 series
       /\ List.length series = 36%nat
       /\ series <> [].
Proof.
  intros Hq. pose proof (hoursOf_default q Hq) as E.
  split; [exact E|]. unfold get_vote_history. rewrite E.
  eexists. split; [reflexivity|].
  split; [apply historyLoop_length|].
  change (Z.to_nat (6 * 6)) with 36%nat. simpl. discriminate.
Qed.

Lemma vote_history_default_hours_witness :
  exists series,
    get_vote_history 0 5000 storeAfterHotVote "zone-a" (Some "abc")
    = Ok200 series
    /\ List.length series = 36%nat.
Proof.
  destruct (vote_history_default_hours 0 5000 storeAfterHotVote "zone-a"
              (Some "abc") (or_introl eq_refl)) as [_ [series [E [L _]]]].
  exists series. split; [exact E | exact L].
Defined.

(** ** Recency counts and the temperature *)

Lemma getRecentVoteCounts_window now st zoneId :
  getRecentVoteCounts now st zoneId 10
  = windowCounts now zoneId (JsMap.values (votes st)).
Proof.
  unfold getRecentVoteCounts, getRecentVotesByZone, windowCounts.
  assert (G : forall ty l,
             Z.of_nat
               (List.length
                  (filter (fun vote => String.eqb (vote_voteType vote) ty)
                     (filter
                        (fun vote =>
                           (String.eqb (vote_zoneId vote) zoneId
                            && (now - 10 * 60 * 1000 <=? vote_timestamp vote)%Z)%bool)
                        l)))
             = countVotes (inWindow now zoneId ty) l).
  { intros ty l. induction l as [|v r IH]; [reflexivity|].
    cbn [filter countVotes]. unfold inWindow at 1, msPerMinute.
    change (10 * 60 * 1000) with (10 * 60000) in *.
    destruct (String.eqb (vote_zoneId v) zoneId); cbn [andb].
    - destruct (now - 10 * 60000 <=? vote_timestamp v)%Z.
      + cbn [filter]. destruct (String.eqb (vote_voteType v) ty); cbn [andb].
        * cbn [List.length]. rewrite Nat2Z.inj_succ, IH. lia.
        * rewrite IH. lia.
      + rewrite andb_false_r, IH. lia.
    - rewrite IH. lia. }
  now rewrite !G.
Qed.

Lemma countVotes_nonneg p l : 0 <= countVotes p l.
Proof. induction l as [|v r IH]; simpl; [lia|]. destruct (p v); lia. Qed.

Lemma countVotes_In p l v : In v l -> p v = true -> 1 <= countVotes p l.
Proof.
  induction l as [|w r IH]; simpl; [tauto|].
  intros [->|Hin] Hp.
  - rewrite Hp. pose proof (countVotes_nonneg p r). lia.
  - specialize (IH Hin Hp). destruct (p w); lia.
Qed.

Lemma Math_round_integer (n : Z) : Math_round (inject_Z n) = n.
Proof.
  unfold Math_round, Qfloor, Qplus, inject_Z. simpl.
  Z.div_mod_to_equations. lia.
Qed.

(** The value is a whole number of tenths, so rounding it to one decimal
    changes nothing. *)
Lemma newTemperature_exact (c : VoteCounts) :
  (newTemperature c == 22 + (1 # 10) * inject_Z (hotVotes c - coldVotes c))%Q.
Proof.
  unfold newTemperature.
  set (d := hotVotes c - coldVotes c).
  assert (E : ((22 + inject_Z d * (1 # 10)) * 10 == inject_Z (220 + d))%Q).
  { rewrite inject_Z_plus. change (inject_Z 220) with 220%Q. field. }
  unfold Math_round. rewrite E. fold (Math_round (inject_Z (220 + d))).
  rewrite Math_round_integer, inject_Z_plus.
  change (inject_Z 220) with 220%Q. field.
Qed.

Lemma updateConnection_frame now id sessionId st :
  let st' := snd (updateConnection now id sessionId st) in
  zones st' = zones st /\ votes st' = votes st
  /\ temperatureHistory st' = temperatureHistory st.
Proof.
  unfold updateConnection. destruct (find _ _); simpl; auto.
Qed.

(** The store after an accepted vote. *)
Lemma post_api_vote_accepted now rnd header body st req zone :
  voteRequestSchema_parse body = Some req ->
  getZone st (vr_zoneId req) = Some zone ->
  let st' := snd (post_api_vote now rnd header body st) in
  votes st'
  = JsMap.set (rnd_vote rnd)
      {| vote_id := rnd_vote rnd; vote_zoneId := vr_zoneId req;
         vote_voteType := vr_voteType req; vote_timestamp := now |}
      (votes st)
  /\ zones st'
     = JsMap.set (vr_zoneId req)
         {| zone_id := zone_id zone; zone_name := zone_name zone;
            zone_temperature :=
              newTemperature
                (windowCounts now (vr_zoneId req) (JsMap.values (votes st')));
            zone_hotVotes := zone_hotVotes zone;
            zone_coldVotes := zone_coldVotes zone;
            zone_activeVoters := zone_activeVoters zone;
            zone_lastUpdated := now |}
         (zones st)
  /\ activeConnections st'
     = activeConnections
         (snd (updateConnection now (rnd_connection rnd)
                 (sessionIdOf header rnd) st)).
Proof.
  intros Hparse Hzone. cbv zeta.
  unfold post_api_vote. rewrite Hparse, Hzone. cbv zeta. cbn [snd].
  destruct (updateConnection_frame now (rnd_connection rnd)
              (sessionIdOf header rnd) st) as [Hz [Hv _]].
  set (st1 := snd (updateConnection now (rnd_connection rnd)
                     (sessionIdOf header rnd) st)) in *.
  unfold updateZoneTemperature, createVote, addTemperatureHistory.
  cbn [snd zones votes with_votes].
  rewrite Hz. unfold getZone in Hzone. rewrite Hzone.
  cbn [snd zones votes activeConnections temperatureHistory
       with_zones with_votes with_temperatureHistory].
  rewrite getRecentVoteCounts_window.
  cbn [votes with_votes]. rewrite Hv. auto.
Qed.

Lemma voteRequestSchema_parse_Some body req :
  voteRequestSchema_parse body = Some req ->
  body = BodyObject (JStr (vr_zoneId req)) (JStr (vr_voteType req))
  /\ (vr_voteType req = "hot" \/ vr_voteType req = "cold").
Proof.
  destruct body as [|[| | | |z|] [| | | |v|]]; try discriminate.
  simpl. destruct (String.eqb v "hot") eqn:Eh; simpl.
  - intros [= <-]. apply String.eqb_eq in Eh. simpl. subst. auto.
  - destruct (String.eqb v "cold") eqn:Ec; [|discriminate].
    intros [= <-]. apply String.eqb_eq in Ec. simpl. subst. auto.
Qed.

(** In binary64 too the result is the number nearest to the whole number of
    tenths [(220 + hot - cold) / 10]: checked for every difference of counts
    from -5000 to 5000. *)
Example newTemperature_binary64_tenths :
  forallb
    (fun d =>
       PrimFloat.eqb
         (newTemperature_binary64
            {| hotVotes := Z.max d 0; coldVotes := Z.max (- d) 0 |})
         (float_of_Z (220 + d) / 10)%float)
    (map (fun k => Z.of_nat k - 5000) (seq 0 (Z.to_nat 10001)))
  = true.
Proof. vm_compute. reflexivity. Qed.

(** C2. An accepted vote (its body passes the schema and its zone exists)
    is appended to the ledger, and the temperature then stored for the zone is
    [22 + 0.1 * (hotCount - coldCount)], the counts being those of the hot and
    cold votes of the zone in the last ten minutes of the ledger that contains
    the new vote. With no cold vote in the window this is
    [22 + 0.1 * hotCount], and for zero counts the formula gives [22]. *)
Theorem vote_sets_temperature (now : Z) (rnd : Rand) (header : option string)
    (body : Body) (st : MemStorage) (req : VoteRequest) (zone : Zone) :
  voteRequestSchema_parse body = Some req ->
  getZone st (vr_zoneId req) = Some zone ->
  let st' := snd (post_api_vote now rnd header body st) in
  let ledger := JsMap.values (votes st') in
  let hotCount := countVotes (inWindow now (vr_zoneId req) "hot") ledger in
  let coldCount := countVotes (inWindow now (vr_zoneId req) "cold") ledger in
  In {| vote_id := rnd_vote rnd; vote_zoneId := vr_zoneId req;
        vote_voteType := vr_voteType req; vote_timestamp := now |} ledger
  /\ 1 <= hotCount + coldCount
  /\ (exists zone',
        getZone st' (vr_zoneId req) = Some zone'
        /\ (zone_temperature zone'
            == 22 + (1 # 10) * inject_Z (hotCount - coldCount))%Q
        /\ (coldCount = 0 ->
            (zone_temperature zone' == 22 + (1 # 10) * inject_Z hotCount)%Q))
  /\ (newTemperature {| hotVotes := 0; coldVotes := 0 |} == 22)%Q.
Proof.
  intros Hparse Hzone.
  destruct (post_api_vote_accepted now rnd header body st req zone
              Hparse Hzone) as [Hvotes [Hzones _]].
  cbv zeta in *.
  set (st' := snd (post_api_vote now rnd header body st)) in *.
  set (ledger := JsMap.values (votes st')) in *.
  set (newVote := {| vote_id := rnd_vote rnd; vote_zoneId := vr_zoneId req;
                     vote_voteType := vr_voteType req;
                     vote_timestamp := now |}) in *.
  set (hotCount := countVotes (inWindow now (vr_zoneId req) "hot") ledger).
  set (coldCount := countVotes (inWindow now (vr_zoneId req) "cold") ledger).
  assert (Hin : In newVote ledger).
  { unfold ledger. rewrite Hvotes. unfold JsMap.values.
    change newVote with (snd (rnd_vote rnd, newVote)).
    apply in_map, In_set_same. }
  assert (Hone : 1 <= hotCount + coldCount).
  { pose proof (countVotes_nonneg (inWindow now (vr_zoneId req) "hot") ledger).
    pose proof (countVotes_nonneg (inWindow now (vr_zoneId req) "cold") ledger).
    assert (Hw : forall ty, vr_voteType req = ty ->
                 inWindow now (vr_zoneId req) ty newVote = true).
    { intros ty <-. unfold inWindow, newVote, msPerMinute; simpl.
      rewrite !String.eqb_refl. simpl. apply Z.leb_le. lia. }
    destruct (voteRequestSchema_parse_Some body req Hparse) as [_ [E|E]].
    - pose proof (countVotes_In _ _ _ Hin (Hw _ E)).
      unfold hotCount, coldCount. lia.
    - pose proof (countVotes_In _ _ _ Hin (Hw _ E)).
      unfold hotCount, coldCount. lia. }
  split; [exact Hin|]. split; [exact Hone|]. split.
  - unfold getZone. rewrite Hzones, get_set_same.
    eexists. split; [reflexivity|]. cbn [zone_temperature].
    pose proof (newTemperature_exact (windowCounts now (vr_zoneId req) ledger))
      as E.
    cbn [hotVotes coldVotes windowCounts] in E. fold hotCount coldCount in E.
    split; [exact E|].
    intros C0. rewrite E, C0, Z.sub_0_r. reflexivity.
  - rewrite newTemperature_exact. reflexivity.
Qed.

Lemma vote_sets_temperature_witness :
  exists zone',
    getZone storeAfterHotVote "zone-a" = Some zone'
    /\ (zone_temperature zone' == 221 # 10)%Q.
Proof.
  destruct (vote_sets_temperature 1000 rndA (Some "alice")
              (BodyObject (JStr "zone-a") (JStr "hot")) (MemStorage_new 0)
              {| vr_zoneId := "zone-a"; vr_voteType := "hot" |}
              {| zone_id := "zone-a"; zone_name := "1F Zone A";
                 zone_temperature := 218 # 10; zone_hotVotes := 0;
                 zone_coldVotes := 0; zone_activeVoters := 0;
                 zone_lastUpdated := 0 |}
              eq_refl eq_refl) as [_ [_ [[zone' [G [E _]]] _]]].
  exists zone'. split; [exact G|].
  rewrite E. vm_compute. reflexivity.
Defined.

(** ** Rejected votes *)

(** C4. A body whose [voteType] is neither ["hot"] nor ["cold"], or that
    lacks [zoneId] or [voteType], is answered 400 and the store is left exactly
    as it was: no vote, no temperature, no sample, no connection record. *)
Theorem invalid_vote_rejected (now : Z) (rnd : Rand) (header : option string)
    (body : Body) (st : MemStorage) :
  (voteTypeOf body <> JStr "hot" /\ voteTypeOf body <> JStr "cold")
  \/ zoneIdOf body = JUndefined \/ voteTypeOf body = JUndefined ->
  post_api_vote now rnd header body st = (Fail 400 "Invalid vote data", st).
Proof.
  intros Hbad. unfold post_api_vote.
  assert (E : voteRequestSchema_parse body = None).
  { destruct body as [|z v]; [reflexivity|]. simpl in Hbad.
    destruct z as [| | | |zid|]; try reflexivity;
      destruct v as [| | | |ty|]; try reflexivity.
    simpl.
    destruct (String.eqb ty "hot") eqn:Eh.
    - apply String.eqb_eq in Eh. subst.
      destruct Hbad as [[N _]|[D|D]]; [now elim N | discriminate D
                                       | discriminate D].
    - destruct (String.eqb ty "cold") eqn:Ec; [|reflexivity].
      apply String.eqb_eq in Ec. subst.
      destruct Hbad as [[_ N]|[D|D]]; [now elim N | discriminate D
                                       | discriminate D]. }
  now rewrite E.
Qed.

Lemma invalid_vote_rejected_witness :
  post_api_vote 2000 rndB (Some "bob")
    (BodyObject (JStr "zone-a") (JStr "warm")) storeAfterHotVote
  = (Fail 400 "Invalid vote data", storeAfterHotVote).
Proof.
  apply invalid_vote_rejected. left. split; discriminate.
Defined.

(** C3. A vote submission whose [zoneId] names no zone leaves the whole
    store as it was (ledger, zones, samples and connections). Validation
    comes first, as the handler orders it: a submission that passes the schema
    is answered 404, and one that does not is answered 400. *)
Theorem vote_unknown_zone (now : Z) (rnd : Rand) (header : option string)
    (zoneId : string) (voteType : JValue) (st : MemStorage) :
  getZone st zoneId = None ->
  snd (post_api_vote now rnd header (BodyObject (JStr zoneId) voteType) st)
  = st
  /\ (voteRequestSchema_parse (BodyObject (JStr zoneId) voteType) <> None ->
      fst (post_api_vote now rnd header (BodyObject (JStr zoneId) voteType) st)
      = Fail 404 "Zone not found")
  /\ (voteRequestSchema_parse (BodyObject (JStr zoneId) voteType) = None ->
      fst (post_api_vote now rnd header (BodyObject (JStr zoneId) voteType) st)
      = Fail 400 "Invalid vote data").
Proof.
  intros Hzone. unfold post_api_vote.
  destruct (voteRequestSchema_parse (BodyObject (JStr zoneId) voteType))
    as [req|] eqn:Hparse.
  - apply voteRequestSchema_parse_Some in Hparse.
    destruct Hparse as [Hbody _]. injection Hbody as Hz _.
    rewrite <- Hz, Hzone. simpl.
    split; [reflexivity|]. split; [reflexivity|discriminate].
  - simpl. split; [reflexivity|]. split; [|reflexivity].
    intros N. now elim N.
Qed.

Lemma vote_unknown_zone_witness :
  snd (post_api_vote 2000 rndB (Some "bob")
         (BodyObject (JStr "attic") (JStr "cold")) storeAfterHotVote)
  = storeAfterHotVote
  /\ fst (post_api_vote 2000 rndB (Some "bob")
            (BodyObject (JStr "attic") (JStr "cold")) storeAfterHotVote)
     = Fail 404 "Zone not found".
Proof.
  destruct (vote_unknown_zone 2000 rndB (Some "bob") "attic" (JStr "cold")
              storeAfterHotVote eq_refl) as [Hs [H404 _]].
  split; [exact Hs|]. apply H404. discriminate.
Defined.

(** ** Reading the zones *)

(** C5, as stated, fails: after the read the stored counts of [zone-a] are
    still 0 although one hot vote lies in its ten-minute window. *)
Lemma get_zones_stored_counts_stale :
  reachable storeAfterHotVote
  /\ exists zone,
       getZone (snd (get_api_zones 2000 rndB (Some "alice") storeAfterHotVote))
         "zone-a" = Some zone
       /\ zone_hotVotes zone = 0
       /\ hotVotes (getRecentVoteCounts 2000
                      (snd (get_api_zones 2000 rndB (Some "alice")
                              storeAfterHotVote)) "zone-a" 10) = 1.
Proof.
  split.
  - exists 0, [hotVoteEvent]. reflexivity.
  - eexists. split; [reflexivity|]. split; reflexivity.
Qed.

(** C5, amended. A read of [GET /api/zones] leaves the stored zones, the
    ledger and the samples as they were. The response lists the stored zones
    in their order, each with its id, name, temperature, active voters and
    last update as stored, and with [hotVotes] and [coldVotes] equal to the
    numbers of hot and of cold votes of the zone in the last ten minutes. *)
Theorem get_zones_overlays_counts (now : Z) (rnd : Rand)
    (header : option string) (st : MemStorage) :
  zones (snd (get_api_zones now rnd header st)) = zones st
  /\ votes (snd (get_api_zones now rnd header st)) = votes st
  /\ temperatureHistory (snd (get_api_zones now rnd header st))
     = temperatureHistory st
  /\ exists views,
       fst (get_api_zones now rnd header st) = Ok200 views
       /\ Forall2
            (fun stored view =>
               zone_id view = zone_id stored
               /\ zone_name view = zone_name stored
               /\ zone_temperature view = zone_temperature stored
               /\ zone_activeVoters view = zone_activeVoters stored
               /\ zone_lastUpdated view = zone_lastUpdated stored
               /\ zone_hotVotes view
                  = countVotes (inWindow now (zone_id stored) "hot")
                      (JsMap.values (votes st))
               /\ zone_coldVotes view
                  = countVotes (inWindow now (zone_id stored) "cold")
                      (JsMap.values (votes st)))
            (getAllZones st) views.
Proof.
  unfold get_api_zones. cbn [fst snd].
  destruct (updateConnection_frame now (rnd_connection rnd)
              (sessionIdOf header rnd) st) as [Hz [Hv Ht]].
  split; [exact Hz|]. split; [exact Hv|]. split; [exact Ht|].
  eexists. split; [reflexivity|].
  unfold getAllZones. rewrite Hz.
  induction (JsMap.values (zones st)) as [|zone l IH]; cbn [map];
    constructor; [|exact IH].
  rewrite getRecentVoteCounts_window, Hv.
  cbn [withRecentVotes windowCounts hotVotes coldVotes zone_id zone_name
       zone_temperature zone_activeVoters zone_lastUpdated zone_hotVotes
       zone_coldVotes].
  repeat split.
Qed.

(** ** Connection records *)

Section ConnectionFacts.
Implicit Types (m : JsMap.t string ActiveConnection) (c : ActiveConnection).

Lemma NoDup_map_inj {A B} (g : A -> B) (l : list A) (a b : A) :
  NoDup (map g l) -> In a l -> In b l -> g a = g b -> a = b.
Proof.
  induction l as [|x r IH]; simpl; [tauto|].
  intros N Ha Hb E. inversion N as [|? ? Hnot N']; subst.
  destruct Ha as [->|Ha], Hb as [->|Hb]; auto.
  - exfalso. apply Hnot. rewrite E. now apply in_map.
  - exfalso. apply Hnot. rewrite <- E. now apply in_map.
Qed.

Lemma NoDup_map_filter {A B} (g : A -> B) (p : A -> bool) (l : list A) :
  NoDup (map g l) -> NoDup (map g (filter p l)).
Proof.
  induction l as [|x r IH]; simpl; intros N; [constructor|].
  inversion N as [|? ? Hnot N']; subst.
  destruct (p x); simpl; [|auto].
  constructor; [|auto].
  intros Hin. apply Hnot. apply in_map_iff in Hin.
  destruct Hin as [y [E Hin]]. apply filter_In in Hin.
  rewrite <- E. apply in_map. tauto.
Qed.

Lemma values_filter (p : ActiveConnection -> bool) m :
  JsMap.values (filter (fun e => p (snd e)) m) = filter p (JsMap.values m).
Proof.
  unfold JsMap.values. induction m as [|e r IH]; simpl; [reflexivity|].
  destruct (p (snd e)); simpl; now rewrite IH.
Qed.

Lemma filed_In m c : filedUnderId m -> In c (JsMap.values m) -> In (conn_id c, c) m.
Proof.
  unfold filedUnderId, JsMap.values. intros F Hin.
  apply in_map_iff in Hin. destruct Hin as [[k c'] [E Hin]].
  simpl in E. subst c'. rewrite Forall_forall in F.
  specialize (F _ Hin). simpl in F. now subst k.
Qed.

Lemma filed_set m k c :
  filedUnderId m -> conn_id c = k -> filedUnderId (JsMap.set k c m).
Proof.
  unfold filedUnderId. rewrite !Forall_forall. intros F E e Hin.
  apply In_set in Hin. destruct Hin as [->|Hin]; [exact E | auto].
Qed.

(** Overwriting a record by one with the same session id leaves the list of
    session ids as it was. *)
Lemma sessions_set_present m k c old :
  JsMap.get k m = Some old -> conn_sessionId c = conn_sessionId old ->
  map conn_sessionId (JsMap.values (JsMap.set k c m))
  = map conn_sessionId (JsMap.values m).
Proof.
  intros G E. induction m as [|[k' c'] r IH]; simpl in *; [discriminate|].
  destruct (String.eqb k k') eqn:Ek; simpl.
  - injection G as ->. now rewrite E.
  - now rewrite IH.
Qed.

Lemma sessions_set_new m k c :
  onePerSession m ->
  ~ In (conn_sessionId c) (map conn_sessionId (JsMap.values m)) ->
  onePerSession (JsMap.set k c m).
Proof.
  unfold onePerSession, JsMap.values.
  induction m as [|[k' c'] r IH]; simpl; intros N Hnew.
  - constructor; [simpl; tauto | constructor].
  - inversion N as [|? ? Hnot N']; subst.
    destruct (String.eqb k k') eqn:Ek; simpl.
    + constructor; tauto.
    + constructor; [|apply IH; tauto].
      intros Hin. apply in_map_iff in Hin. destruct Hin as [c0 [E Hin]].
      apply in_map_iff in Hin. destruct Hin as [e [Ee Hin]]. subst c0.
      apply In_set in Hin. destruct Hin as [->|Hin].
      * simpl in E. apply Hnew. now left.
      * apply Hnot. rewrite <- E. apply in_map.
        now apply (in_map snd) in Hin.
Qed.

Lemma find_session m sessionId c :
  find (fun conn => String.eqb (conn_sessionId conn) sessionId)
       (JsMap.values m) = Some c ->
  In c (JsMap.values m) /\ conn_sessionId c = sessionId.
Proof.
  intros F. apply find_some in F. destruct F as [Hin E].
  apply String.eqb_eq in E. auto.
Qed.

Lemma find_session_none m sessionId :
  find (fun conn => String.eqb (conn_sessionId conn) sessionId)
       (JsMap.values m) = None ->
  ~ In sessionId (map conn_sessionId (JsMap.values m)).
Proof.
  intros F Hin. apply in_map_iff in Hin. destruct Hin as [c [E Hin]].
  pose proof (find_none _ _ F c Hin) as N. simpl in N.
  rewrite E, String.eqb_refl in N. discriminate.
Qed.

(** What [updateConnection] returns is filed in the new store under its id,
    carries the session id it was called with and was last seen now. *)
Lemma updateConnection_result now id sessionId st :
  conn_inv (activeConnections st) ->
  let r := fst (updateConnection now id sessionId st) in
  let st' := snd (updateConnection now id sessionId st) in
  conn_inv (activeConnections st')
  /\ JsMap.get (conn_id r) (activeConnections st') = Some r
  /\ conn_sessionId r = sessionId
  /\ conn_lastSeen r = now.
Proof.
  intros [W [F N]]. cbv zeta. unfold updateConnection.
  destruct (find _ _) as [existing|] eqn:Hfind; cbn [fst snd].
  - apply find_session in Hfind. destruct Hfind as [Hin Hs].
    pose proof (wf_In_get _ _ _ W (filed_In _ _ F Hin)) as G.
    cbn [activeConnections with_activeConnections conn_id conn_sessionId
         conn_lastSeen].
    split; [|rewrite get_set_same; auto].
    split; [now apply wf_set|]. split; [now apply filed_set|].
    unfold onePerSession.
    erewrite sessions_set_present; [exact N | exact G | reflexivity].
  - apply find_session_none in Hfind.
    cbn [activeConnections with_activeConnections conn_id conn_sessionId
         conn_lastSeen].
    split; [|rewrite get_set_same; auto].
    split; [now apply wf_set|]. split; [now apply filed_set|].
    now apply sessions_set_new.
Qed.

(** The sweep keeps, in order, the records that are not older than the
    cutoff. *)
Lemma cleanupOldConnections_filter now minutes st :
  JsMap.wf (activeConnections st) ->
  activeConnections (cleanupOldConnections now minutes st)
  = filter (fun e => negb (conn_lastSeen (snd e) <? now - minutes * 60 * 1000)%Z)
           (activeConnections st).
Proof.
  intros W. unfold cleanupOldConnections.
  cbn [activeConnections with_activeConnections].
  rewrite fold_delete. apply filter_ext_in. intros [k c] Hin. f_equal.
  cbn [fst snd].
  destruct (conn_lastSeen c <? now - minutes * 60 * 1000)%Z eqn:Estale.
  - apply existsb_exists. exists k. split; [|apply String.eqb_refl].
    change k with (fst (k, c)). apply in_map, filter_In. auto.
  - destruct (existsb _ _) eqn:Ex; [|reflexivity].
    apply existsb_exists in Ex. destruct Ex as [k' [Hk' Ek]].
    apply String.eqb_eq in Ek. subst k'.
    apply in_map_iff in Hk'. destruct Hk' as [[k' c'] [Ek Hin']].
    simpl in Ek. subst k'. apply filter_In in Hin'. destruct Hin' as [Hin' St].
    simpl in St. rewrite (wf_In_unique _ _ _ _ W Hin Hin') in Estale.
    congruence.
Qed.

Lemma cleanupOldConnections_inv now minutes st :
  conn_inv (activeConnections st) ->
  conn_inv (activeConnections (cleanupOldConnections now minutes st)).
Proof.
  intros [W [F N]]. rewrite cleanupOldConnections_filter by exact W.
  split; [now apply wf_filter|]. split.
  - unfold filedUnderId in *. rewrite Forall_forall in *.
    intros e Hin. apply filter_In in Hin. apply F. tauto.
  - unfold onePerSession in *.
    rewrite (values_filter
               (fun c => negb (conn_lastSeen c <? now - minutes * 60 * 1000)%Z)).
    now apply NoDup_map_filter.
Qed.

Lemma conn_inv_empty : conn_inv JsMap.empty.
Proof. repeat split; constructor. Qed.

Lemma connCall_inv st (call : ConnCall) :
  conn_inv (activeConnections st) ->
  conn_inv (activeConnections (connCall st call)).
Proof.
  intros I. destruct call as [now id sessionId|now minutes]; simpl.
  - apply (updateConnection_result now id sessionId st I).
  - now apply cleanupOldConnections_inv.
Qed.

Lemma connCalls_inv (calls : list ConnCall) st :
  conn_inv (activeConnections st) ->
  conn_inv (activeConnections (fold_left connCall calls st)).
Proof.
  revert st. induction calls as [|call calls IH]; intros st I; simpl;
    [exact I|].
  apply IH, connCall_inv, I.
Qed.
End ConnectionFacts.


(** C6. Starting from the empty connection store of a new [MemStorage],
    after any sequence of [updateConnection] and [cleanupOldConnections] calls
    no two records carry the same session id; and a further
    [updateConnection] for the session id of a record that is present returns
    that record with [lastSeen] set to now, stores it under the same id, and
    neither adds a key nor touches another record. *)
Theorem one_record_per_session (t0 : Z) (calls : list ConnCall) :
  let st := fold_left connCall calls (MemStorage_new t0) in
  JsMap.wf (activeConnections st)
  /\ onePerSession (activeConnections st)
  /\ forall now id existing,
       In existing (getActiveConnections st) ->
       let updated :=
         {| conn_id := conn_id existing;
            conn_sessionId := conn_sessionId existing;
            conn_lastSeen := now |} in
       let st' :=
         snd (updateConnection now id (conn_sessionId existing) st) in
       fst (updateConnection now id (conn_sessionId existing) st) = updated
       /\ JsMap.keys (activeConnections st') = JsMap.keys (activeConnections st)
       /\ JsMap.get (conn_id existing) (activeConnections st') = Some updated
       /\ forall k, k <> conn_id existing ->
            JsMap.get k (activeConnections st')
            = JsMap.get k (activeConnections st).
Proof.
  cbv zeta.
  pose proof (connCalls_inv calls (MemStorage_new t0) conn_inv_empty)
    as [W [F N]].
  set (st := fold_left connCall calls (MemStorage_new t0)) in *.
  split; [exact W|]. split; [exact N|].
  intros now id existing Hin. unfold updateConnection.
  destruct (find _ _) as [found|] eqn:Hfind.
  - apply find_session in Hfind. destruct Hfind as [Hin' Hs].
    assert (found = existing) as ->
      by (eapply NoDup_map_inj; [exact N | assumption | assumption | exact Hs]).
    cbn [fst snd activeConnections with_activeConnections].
    split; [reflexivity|]. split; [|split].
    + apply keys_set_present. unfold JsMap.keys.
      change (conn_id existing) with (fst (conn_id existing, existing)).
      apply in_map, filed_In; assumption.
    + apply get_set_same.
    + intros k Hk. now apply get_set_other.
  - apply find_session_none in Hfind. exfalso. apply Hfind.
    now apply in_map.
Qed.

Lemma one_record_per_session_witness :
  let st := fold_left connCall [Touch 0 "conn-1" "alice"] (MemStorage_new 0) in
  fst (updateConnection 7000 "conn-2" "alice" st)
  = {| conn_id := "conn-1"; conn_sessionId := "alice"; conn_lastSeen := 7000 |}
  /\ JsMap.keys (activeConnections
                   (snd (updateConnection 7000 "conn-2" "alice" st)))
     = ["conn-1"].
Proof.
  destruct (one_record_per_session 0 [Touch 0 "conn-1" "alice"])
    as [_ [_ Hupd]].
  destruct (Hupd 7000 "conn-2"
              {| conn_id := "conn-1"; conn_sessionId := "alice";
                 conn_lastSeen := 0 |} (or_introl eq_refl))
    as [Hr [Hk _]].
  split; [exact Hr | exact Hk].
Defined.



(** ** Votes name zones of the store *)

Lemma temperatureHistoryTick_fold now ids (l : list Zone)
    (acc : nat * MemStorage) :
  let st' :=
    snd (fold_left
           (fun '(k, s) zone =>
              (S k, snd (addTemperatureHistory now (ids k) (zone_id zone)
                           (zone_temperature zone) s)))
           l acc) in
  zones st' = zones (snd acc)
  /\ votes st' = votes (snd acc)
  /\ activeConnections st' = activeConnections (snd acc).
Proof.
  revert acc. induction l as [|zone l IH]; intros [k s]; cbv zeta.
  - auto.
  - specialize (IH (S k, snd (addTemperatureHistory now (ids k) (zone_id zone)
                                (zone_temperature zone) s))).
    cbv zeta in IH. destruct IH as [Hz [Hv Hc]].
    split; [exact Hz|]. split; [exact Hv | exact Hc].
Qed.

Lemma temperatureHistoryTick_frame now ids st :
  zones (temperatureHistoryTick now ids st) = zones st
  /\ votes (temperatureHistoryTick now ids st) = votes st
  /\ activeConnections (temperatureHistoryTick now ids st)
     = activeConnections st.
Proof.
  apply (temperatureHistoryTick_fold now ids (JsMap.values (zones st)) (O, st)).
Qed.

Lemma votesReferenceZones_frame st st' :
  zones st' = zones st -> votes st' = votes st ->
  votesReferenceZones st -> votesReferenceZones st'.
Proof.
  unfold votesReferenceZones, getZone. intros -> ->. auto.
Qed.

Lemma step_votesReferenceZones st ev :
  votesReferenceZones st -> votesReferenceZones (step st ev).
Proof.
  intros I. destruct ev as [now rnd header|now rnd header body|now ids|now];
    cbn [step].
  - destruct (updateConnection_frame now (rnd_connection rnd)
                (sessionIdOf header rnd) st) as [Hz [Hv _]].
    now apply (votesReferenceZones_frame st).
  - destruct (voteRequestSchema_parse body) as [req|] eqn:Hparse.
    + destruct (getZone st (vr_zoneId req)) as [zone|] eqn:Hzone.
      * destruct (post_api_vote_accepted now rnd header body st req zone
                    Hparse Hzone) as [Hv [Hz _]].
        cbv zeta in Hv, Hz.
        intros v Hin. unfold getZone. rewrite Hz. apply get_set_not_None.
        rewrite Hv in Hin. unfold JsMap.values in Hin.
        apply in_map_iff in Hin. destruct Hin as [e [Ee Hin]].
        apply In_set in Hin. destruct Hin as [->|Hin].
        -- simpl in Ee. subst v. simpl. unfold getZone in Hzone.
           rewrite Hzone. discriminate.
        -- apply I. subst v. now apply (in_map snd) in Hin.
      * unfold post_api_vote. now rewrite Hparse, Hzone.
    + unfold post_api_vote. now rewrite Hparse.
  - destruct (temperatureHistoryTick_frame now ids st) as [Hz [Hv _]].
    now apply (votesReferenceZones_frame st).
  - exact I.
Qed.

Lemma reachable_votesReferenceZones st :
  reachable st -> votesReferenceZones st.
Proof.
  intros [t0 [evs ->]].
  assert (G : forall evs st0,
             votesReferenceZones st0 -> votesReferenceZones (run evs st0)).
  { clear. intros evs. induction evs as [|ev evs IH]; intros st0 I; simpl;
      [exact I|].
    apply IH, step_votesReferenceZones, I. }
  apply G. intros v [].
Qed.

(** ** Reachable stores *)

Lemma step_conn_inv st ev :
  conn_inv (activeConnections st) -> conn_inv (activeConnections (step st ev)).
Proof.
  intros I. destruct ev as [now rnd header|now rnd header body|now ids|now];
    cbn [step].
  - apply (updateConnection_result now (rnd_connection rnd)
             (sessionIdOf header rnd) st I).
  - destruct (voteRequestSchema_parse body) as [req|] eqn:Hparse.
    + destruct (getZone st (vr_zoneId req)) as [zone|] eqn:Hzone.
      * destruct (post_api_vote_accepted now rnd header body st req zone
                    Hparse Hzone) as [_ [_ Hc]].
        cbv zeta in Hc. rewrite Hc.
        apply (updateConnection_result now (rnd_connection rnd)
                 (sessionIdOf header rnd) st I).
      * unfold post_api_vote. now rewrite Hparse, Hzone.
    + unfold post_api_vote. now rewrite Hparse.
  - destruct (temperatureHistoryTick_frame now ids st) as [_ [_ Hc]].
    now rewrite Hc.
  - now apply cleanupOldConnections_inv.
Qed.

(** Every store of a running server satisfies the connection invariant. *)
Lemma reachable_conn_inv st : reachable st -> conn_inv (activeConnections st).
Proof.
  intros [t0 [evs ->]].
  assert (G : forall evs st0,
             conn_inv (activeConnections st0) ->
             conn_inv (activeConnections (run evs st0))).
  { clear. intros evs. induction evs as [|ev evs IH]; intros st0 I; simpl;
      [exact I|].
    apply IH, step_conn_inv, I. }
  apply G, conn_inv_empty.
Qed.

(** ** Worked examples *)

(** Three hot votes within a minute on a fresh server set [zone-a] to 22.3. *)
Example three_hot_votes :
  let vote t :=
    EvPostVote t rndA (Some "alice")
      (BodyObject (JStr "zone-a") (JStr "hot")) in
  let vote' t :=
    EvPostVote t rndB (Some "alice")
      (BodyObject (JStr "zone-a") (JStr "hot")) in
  let rndC :=
    {| rnd_session := "anon-3"; rnd_connection := "conn-3";
       rnd_vote := "vote-3"; rnd_history := "sample-3" |} in
  let st :=
    run [vote 1000; vote' 2000;
         EvPostVote 3000 rndC (Some "alice")
           (BodyObject (JStr "zone-a") (JStr "hot"))]
        (MemStorage_new 0) in
  option_map (fun z => Qred (zone_temperature z)) (getZone st "zone-a")
  = Some (223 # 10)%Q
  /\ getRecentVoteCounts 3000 st "zone-a" 10
     = {| hotVotes := 3; coldVotes := 0 |}.
Proof. split; reflexivity. Qed.

(** The vote cast at second 1 is counted in the bucket that starts at 0. *)
Example history_of_one_vote :
  get_vote_history 0 (25 * msPerMinute) storeAfterHotVote "zone-a" (Some "1")
  = Ok200
      [ {| he_timestamp := -30 * msPerMinute; he_hotVotes := 0; he_coldVotes := 0 |};
        {| he_timestamp := -20 * msPerMinute; he_hotVotes := 0; he_coldVotes := 0 |};
        {| he_timestamp := -10 * msPerMinute; he_hotVotes := 0; he_coldVotes := 0 |};
        {| he_timestamp := 0; he_hotVotes := 1; he_coldVotes := 0 |};
        {| he_timestamp := 10 * msPerMinute; he_hotVotes := 0; he_coldVotes := 0 |};
        {| he_timestamp := 20 * msPerMinute; he_hotVotes := 0; he_coldVotes := 0 |} ].
Proof. reflexivity. Qed.

(** * Further properties of the storage class and of the routes *)

Local Open Scope Z_scope.

(** ** Buckets of the vote history *)

Lemma floorToTenMinutes_minute (tz t : Z) :
  floorToTenMinutes tz t = isoMinuteKey (floorToTenMinutes tz t) * 60000.
Proof.
  destruct (floorToTenMinutes_bucket tz t) as [_ M].
  unfold LocalTime, isoMinuteKey, msPerMinute in *.
  generalize dependent (floorToTenMinutes tz t). intros f M.
  pose proof (Z.div_mod (f + tz * 60000) 600000 ltac:(lia)) as D.
  rewrite M in D.
  assert (E : f = (10 * ((f + tz * 60000) / 600000) - tz) * 60000) by lia.
  revert E. generalize (10 * ((f + tz * 60000) / 600000) - tz) as k.
  intros k E. clear M D. subst f. now rewrite Z.div_mul by lia.
Qed.

(** Two ten-minute marks with the same key are the same mark. *)
Lemma isoMinuteKey_mark_inj (tz a b : Z) :
  isoMinuteKey (floorToTenMinutes tz a) = isoMinuteKey (floorToTenMinutes tz b)
  -> floorToTenMinutes tz a = floorToTenMinutes tz b.
Proof.
  intros E. rewrite (floorToTenMinutes_minute tz a),
    (floorToTenMinutes_minute tz b). now rewrite E.
Qed.

Lemma groupVote_get tz (m : JsMap.t Z IntervalCount) (v : Vote) (k : Z) :
  countsOr0 (JsMap.get k (groupVote tz m v))
  = if (k =? voteKey tz v)%Z
    then (if isHot v
          then {| hot := hot (countsOr0 (JsMap.get k m)) + 1;
                  cold := cold (countsOr0 (JsMap.get k m)) |}
          else {| hot := hot (countsOr0 (JsMap.get k m));
                  cold := cold (countsOr0 (JsMap.get k m)) + 1 |})
    else countsOr0 (JsMap.get k m).
Proof.
  unfold groupVote. fold (voteKey tz v). fold (isHot v).
  set (key := voteKey tz v).
  set (m1 := if JsMap.has key m then m
             else JsMap.set key {| hot := 0; cold := 0 |} m).
  assert (G1 : JsMap.get key m1 = Some (countsOr0 (JsMap.get key m))).
  { unfold m1, JsMap.has. destruct (JsMap.get key m) as [d|] eqn:G.
    - exact G.
    - now rewrite get_set_same. }
  assert (G2 : forall k', k' <> key -> JsMap.get k' m1 = JsMap.get k' m).
  { intros k' N. unfold m1. destruct (JsMap.has key m); [reflexivity|].
    now apply get_set_other. }
  rewrite G1. destruct (Z.eqb_spec k key) as [->|N].
  - rewrite get_set_same. simpl. now destruct (isHot v).
  - rewrite get_set_other by exact N. now rewrite G2.
Qed.

Lemma groupVotes_hot tz (vs : list Vote) (m : JsMap.t Z IntervalCount) k :
  hot (countsOr0 (JsMap.get k (fold_left (groupVote tz) vs m)))
  = hot (countsOr0 (JsMap.get k m))
    + countVotes (fun v => ((k =? voteKey tz v)%Z && isHot v)%bool) vs.
Proof.
  revert m. induction vs as [|v vs IH]; intros m;
    cbn [fold_left countVotes]; [lia|].
  rewrite IH, groupVote_get.
  destruct (k =? voteKey tz v)%Z; destruct (isHot v);
    cbn [hot cold andb negb]; lia.
Qed.

Lemma groupVotes_cold tz (vs : list Vote) (m : JsMap.t Z IntervalCount) k :
  cold (countsOr0 (JsMap.get k (fold_left (groupVote tz) vs m)))
  = cold (countsOr0 (JsMap.get k m))
    + countVotes (fun v => ((k =? voteKey tz v)%Z && negb (isHot v))%bool) vs.
Proof.
  revert m. induction vs as [|v vs IH]; intros m;
    cbn [fold_left countVotes]; [lia|].
  rewrite IH, groupVote_get.
  destruct (k =? voteKey tz v)%Z; destruct (isHot v);
    cbn [hot cold andb negb]; lia.
Qed.

Lemma countVotes_ext (p p' : Vote -> bool) l :
  (forall v, In v l -> p v = p' v) -> countVotes p l = countVotes p' l.
Proof.
  induction l as [|v r IH]; simpl; intros E; [reflexivity|].
  rewrite (E v (or_introl eq_refl)), IH; [reflexivity|].
  intros w Hw. apply E. now right.
Qed.

Lemma voteKey_inBucket tz t v :
  (isoMinuteKey (floorToTenMinutes tz t) =? voteKey tz v)%Z
  = inBucket tz (floorToTenMinutes tz t) v.
Proof.
  unfold inBucket, voteKey.
  destruct (Z.eqb_spec (isoMinuteKey (floorToTenMinutes tz t))
              (isoMinuteKey (floorToTenMinutes tz (vote_timestamp v))))
    as [E|N].
  - apply isoMinuteKey_mark_inj in E. symmetry. apply Z.eqb_eq. congruence.
  - symmetry. apply Z.eqb_neq. intros E. apply N. now rewrite E.
Qed.

Lemma historyEntry_counts tz now vs i :
  let e := historyEntry tz now (fold_left (groupVote tz) vs JsMap.empty) i in
  he_hotVotes e
  = countVotes (fun v => (inBucket tz (he_timestamp e) v && isHot v)%bool) vs
  /\ he_coldVotes e
     = countVotes (fun v => (inBucket tz (he_timestamp e) v
                             && negb (isHot v))%bool) vs.
Proof.
  cbv zeta. unfold historyEntry.
  cbn [he_hotVotes he_coldVotes he_timestamp].
  set (t := now - i * 10 * 60 * 1000).
  fold (countsOr0 (JsMap.get (isoMinuteKey (floorToTenMinutes tz t))
                     (fold_left (groupVote tz) vs JsMap.empty))).
  rewrite groupVotes_hot, groupVotes_cold. simpl.
  split; apply countVotes_ext; intros v _; now rewrite voteKey_inBucket.
Qed.

Lemma historyLoop_In tz now d n e :
  In e (historyLoop tz now d n) ->
  exists i, (i < n)%nat /\ e = historyEntry tz now d (Z.of_nat i).
Proof.
  induction n as [|i IH]; simpl; [tauto|].
  intros [<-|Hin].
  - exists i. split; [lia|reflexivity].
  - destruct (IH Hin) as [j [Hj E]]. exists j. split; [lia|exact E].
Qed.

Lemma countVotes_sum (p p1 p2 : Vote -> bool) l :
  (forall v, (if p v then 1 else 0)
             = (if p1 v then 1 else 0) + (if p2 v then 1 else 0)) ->
  countVotes p l = countVotes p1 l + countVotes p2 l.
Proof.
  intros E. induction l as [|v r IH]; simpl; [reflexivity|].
  rewrite IH, E. lia.
Qed.

Lemma countVotes_none (p : Vote -> bool) l :
  (forall v, p v = false) -> countVotes p l = 0.
Proof.
  intros E. induction l as [|v r IH]; simpl; [reflexivity|].
  now rewrite E, IH.
Qed.

(** The marks of two instants differ by a whole number of ten minutes; this
    gives the votes of the buckets [i < n] counted back from the mark of
    [now]. *)
Lemma bucket_step tz now ts (i : Z) :
  0 <= i ->
  let F := floorToTenMinutes tz now in
  let f := floorToTenMinutes tz ts in
  (if ((F - (i + 1) * 600000 <? f) && (f <=? F))%bool then 1 else 0)
  = (if (f =? F - i * 600000) then 1 else 0)
    + (if ((F - i * 600000 <? f) && (f <=? F))%bool then 1 else 0).
Proof.
  intros Hi. cbv zeta. rewrite !floorToTenMinutes_mod.
  destruct (Z.ltb_spec (now - (now + tz * 60000) mod 600000 - (i + 1) * 600000)
              (ts - (ts + tz * 60000) mod 600000));
    destruct (Z.leb_spec (ts - (ts + tz * 60000) mod 600000)
                (now - (now + tz * 60000) mod 600000));
    destruct (Z.eqb_spec (ts - (ts + tz * 60000) mod 600000)
                (now - (now + tz * 60000) mod 600000 - i * 600000));
    destruct (Z.ltb_spec (now - (now + tz * 60000) mod 600000 - i * 600000)
                (ts - (ts + tz * 60000) mod 600000));
    cbn [andb]; try reflexivity; exfalso;
    Z.div_mod_to_equations; lia.
Qed.

Lemma bucket_range tz now ts (n : Z) :
  let F := floorToTenMinutes tz now in
  let f := floorToTenMinutes tz ts in
  ((F - n * 600000 <? f) && (f <=? F))%bool
  = ((F - (n - 1) * 600000 <=? ts) && (ts <? F + 600000))%bool.
Proof.
  cbv zeta. rewrite !floorToTenMinutes_mod.
  destruct (Z.ltb_spec (now - (now + tz * 60000) mod 600000 - n * 600000)
              (ts - (ts + tz * 60000) mod 600000));
    destruct (Z.leb_spec (ts - (ts + tz * 60000) mod 600000)
                (now - (now + tz * 60000) mod 600000));
    destruct (Z.leb_spec
                (now - (now + tz * 60000) mod 600000 - (n - 1) * 600000) ts);
    destruct (Z.ltb_spec ts (now - (now + tz * 60000) mod 600000 + 600000));
    cbn [andb]; try reflexivity; exfalso;
    Z.div_mod_to_equations; lia.
Qed.

Lemma historyLoop_total tz now (vs : list Vote) (n : nat) :
  sumZ (map (fun e => he_hotVotes e + he_coldVotes e)
          (historyLoop tz now (fold_left (groupVote tz) vs JsMap.empty) n))
  = countVotes
      (fun v =>
         ((floorToTenMinutes tz now - Z.of_nat n * 600000
           <? floorToTenMinutes tz (vote_timestamp v))
          && (floorToTenMinutes tz (vote_timestamp v)
              <=? floorToTenMinutes tz now))%bool) vs.
Proof.
  induction n as [|i IH].
  - simpl. symmetry. apply countVotes_none. intros v.
    destruct (Z.ltb_spec (floorToTenMinutes tz now - 0)
                (floorToTenMinutes tz (vote_timestamp v)));
      destruct (Z.leb_spec (floorToTenMinutes tz (vote_timestamp v))
                  (floorToTenMinutes tz now)); cbn [andb]; try reflexivity.
    lia.
  - cbn [historyLoop map sumZ]. rewrite IH.
    destruct (historyEntry_counts tz now vs (Z.of_nat i)) as [-> ->].
    rewrite historyEntry_timestamp.
    rewrite (countVotes_sum
               (fun v =>
                  ((floorToTenMinutes tz now - Z.of_nat (S i) * 600000
                    <? floorToTenMinutes tz (vote_timestamp v))
                   && (floorToTenMinutes tz (vote_timestamp v)
                       <=? floorToTenMinutes tz now))%bool)
               (inBucket tz (floorToTenMinutes tz now - Z.of_nat i * 600000))
               (fun v =>
                  ((floorToTenMinutes tz now - Z.of_nat i * 600000
                    <? floorToTenMinutes tz (vote_timestamp v))
                   && (floorToTenMinutes tz (vote_timestamp v)
                       <=? floorToTenMinutes tz now))%bool)).
    + f_equal. symmetry. apply countVotes_sum. intros v.
      destruct (inBucket _ _ v), (isHot v); reflexivity.
    + intros v. rewrite Nat2Z.inj_succ. unfold Z.succ, inBucket.
      apply bucket_step. lia.
Qed.

(** A vote cast 33 minutes before the hour is fetched for a one-hour history
    asked at minute 25, but the oldest bucket starts 30 minutes before the
    hour: no entry counts it. *)
Example vote_history_drops_oldest :
  let st :=
    run [EvPostVote (- 33 * msPerMinute) rndA (Some "alice")
           (BodyObject (JStr "zone-a") (JStr "cold"))] (MemStorage_new (- msPerHour)) in
  List.length (getRecentVotesByZone (25 * msPerMinute) st "zone-a" 60) = 1%nat
  /\ exists series,
       get_vote_history 0 (25 * msPerMinute) st "zone-a" (Some "1")
       = Ok200 series
       /\ Forall (fun e => he_hotVotes e = 0 /\ he_coldVotes e = 0) series.
Proof.
  split; [reflexivity|]. eexists. split; [reflexivity|].
  vm_compute. repeat constructor.
Qed.

(** X3. The series is empty exactly when the requested hours are negative;
    the handler still answers 200 then. The hours used are never 0. *)
Theorem vote_history_empty_iff_negative (tz now : Z) (st : MemStorage)
    (zoneId : string) (q : option string) :
  hoursOf q <> 0
  /\ (get_vote_history tz now st zoneId q = Ok200 [] <-> hoursOf q < 0)
  /\ (forall h, parseIntQuery q = Some h -> h < 0 ->
                get_vote_history tz now st zoneId q = Ok200 []).
Proof.
  assert (N : hoursOf q <> 0).
  { unfold hoursOf. destruct (parseIntQuery q) as [[| |]|]; discriminate. }
  split; [exact N|].
  assert (E : get_vote_history tz now st zoneId q = Ok200 [] <-> hoursOf q < 0).
  { unfold get_vote_history. split.
    - intros H. injection H as H.
      apply (f_equal (@List.length _)) in H.
      rewrite historyLoop_length in H. simpl in H. lia.
    - intros H. replace (Z.to_nat (hoursOf q * 6)) with O by lia. reflexivity. }
  split; [exact E|].
  intros h Hq Hneg. apply E. rewrite (hoursOf_requested q h Hq); lia.
Qed.

Lemma vote_history_empty_iff_negative_witness :
  get_vote_history 0 5000 storeAfterHotVote "zone-a" (Some "-3") = Ok200 [].
Proof.
  destruct (vote_history_empty_iff_negative 0 5000 storeAfterHotVote "zone-a"
              (Some "-3")) as [_ [_ H]].
  apply (H (-3)); reflexivity.
Defined.

(** ** What the routes never change in the zones *)

Section EntryFacts.
Context {V B : Type}.
Implicit Types (m : JsMap.t string V).

Lemma map_set_present (g : string * V -> B) m k v old :
  JsMap.get k m = Some old -> g (k, v) = g (k, old) ->
  map g (JsMap.set k v m) = map g m.
Proof.
  intros G E. induction m as [|[k' v'] r IH]; simpl in *; [discriminate|].
  destruct (String.eqb k k') eqn:Ek; simpl.
  - injection G as ->. apply String.eqb_eq in Ek. subst k'. now rewrite E.
  - now rewrite IH.
Qed.

Lemma Forall_set (P : string * V -> Prop) m k v :
  Forall P m -> P (k, v) -> Forall P (JsMap.set k v m).
Proof.
  rewrite !Forall_forall. intros F Pv e Hin.
  apply In_set in Hin. destruct Hin as [->|Hin]; auto.
Qed.
End EntryFacts.

Lemma run_invariant (P : MemStorage -> Prop) :
  (forall st ev, P st -> P (step st ev)) ->
  forall evs st, P st -> P (run evs st).
Proof.
  intros Hstep evs. induction evs as [|ev evs IH]; intros st I; simpl;
    [exact I|].
  apply IH, Hstep, I.
Qed.

(** The two ways a request or a tick acts on the zones and on the ledger:
    it leaves both as they are, or it is an accepted vote. *)
Lemma step_cases st ev :
  (zones (step st ev) = zones st /\ votes (step st ev) = votes st)
  \/ exists now rnd header body req zone,
       ev = EvPostVote now rnd header body
       /\ voteRequestSchema_parse body = Some req
       /\ getZone st (vr_zoneId req) = Some zone.
Proof.
  destruct ev as [now rnd header|now rnd header body|now ids|now]; cbn [step].
  - left. destruct (updateConnection_frame now (rnd_connection rnd)
                      (sessionIdOf header rnd) st) as [Hz [Hv _]]. auto.
  - destruct (voteRequestSchema_parse body) as [req|] eqn:Hparse.
    + destruct (getZone st (vr_zoneId req)) as [zone|] eqn:Hzone.
      * right. exists now, rnd, header, body, req, zone. auto.
      * left. unfold post_api_vote. rewrite Hparse, Hzone. auto.
    + left. unfold post_api_vote. rewrite Hparse. auto.
  - left. destruct (temperatureHistoryTick_frame now ids st) as [Hz [Hv _]].
    auto.
  - left. auto.
Qed.

Lemma step_zonesAsSeeded st ev : zonesAsSeeded st -> zonesAsSeeded (step st ev).
Proof.
  unfold zonesAsSeeded. intros I.
  destruct (step_cases st ev)
    as [[Hz _]|[now [rnd [header [body [req [zone [-> [Hparse Hzone]]]]]]]]].
  - now rewrite Hz.
  - cbn [step].
    destruct (post_api_vote_accepted now rnd header body st req zone
                Hparse Hzone) as [_ [Hz _]].
    cbv zeta in Hz. rewrite Hz, <- I.
    eapply map_set_present; [exact Hzone|].
    unfold zoneFixedPart. cbn [fst snd zone_id zone_name zone_hotVotes
                               zone_coldVotes zone_activeVoters].
    reflexivity.
Qed.

Lemma reachable_zonesAsSeeded st : reachable st -> zonesAsSeeded st.
Proof.
  intros [t0 [evs ->]].
  apply (run_invariant zonesAsSeeded step_zonesAsSeeded). reflexivity.
Qed.

Lemma zonesAsSeeded_entry st k z :
  zonesAsSeeded st -> In (k, z) (zones st) ->
  In (k, zone_id z, zone_name z, zone_hotVotes z, zone_coldVotes z,
      zone_activeVoters z) seedFixedPart.
Proof.
  unfold zonesAsSeeded. intros <- Hin.
  change (k, zone_id z, zone_name z, zone_hotVotes z, zone_coldVotes z,
          zone_activeVoters z) with (zoneFixedPart (k, z)).
  now apply in_map.
Qed.

Lemma zonesAsSeeded_keys st :
  zonesAsSeeded st ->
  JsMap.keys (zones st) = ["standing"; "zone-a"; "zone-b"; "zone-c"; "recharge"]
  /\ map zone_id (getAllZones st)
     = ["standing"; "zone-a"; "zone-b"; "zone-c"; "recharge"].
Proof.
  unfold zonesAsSeeded, JsMap.keys, getAllZones, JsMap.values. intros I.
  split.
  - apply (f_equal (map (fun p => fst (fst (fst (fst (fst p))))))) in I.
    rewrite map_map in I. exact I.
  - apply (f_equal (map (fun p => snd (fst (fst (fst (fst p))))))) in I.
    rewrite map_map in I. rewrite map_map. exact I.
Qed.

(** X4. In every store of a running server the zones are the five seeded
    ones, in the seeding order; each is filed under its id, keeps its seeded
    name, and its stored [hotVotes], [coldVotes] and [activeVoters] are still
    0: no route or timer ever writes them. *)
Theorem zones_stay_seeded (st : MemStorage) :
  reachable st ->
  JsMap.keys (zones st) = ["standing"; "zone-a"; "zone-b"; "zone-c"; "recharge"]
  /\ forall id zone,
       getZone st id = Some zone ->
       zone_id zone = id
       /\ (exists temperature, In (id, zone_name zone, temperature) defaultZones)
       /\ zone_hotVotes zone = 0
       /\ zone_coldVotes zone = 0
       /\ zone_activeVoters zone = 0.
Proof.
  intros R. apply reachable_zonesAsSeeded in R.
  split; [apply (zonesAsSeeded_keys st R)|].
  intros id zone G. apply get_In in G.
  pose proof (zonesAsSeeded_entry st id zone R G) as Hin.
  unfold seedFixedPart in Hin. apply in_map_iff in Hin.
  destruct Hin as [[[id0 name0] temp0] [E Hin]].
  injection E as E1 E2 E3 E4 E5 E6.
  repeat split; try congruence.
  exists temp0. rewrite <- E1, <- E3. exact Hin.
Qed.

Lemma zones_stay_seeded_witness :
  JsMap.keys (zones storeAfterHotVote)
  = ["standing"; "zone-a"; "zone-b"; "zone-c"; "recharge"].
Proof.
  assert (R : reachable storeAfterHotVote)
    by (exists 0, [hotVoteEvent]; reflexivity).
  exact (proj1 (zones_stay_seeded storeAfterHotVote R)).
Defined.

(** ** Stored temperatures *)

Lemma newTemperature_wholeTenths (c : VoteCounts) :
  wholeTenths (newTemperature c).
Proof.
  exists (220 + (hotVotes c - coldVotes c)).
  rewrite newTemperature_exact.
  rewrite (Qmake_Qdiv (220 + (hotVotes c - coldVotes c))), inject_Z_plus.
  change (inject_Z 220) with 220%Q. change (inject_Z (Zpos 10)) with 10%Q.
  field.
Qed.

Lemma step_temperatures st ev :
  Forall (fun e => wholeTenths (zone_temperature (snd e))) (zones st) ->
  Forall (fun e => wholeTenths (zone_temperature (snd e))) (zones (step st ev)).
Proof.
  intros I.
  destruct (step_cases st ev)
    as [[Hz _]|[now [rnd [header [body [req [zone [-> [Hparse Hzone]]]]]]]]].
  - now rewrite Hz.
  - cbn [step].
    destruct (post_api_vote_accepted now rnd header body st req zone
                Hparse Hzone) as [_ [Hz _]].
    cbv zeta in Hz. rewrite Hz.
    apply Forall_set; [exact I|]. cbn [snd zone_temperature].
    apply newTemperature_wholeTenths.
Qed.

(** X5. Every temperature stored by a running server is a whole number of
    tenths of a degree: a seeded value, or one produced by the rounding of the
    vote handler. *)
Theorem temperatures_are_tenths (st : MemStorage) (id : string) (zone : Zone) :
  reachable st ->
  getZone st id = Some zone ->
  exists n : Z, (zone_temperature zone == n # 10)%Q.
Proof.
  intros [t0 [evs ->]] G.
  assert (I : Forall (fun e => wholeTenths (zone_temperature (snd e)))
                (zones (run evs (MemStorage_new t0)))).
  { apply (run_invariant
             (fun s => Forall (fun e => wholeTenths (zone_temperature (snd e)))
                         (zones s)) step_temperatures).
    repeat constructor; simpl;
      [exists 223 | exists 218 | exists 227 | exists 215 | exists 231];
      reflexivity. }
  rewrite Forall_forall in I. apply get_In in G. apply (I _ G).
Qed.

Lemma temperatures_are_tenths_witness :
  exists n : Z,
    (option_map zone_temperature (getZone storeAfterHotVote "zone-a"))
    = Some (zone_temperature
              {| zone_id := "zone-a"; zone_name := "1F Zone A";
                 zone_temperature := newTemperature {| hotVotes := 1; coldVotes := 0 |};
                 zone_hotVotes := 0; zone_coldVotes := 0;
                 zone_activeVoters := 0; zone_lastUpdated := 1000 |})
    /\ (newTemperature {| hotVotes := 1; coldVotes := 0 |} == n # 10)%Q.
Proof.
  assert (R : reachable storeAfterHotVote)
    by (exists 0, [hotVoteEvent]; reflexivity).
  destruct (temperatures_are_tenths storeAfterHotVote "zone-a"
              {| zone_id := "zone-a"; zone_name := "1F Zone A";
                 zone_temperature := newTemperature {| hotVotes := 1; coldVotes := 0 |};
                 zone_hotVotes := 0; zone_coldVotes := 0;
                 zone_activeVoters := 0; zone_lastUpdated := 1000 |}
              R eq_refl) as [n E].
  exists n. split; [reflexivity | exact E].
Defined.

(** ** The ledger *)

Lemma step_ledger st ev :
  JsMap.wf (votes st) /\ Forall (ledgerEntryOk st) (votes st) ->
  JsMap.wf (votes (step st ev))
  /\ Forall (ledgerEntryOk (step st ev)) (votes (step st ev)).
Proof.
  intros [W I].
  destruct (step_cases st ev)
    as [[Hz Hv]|[now [rnd [header [body [req [zone [-> [Hparse Hzone]]]]]]]]].
  - rewrite Hv. split; [exact W|].
    unfold ledgerEntryOk, getZone in *. now rewrite Hz.
  - cbn [step].
    destruct (post_api_vote_accepted now rnd header body st req zone
                Hparse Hzone) as [Hv [Hz _]].
    cbv zeta in Hv, Hz. rewrite Hv.
    split; [now apply wf_set|].
    destruct (voteRequestSchema_parse_Some body req Hparse) as [_ Hty].
    assert (Hmono : forall id, getZone st id <> None ->
                    getZone (snd (post_api_vote now rnd header body st)) id
                    <> None).
    { intros id G. unfold getZone. rewrite Hz. now apply get_set_not_None. }
    apply Forall_set.
    + rewrite Forall_forall in *. intros e Hin.
      destruct (I e Hin) as [E1 [E2 E3]]. repeat split; auto.
    + unfold ledgerEntryOk. cbn [fst snd vote_id vote_voteType vote_zoneId].
      repeat split; auto. apply Hmono. rewrite Hzone. discriminate.
Qed.

(** X6. In every store of a running server the ledger holds one entry per
    vote id, each filed under the id of its vote, each a ["hot"] or a
    ["cold"] vote, and each for a zone that exists. *)
Theorem ledger_is_well_formed (st : MemStorage) :
  reachable st ->
  NoDup (JsMap.keys (votes st))
  /\ forall id vote,
       In (id, vote) (votes st) ->
       vote_id vote = id
       /\ (vote_voteType vote = "hot" \/ vote_voteType vote = "cold")
       /\ getZone st (vote_zoneId vote) <> None.
Proof.
  intros [t0 [evs ->]].
  destruct (run_invariant
              (fun s => JsMap.wf (votes s) /\ Forall (ledgerEntryOk s) (votes s))
              step_ledger evs (MemStorage_new t0)) as [W I].
  { split; constructor. }
  split; [exact W|]. intros id vote Hin.
  rewrite Forall_forall in I. apply (I _ Hin).
Qed.

Lemma ledger_is_well_formed_witness :
  NoDup (JsMap.keys (votes storeAfterHotVote)).
Proof.
  assert (R : reachable storeAfterHotVote)
    by (exists 0, [hotVoteEvent]; reflexivity).
  exact (proj1 (ledger_is_well_formed storeAfterHotVote R)).
Defined.

(** ** Statistics *)

Lemma stats_totals_fold now st (zs : list Zone) (h c : Z) :
  fold_left
    (fun '(totalHotVotes, totalColdVotes) zone =>
       let recentVotes := getRecentVoteCounts now st (zone_id zone) 10 in
       (totalHotVotes + hotVotes recentVotes,
        totalColdVotes + coldVotes recentVotes))
    zs (h, c)
  = (h + sumZ (map (fun z => countVotes (inWindow now (zone_id z) "hot")
                               (JsMap.values (votes st))) zs),
     c + sumZ (map (fun z => countVotes (inWindow now (zone_id z) "cold")
                               (JsMap.values (votes st))) zs)).
Proof.
  revert h c. induction zs as [|z zs IH]; intros h c; cbn [fold_left map sumZ].
  - f_equal; lia.
  - cbv zeta. rewrite IH, getRecentVoteCounts_window.
    cbn [hotVotes coldVotes windowCounts]. f_equal; lia.
Qed.

Lemma sumZ_add {A} (f g : A -> Z) (l : list A) :
  sumZ (map (fun x => f x + g x) l) = sumZ (map f l) + sumZ (map g l).
Proof. induction l as [|x r IH]; simpl; lia. Qed.

(** Among zones with pairwise distinct ids at most one has the id [id]. *)
Lemma sumZ_one_zone (zs : list Zone) (id : string) (c : bool) :
  NoDup (map zone_id zs) ->
  sumZ (map (fun z => if (String.eqb id (zone_id z) && c)%bool then 1 else 0) zs)
  = if (existsb (fun z => String.eqb id (zone_id z)) zs && c)%bool
    then 1 else 0.
Proof.
  induction zs as [|z zs IH]; cbn [map sumZ existsb]; intros N;
    [reflexivity|].
  inversion N as [|? ? Hnot N']; subst. rewrite (IH N').
  destruct (String.eqb id (zone_id z)) eqn:E; cbn [andb orb]; [|lia].
  apply String.eqb_eq in E. subst id.
  assert (X : existsb (fun z0 => String.eqb (zone_id z) (zone_id z0)) zs = false).
  { destruct (existsb _ zs) eqn:X; [|reflexivity].
    apply existsb_exists in X. destruct X as [z0 [Hin E0]].
    apply String.eqb_eq in E0. exfalso. apply Hnot. rewrite E0.
    now apply in_map. }
  rewrite X. cbn [andb]. destruct c; lia.
Qed.

Lemma sum_over_zones now ty (zs : list Zone) (ledger : list Vote) :
  NoDup (map zone_id zs) ->
  sumZ (map (fun z => countVotes (inWindow now (zone_id z) ty) ledger) zs)
  = countVotes
      (fun v =>
         (existsb (fun z => String.eqb (vote_zoneId v) (zone_id z)) zs
          && (String.eqb (vote_voteType v) ty && isRecent now v))%bool)
      ledger.
Proof.
  intros N. induction ledger as [|v r IH]; cbn [countVotes].
  - induction zs as [|z zs IHz]; simpl; [reflexivity|].
    inversion N; subst. now rewrite IHz.
  - rewrite sumZ_add, IH. f_equal.
    rewrite <- sumZ_one_zone by exact N.
    f_equal. apply map_ext. intros z. unfold inWindow, isRecent.
    now rewrite andb_assoc.
Qed.

Lemma countVotes_sum_In (p p1 p2 : Vote -> bool) l :
  (forall v, In v l ->
             (if p v then 1 else 0)
             = (if p1 v then 1 else 0) + (if p2 v then 1 else 0)) ->
  countVotes p l = countVotes p1 l + countVotes p2 l.
Proof.
  induction l as [|v r IH]; simpl; intros E; [reflexivity|].
  rewrite IH, (E v (or_introl eq_refl)); [lia|].
  intros w Hw. apply E. now right.
Qed.

Lemma reachable_votesWellTyped st : reachable st -> votesWellTyped st.
Proof.
  intros [t0 [evs ->]].
  destruct (run_invariant
              (fun s => JsMap.wf (votes s) /\ Forall (ledgerEntryOk s) (votes s))
              step_ledger evs (MemStorage_new t0)) as [_ I].
  { split; constructor. }
  intros v Hin. unfold JsMap.values in Hin. apply in_map_iff in Hin.
  destruct Hin as [e [<- Hin]]. rewrite Forall_forall in I.
  apply (I e Hin).
Qed.

(** X7. On a running server [GET /api/stats] counts every vote of the last
    ten minutes exactly once: [hotVotes] and [coldVotes] are the numbers of
    hot and of cold votes of the ledger that are at most ten minutes old,
    [totalVotes] is their sum and the number of all such votes, and [zones]
    is 5. *)
Theorem stats_count_recent_votes (now : Z) (st : MemStorage) :
  reachable st ->
  exists stats,
    get_api_stats now st = Ok200 stats
    /\ stats_hotVotes stats
       = countVotes (fun v => (isHot v && isRecent now v)%bool)
           (JsMap.values (votes st))
    /\ stats_coldVotes stats
       = countVotes (fun v => (String.eqb (vote_voteType v) "cold"
                               && isRecent now v)%bool)
           (JsMap.values (votes st))
    /\ stats_totalVotes stats = stats_hotVotes stats + stats_coldVotes stats
    /\ stats_totalVotes stats
       = countVotes (isRecent now) (JsMap.values (votes st))
    /\ stats_zones stats = 5
    /\ stats_connectedUsers stats
       = Z.of_nat (List.length (JsMap.keys (activeConnections st))).
Proof.
  intros R.
  pose proof (reachable_zonesAsSeeded st R) as Zs.
  pose proof (reachable_votesReferenceZones st R) as Ref.
  pose proof (reachable_votesWellTyped st R) as Ty.
  destruct (zonesAsSeeded_keys st Zs) as [Hkeys Hids].
  assert (N : NoDup (map zone_id (getAllZones st))).
  { rewrite Hids. repeat constructor; simpl; intuition discriminate. }
  assert (Hex : forall v, In v (JsMap.values (votes st)) ->
                existsb (fun z => String.eqb (vote_zoneId v) (zone_id z))
                  (getAllZones st) = true).
  { intros v Hin. specialize (Ref v Hin). unfold getZone in Ref.
    assert (Hk : In (vote_zoneId v) (JsMap.keys (zones st))).
    { destruct (in_dec string_dec (vote_zoneId v) (JsMap.keys (zones st)))
        as [Hk|Hk]; [exact Hk|].
      apply get_None_keys in Hk. contradiction. }
    rewrite Hkeys, <- Hids in Hk. apply in_map_iff in Hk.
    destruct Hk as [z [E Hz]]. apply existsb_exists. exists z.
    split; [exact Hz|]. rewrite E. apply String.eqb_refl. }
  unfold get_api_stats. eexists. split; [reflexivity|].
  cbn [stats_hotVotes stats_coldVotes stats_totalVotes stats_zones
       stats_connectedUsers].
  rewrite stats_totals_fold. cbn [fst snd].
  rewrite !sum_over_zones by exact N. rewrite !Z.add_0_l.
  assert (Eh : countVotes
                 (fun v =>
                    (existsb (fun z => String.eqb (vote_zoneId v) (zone_id z))
                       (getAllZones st)
                     && (String.eqb (vote_voteType v) "hot" && isRecent now v))%bool)
                 (JsMap.values (votes st))
               = countVotes (fun v => (isHot v && isRecent now v)%bool)
                   (JsMap.values (votes st))).
  { apply countVotes_ext. intros v Hin. now rewrite (Hex v Hin). }
  assert (Ec : countVotes
                 (fun v =>
                    (existsb (fun z => String.eqb (vote_zoneId v) (zone_id z))
                       (getAllZones st)
                     && (String.eqb (vote_voteType v) "cold" && isRecent now v))%bool)
                 (JsMap.values (votes st))
               = countVotes (fun v => (String.eqb (vote_voteType v) "cold"
                                       && isRecent now v)%bool)
                   (JsMap.values (votes st))).
  { apply countVotes_ext. intros v Hin. now rewrite (Hex v Hin). }
  rewrite Eh, Ec.
  split; [reflexivity|]. split; [reflexivity|]. split; [reflexivity|].
  split.
  - symmetry. apply countVotes_sum_In. intros v Hin. unfold isHot.
    destruct (Ty v Hin) as [E|E]; rewrite E; simpl;
      destruct (isRecent now v); reflexivity.
  - split.
    + unfold getAllZones, JsMap.values. rewrite length_map.
      rewrite <- (length_map fst). fold (JsMap.keys (zones st)).
      now rewrite Hkeys.
    + unfold getActiveConnections, JsMap.values, JsMap.keys.
      now rewrite !length_map.
Qed.

Lemma stats_count_recent_votes_witness :
  exists stats,
    get_api_stats 2000 storeAfterHotVote = Ok200 stats
    /\ stats_totalVotes stats = 1.
Proof.
  assert (R : reachable storeAfterHotVote)
    by (exists 0, [hotVoteEvent]; reflexivity).
  destruct (stats_count_recent_votes 2000 storeAfterHotVote R)
    as [stats [E [_ [_ [_ [T _]]]]]].
  exists stats. split; [exact E|]. rewrite T. reflexivity.
Defined.

Lemma Math_round_bounds (y : Q) :
  (y - (1 # 2) < inject_Z (Math_round y) /\ inject_Z (Math_round y) <= y + (1 # 2))%Q.
Proof.
  unfold Math_round.
  pose proof (Qfloor_le (y + (1 # 2))) as L.
  pose proof (Qlt_floor (y + (1 # 2))) as U.
  rewrite inject_Z_plus in U. change (inject_Z 1) with 1%Q in U.
  split; [lra | exact L].
Qed.

(** Rounding to one decimal moves a number by at most 0.05 and yields a whole
    number of tenths. *)
Lemma roundToTenth_close (x : Q) :
  (x - (1 # 20) < roundToTenth x /\ roundToTenth x <= x + (1 # 20))%Q
  /\ wholeTenths (roundToTenth x).
Proof.
  unfold roundToTenth. destruct (Math_round_bounds (x * 10)) as [L U].
  set (n := Math_round (x * 10)) in *.
  split.
  - unfold Qdiv. change (/ 10)%Q with (1 # 10)%Q. split; lra.
  - exists n. symmetry. apply (Qmake_Qdiv n 10).
Qed.

(** X8. On a running server [GET /api/stats] always has an
    [averageTemperature] (there are zones to divide by): it is a whole number
    of tenths within 0.05 of the mean of the five stored temperatures. *)
Theorem stats_average_temperature (now : Z) (st : MemStorage) :
  reachable st ->
  exists stats average,
    get_api_stats now st = Ok200 stats
    /\ stats_averageTemperature stats = Some average
    /\ (exists n : Z, (average == n # 10)%Q)
    /\ (let mean :=
          (fold_left (fun sum zone => sum + zone_temperature zone)
             (getAllZones st) 0 / 5)%Q in
        (mean - (1 # 20) < average /\ average <= mean + (1 # 20))%Q).
Proof.
  intros R. apply reachable_zonesAsSeeded in R.
  destruct (zonesAsSeeded_keys st R) as [_ Hids].
  unfold get_api_stats. cbv zeta.
  destruct (getAllZones st) as [|z0 zs] eqn:Ez; [discriminate|].
  assert (Hlen : List.length (z0 :: zs) = 5%nat)
    by (rewrite <- (length_map zone_id), Hids; reflexivity).
  rewrite Hlen. change (inject_Z (Z.of_nat 5)) with 5%Q.
  eexists. eexists. split; [reflexivity|].
  cbn [stats_averageTemperature option_map]. split; [reflexivity|].
  set (mean := (fold_left _ _ _ / 5)%Q).
  destruct (roundToTenth_close mean) as [B T]. split; [exact T | exact B].
Qed.

Lemma stats_average_temperature_witness :
  exists stats,
    get_api_stats 2000 storeAfterHotVote = Ok200 stats
    /\ option_map Qred (stats_averageTemperature stats) = Some (223 # 10)%Q.
Proof.
  assert (R : reachable storeAfterHotVote)
    by (exists 0, [hotVoteEvent]; reflexivity).
  destruct (stats_average_temperature 2000 storeAfterHotVote R)
    as [stats [average [E _]]].
  exists stats. split; [exact E|].
  injection E as <-. reflexivity.
Defined.

(** ** Connections made by requests *)

Lemma keys_values_length {V} (m : JsMap.t string V) :
  List.length (JsMap.values m) = List.length (JsMap.keys m).
Proof. unfold JsMap.values, JsMap.keys. now rewrite !length_map. Qed.

(** X9. A [GET /api/zones] whose session id (the [x-session-id] header, or
    a random id when the header is absent or empty) already has a record keeps
    the number of connection records and sets that record's [lastSeen] to now;
    when no record has the session id and the drawn record id is unused, one
    record for it is added at the end. *)
Theorem get_zones_tracks_session (now : Z) (rnd : Rand)
    (header : option string) (st : MemStorage) :
  conn_inv (activeConnections st) ->
  let sessionId :=
    match header with
    | Some s => if String.eqb s "" then rnd_session rnd else s
    | None => rnd_session rnd
    end in
  let st' := snd (get_api_zones now rnd header st) in
  (forall existing,
     In existing (getActiveConnections st) ->
     conn_sessionId existing = sessionId ->
     List.length (getActiveConnections st')
     = List.length (getActiveConnections st)
     /\ JsMap.get (conn_id existing) (activeConnections st')
        = Some {| conn_id := conn_id existing; conn_sessionId := sessionId;
                  conn_lastSeen := now |})
  /\ (~ In sessionId (map conn_sessionId (getActiveConnections st)) ->
      JsMap.get (rnd_connection rnd) (activeConnections st) = None ->
      activeConnections st'
      = activeConnections st
        ++ [(rnd_connection rnd,
             {| conn_id := rnd_connection rnd; conn_sessionId := sessionId;
                conn_lastSeen := now |})]).
Proof.
  intros [W [F N]]. cbv zeta. unfold get_api_zones. cbn [snd].
  fold (sessionIdOf header rnd). set (sid := sessionIdOf header rnd).
  unfold updateConnection, getActiveConnections.
  destruct (find _ _) as [found|] eqn:Hfind.
  - apply find_session in Hfind. destruct Hfind as [Hin' Hs].
    cbn [snd activeConnections with_activeConnections].
    split.
    + intros existing Hin Hsid.
      assert (found = existing) as ->
        by (eapply NoDup_map_inj;
            [exact N | assumption | assumption | congruence]).
      rewrite get_set_same, Hsid. split; [|reflexivity].
      rewrite !keys_values_length, keys_set_present; [reflexivity|].
      unfold JsMap.keys.
      change (conn_id existing) with (fst (conn_id existing, existing)).
      apply in_map, filed_In; assumption.
    + intros Hno. exfalso. apply Hno. rewrite <- Hs. now apply in_map.
  - apply find_session_none in Hfind.
    cbn [snd activeConnections with_activeConnections].
    split.
    + intros existing Hin Hsid. exfalso. apply Hfind. rewrite <- Hsid.
      now apply in_map.
    + intros _ Hfresh. now apply set_fresh.
Qed.

Lemma get_zones_tracks_session_witness :
  activeConnections (snd (get_api_zones 2000 rndB None storeAfterHotVote))
  = activeConnections storeAfterHotVote
    ++ [("conn-2",
         {| conn_id := "conn-2"; conn_sessionId := "anon-2";
            conn_lastSeen := 2000 |})].
Proof.
  assert (I : conn_inv (activeConnections storeAfterHotVote)).
  { repeat split; repeat constructor; simpl; tauto. }
  destruct (get_zones_tracks_session 2000 rndB None storeAfterHotVote I)
    as [_ Hnew].
  apply Hnew; [|reflexivity].
  simpl. intros [E|[]]. discriminate E.
Defined.

(** ** Temperature samples *)

Lemma temperatureHistoryTick_samples now ids (l : list Zone) (k : nat)
    (st : MemStorage) :
  NoDup (map ids (seq k (List.length l))) ->
  (forall j, In j (seq k (List.length l)) ->
             JsMap.get (ids j) (temperatureHistory st) = None) ->
  temperatureHistory
    (snd (fold_left
            (fun '(k, s) zone =>
               (S k, snd (addTemperatureHistory now (ids k) (zone_id zone)
                            (zone_temperature zone) s)))
            l (k, st)))
  = temperatureHistory st
    ++ map (fun '(j, zone) =>
              (ids j,
               {| th_id := ids j; th_zoneId := zone_id zone;
                  th_temperature := zone_temperature zone;
                  th_timestamp := now |}))
           (combine (seq k (List.length l)) l).
Proof.
  revert k st. induction l as [|zone l IH]; intros k st N Hfresh.
  - simpl. now rewrite app_nil_r.
  - cbn [fold_left List.length seq combine map] in *.
    inversion N as [|? ? Hnot N']; subst.
    rewrite IH.
    + cbn [addTemperatureHistory snd temperatureHistory
           with_temperatureHistory].
      rewrite set_fresh by (apply Hfresh; now left).
      now rewrite <- app_assoc.
    + exact N'.
    + intros j Hj.
      cbn [addTemperatureHistory snd temperatureHistory
           with_temperatureHistory].
      rewrite get_set_other; [apply Hfresh; now right|].
      intros E. apply Hnot. rewrite <- E. now apply in_map.
Qed.

(** X10. A tick of the ten-minute capture timer appends one sample per zone,
    in the order of the zones, each with the zone's current temperature and
    the time of the tick, provided the drawn ids are distinct and unused; it
    leaves the zones, the ledger and the connections as they were. *)
Theorem history_tick_appends_samples (now : Z) (ids : nat -> string)
    (st : MemStorage) :
  NoDup (map ids (seq 0 (List.length (getAllZones st)))) ->
  (forall j, (j < List.length (getAllZones st))%nat ->
             JsMap.get (ids j) (temperatureHistory st) = None) ->
  temperatureHistory (temperatureHistoryTick now ids st)
  = temperatureHistory st
    ++ map (fun '(j, zone) =>
              (ids j,
               {| th_id := ids j; th_zoneId := zone_id zone;
                  th_temperature := zone_temperature zone;
                  th_timestamp := now |}))
           (combine (seq 0 (List.length (getAllZones st))) (getAllZones st))
  /\ zones (temperatureHistoryTick now ids st) = zones st
  /\ votes (temperatureHistoryTick now ids st) = votes st
  /\ activeConnections (temperatureHistoryTick now ids st)
     = activeConnections st.
Proof.
  intros N Hfresh. split; [|apply temperatureHistoryTick_frame].
  unfold temperatureHistoryTick. fold (getAllZones st).
  apply temperatureHistoryTick_samples; [exact N|].
  intros j Hj. apply Hfresh. apply in_seq in Hj. lia.
Qed.

Lemma history_tick_appends_samples_witness :
  List.length
    (temperatureHistory
       (temperatureHistoryTick 600000
          (fun k => String (ascii_of_nat (97 + k)) "") storeAfterHotVote))
  = 6%nat.
Proof.
  assert (N : NoDup (map (fun k => String (ascii_of_nat (97 + k)) "")
                       (seq 0 (List.length (getAllZones storeAfterHotVote))))).
  { repeat constructor; simpl; intuition discriminate. }
  assert (Hfresh : forall j,
             (j < List.length (getAllZones storeAfterHotVote))%nat ->
             JsMap.get (String (ascii_of_nat (97 + j)) "")
               (temperatureHistory storeAfterHotVote) = None).
  { intros j Hj. simpl in Hj.
    do 5 (destruct j as [|j]; [reflexivity|]). lia. }
  destruct (history_tick_appends_samples 600000
              (fun k => String (ascii_of_nat (97 + k)) "") storeAfterHotVote
              N Hfresh) as [E _].
  rewrite E. reflexivity.
Defined.

(** ** Accepted votes *)

Lemma post_api_vote_history now rnd header body st req zone :
  voteRequestSchema_parse body = Some req ->
  getZone st (vr_zoneId req) = Some zone ->
  let result := post_api_vote now rnd header body st in
  let temperature :=
    newTemperature
      (windowCounts now (vr_zoneId req) (JsMap.values (votes (snd result)))) in
  temperatureHistory (snd result)
  = JsMap.set (rnd_history rnd)
      {| th_id := rnd_history rnd; th_zoneId := vr_zoneId req;
         th_temperature := temperature; th_timestamp := now |}
      (temperatureHistory st)
  /\ fst result
     = Ok200
         {| vresp_zone := getZone (snd result) (vr_zoneId req);
            vresp_hotVotes :=
              hotVotes (windowCounts now (vr_zoneId req)
                          (JsMap.values (votes (snd result))));
            vresp_coldVotes :=
              coldVotes (windowCounts now (vr_zoneId req)
                           (JsMap.values (votes (snd result)))) |}.
Proof.
  intros Hparse Hzone. cbv zeta.
  unfold post_api_vote. rewrite Hparse, Hzone. cbv zeta. cbn [fst snd].
  destruct (updateConnection_frame now (rnd_connection rnd)
              (sessionIdOf header rnd) st) as [Hz [Hv Ht]].
  set (st1 := snd (updateConnection now (rnd_connection rnd)
                     (sessionIdOf header rnd) st)) in *.
  unfold updateZoneTemperature, createVote, addTemperatureHistory.
  cbn [snd zones votes with_votes].
  rewrite Hz. unfold getZone in Hzone. rewrite Hzone.
  cbn [snd zones votes activeConnections temperatureHistory
       with_zones with_votes with_temperatureHistory].
  rewrite getRecentVoteCounts_window.
  cbn [votes with_votes]. rewrite Ht. auto.
Qed.

(** X11. An accepted vote whose drawn vote id and sample id are unused
    appends exactly one vote to the ledger and exactly one temperature sample,
    both stamped now; the sample records the temperature that the zone now
    stores, the zone's [lastUpdated] is now, and the response carries that
    stored zone. *)
Theorem accepted_vote_appends (now : Z) (rnd : Rand) (header : option string)
    (body : Body) (st : MemStorage) (req : VoteRequest) (zone : Zone) :
  voteRequestSchema_parse body = Some req ->
  getZone st (vr_zoneId req) = Some zone ->
  JsMap.get (rnd_vote rnd) (votes st) = None ->
  JsMap.get (rnd_history rnd) (temperatureHistory st) = None ->
  let result := post_api_vote now rnd header body st in
  exists zone' hotCount coldCount,
    fst result
    = Ok200 {| vresp_zone := Some zone'; vresp_hotVotes := hotCount;
               vresp_coldVotes := coldCount |}
    /\ getZone (snd result) (vr_zoneId req) = Some zone'
    /\ zone_lastUpdated zone' = now
    /\ votes (snd result)
       = votes st
         ++ [(rnd_vote rnd,
              {| vote_id := rnd_vote rnd; vote_zoneId := vr_zoneId req;
                 vote_voteType := vr_voteType req; vote_timestamp := now |})]
    /\ temperatureHistory (snd result)
       = temperatureHistory st
         ++ [(rnd_history rnd,
              {| th_id := rnd_history rnd; th_zoneId := vr_zoneId req;
                 th_temperature := zone_temperature zone';
                 th_timestamp := now |})].
Proof.
  intros Hparse Hzone Hv Hh. cbv zeta.
  destruct (post_api_vote_accepted now rnd header body st req zone
              Hparse Hzone) as [Evotes [Ezones _]].
  destruct (post_api_vote_history now rnd header body st req zone
              Hparse Hzone) as [Ehist Eresp].
  cbv zeta in *.
  set (result := post_api_vote now rnd header body st) in *.
  assert (G : getZone (snd result) (vr_zoneId req)
              = Some {| zone_id := zone_id zone; zone_name := zone_name zone;
                        zone_temperature :=
                          newTemperature
                            (windowCounts now (vr_zoneId req)
                               (JsMap.values (votes (snd result))));
                        zone_hotVotes := zone_hotVotes zone;
                        zone_coldVotes := zone_coldVotes zone;
                        zone_activeVoters := zone_activeVoters zone;
                        zone_lastUpdated := now |}).
  { unfold getZone. rewrite Ezones. apply get_set_same. }
  eexists. eexists. eexists.
  split; [rewrite Eresp, G; reflexivity|].
  split; [exact G|]. split; [reflexivity|].
  split.
  - rewrite Evotes. now apply set_fresh.
  - rewrite Ehist. cbn [zone_temperature]. now apply set_fresh.
Qed.

Lemma accepted_vote_appends_witness :
  List.length (votes storeAfterHotVote) = 1%nat
  /\ List.length (temperatureHistory storeAfterHotVote) = 1%nat.
Proof.
  destruct (accepted_vote_appends 1000 rndA (Some "alice")
              (BodyObject (JStr "zone-a") (JStr "hot")) (MemStorage_new 0)
              {| vr_zoneId := "zone-a"; vr_voteType := "hot" |}
              {| zone_id := "zone-a"; zone_name := "1F Zone A";
                 zone_temperature := 218 # 10; zone_hotVotes := 0;
                 zone_coldVotes := 0; zone_activeVoters := 0;
                 zone_lastUpdated := 0 |}
              eq_refl eq_refl eq_refl eq_refl)
    as [zone' [h [c [_ [_ [_ [Ev Eh]]]]]]].
  change (snd (post_api_vote 1000 rndA (Some "alice")
                 (BodyObject (JStr "zone-a") (JStr "hot")) (MemStorage_new 0)))
    with storeAfterHotVote in Ev, Eh.
  rewrite Ev, Eh. split; reflexivity.
Defined.

Lemma countVotes_set_only {K} `{KeyEq K} (p : Vote -> bool)
    (m : JsMap.t K Vote) (k : K) (v : Vote) :
  (forall e, In e m -> p (snd e) = false) ->
  countVotes p (JsMap.values (JsMap.set k v m)) = if p v then 1 else 0.
Proof.
  unfold JsMap.values.
  induction m as [|[k' v'] r IH]; intros Hold; cbn [JsMap.set].
  - simpl. lia.
  - assert (Hr : countVotes p (map snd r) = 0).
    { clear IH. induction r as [|e r IHr]; [reflexivity|].
      cbn [map countVotes].
      assert (He : p (snd e) = false) by (apply Hold; right; now left).
      rewrite He, IHr; [reflexivity|].
      intros e' [E|Hin]; apply Hold; [now left | right; now right]. }
    destruct (keqb k k'); cbn [map snd countVotes].
    + rewrite Hr. lia.
    + assert (Hv' : p v' = false) by (apply (Hold (k', v')); now left).
      rewrite Hv', IH; [lia|]. intros e Hin. apply Hold. now right.
Qed.

(** X12. The temperature has no memory beyond the window: when every earlier
    vote of the zone is more than ten minutes old, an accepted hot vote sets
    the zone to 22.1 and an accepted cold vote sets it to 21.9, whatever the
    temperature was before. *)
Theorem lone_vote_resets_temperature (now : Z) (rnd : Rand)
    (header : option string) (body : Body) (st : MemStorage)
    (req : VoteRequest) (zone : Zone) :
  voteRequestSchema_parse body = Some req ->
  getZone st (vr_zoneId req) = Some zone ->
  (forall v, In v (JsMap.values (votes st)) ->
             vote_zoneId v = vr_zoneId req ->
             vote_timestamp v < now - 10 * msPerMinute) ->
  exists zone',
    getZone (snd (post_api_vote now rnd header body st)) (vr_zoneId req)
    = Some zone'
    /\ (zone_temperature zone'
        == if String.eqb (vr_voteType req) "hot" then 221 # 10 else 219 # 10)%Q.
Proof.
  intros Hparse Hzone Hold.
  destruct (post_api_vote_accepted now rnd header body st req zone
              Hparse Hzone) as [Evotes [Ezones _]].
  cbv zeta in *.
  set (st' := snd (post_api_vote now rnd header body st)) in *.
  unfold getZone. rewrite Ezones, get_set_same.
  eexists. split; [reflexivity|]. cbn [zone_temperature].
  rewrite newTemperature_exact. cbn [windowCounts hotVotes coldVotes].
  assert (Hp : forall ty e, In e (votes st) ->
               inWindow now (vr_zoneId req) ty (snd e) = false).
  { intros ty e Hin. unfold inWindow.
    destruct (String.eqb (vote_zoneId (snd e)) (vr_zoneId req)) eqn:Ez;
      [|reflexivity].
    apply String.eqb_eq in Ez.
    assert (Hv : In (snd e) (JsMap.values (votes st)))
      by (unfold JsMap.values; now apply in_map).
    specialize (Hold _ Hv Ez).
    destruct (Z.leb_spec (now - 10 * msPerMinute) (vote_timestamp (snd e)));
      [lia|]. now rewrite andb_false_r. }
  rewrite Evotes.
  rewrite !countVotes_set_only by (intros e Hin; now apply Hp).
  unfold inWindow. cbn [vote_zoneId vote_voteType vote_timestamp].
  rewrite String.eqb_refl.
  replace (now - 10 * msPerMinute <=? now) with true
    by (symmetry; apply Z.leb_le; unfold msPerMinute; lia).
  destruct (voteRequestSchema_parse_Some body req Hparse) as [_ [E|E]];
    rewrite E; reflexivity.
Qed.

Lemma lone_vote_resets_temperature_witness :
  exists zone',
    getZone (snd (post_api_vote (20 * msPerMinute) rndB (Some "bob")
                    (BodyObject (JStr "zone-a") (JStr "cold"))
                    storeAfterHotVote)) "zone-a"
    = Some zone'
    /\ (zone_temperature zone' == 219 # 10)%Q.
Proof.
  assert (Hold : forall v,
             In v (JsMap.values (votes storeAfterHotVote)) ->
             vote_zoneId v = "zone-a" ->
             vote_timestamp v < 20 * msPerMinute - 10 * msPerMinute).
  { intros v [<-|[]] _. reflexivity. }
  exact (lone_vote_resets_temperature (20 * msPerMinute) rndB (Some "bob")
           (BodyObject (JStr "zone-a") (JStr "cold")) storeAfterHotVote
           {| vr_zoneId := "zone-a"; vr_voteType := "cold" |}
           {| zone_id := "zone-a"; zone_name := "1F Zone A";
              zone_temperature :=
                newTemperature {| hotVotes := 1; coldVotes := 0 |};
              zone_hotVotes := 0; zone_coldVotes := 0;
              zone_activeVoters := 0; zone_lastUpdated := 1000 |}
           eq_refl eq_refl Hold).
Defined.

(** ** Reading the temperature samples *)






(** After the vote at second 1 and a capture tick at minute 10, the samples
    of [zone-a] come back in the order of their timestamps. *)
Example temperature_history_of_zone_a :
  map th_timestamp
    (getTemperatureHistory (11 * msPerMinute)
       (run [EvHistoryTick (10 * msPerMinute)
               (fun k => String (ascii_of_nat (97 + k)) "")]
          storeAfterHotVote)
       "zone-a" 1)
  = [1000; 10 * msPerMinute].
Proof. reflexivity. Qed.

(** ** The request schema *)

Example schema_is_case_sensitive :
  voteRequestSchema_parse (BodyObject (JStr "zone-a") (JStr "Hot")) = None
  /\ voteRequestSchema_parse (BodyObject (JNum 7) (JStr "hot")) = None
  /\ voteRequestSchema_parse (BodyObject (JStr "") (JStr "cold"))
     = Some {| vr_zoneId := ""; vr_voteType := "cold" |}.
Proof. repeat split. Qed.

(** ** The vote bar of the client *)

Lemma hotPercentage_share (zone : Zone) :
  0 <= zone_hotVotes zone -> 0 <= zone_coldVotes zone ->
  0 < zone_hotVotes zone + zone_coldVotes zone ->
  (hotPercentage zone * inject_Z (zone_hotVotes zone + zone_coldVotes zone)
   == 100 * inject_Z (zone_hotVotes zone))%Q.
Proof.
  intros Hh Hc Ht. unfold hotPercentage.
  destruct (Z.ltb_spec 0 (zone_hotVotes zone + zone_coldVotes zone)); [|lia].
  field. intros E.
  assert (L : (0 < inject_Z (zone_hotVotes zone + zone_coldVotes zone))%Q)
    by (change 0%Q with (inject_Z 0); now rewrite <- Zlt_Qlt).
  rewrite E in L. now apply Qlt_irrefl in L.
Qed.

(** X15. For a zone with non-negative counts the bar of its card is between
    50 and 100 percent wide; with votes, its width is the share of the side
    that leads, and without votes it is 50. The bar is red exactly when the
    hot votes are at least as many as the cold ones (so also on a tie and
    without votes), and blue otherwise. *)
Theorem vote_bar_shows_majority (zone : Zone) :
  0 <= zone_hotVotes zone ->
  0 <= zone_coldVotes zone ->
  (50 <= barWidth zone /\ barWidth zone <= 100)%Q
  /\ (barIsRed zone = true <-> zone_coldVotes zone <= zone_hotVotes zone)
  /\ (zone_hotVotes zone + zone_coldVotes zone = 0 -> (barWidth zone == 50)%Q)
  /\ (barWidth zone
      * inject_Z (zone_hotVotes zone + zone_coldVotes zone)
      == 100 * inject_Z (Z.max (zone_hotVotes zone) (zone_coldVotes zone)))%Q.
Proof.
  intros Hh Hc.
  assert (Cases : zone_hotVotes zone + zone_coldVotes zone = 0
                  \/ 0 < zone_hotVotes zone + zone_coldVotes zone) by lia.
  destruct Cases as [E0|Ht].
  - assert (Hp : hotPercentage zone = 50%Q).
    { unfold hotPercentage. rewrite E0. reflexivity. }
    unfold barWidth, barIsRed. rewrite Hp.
    assert (zone_hotVotes zone = 0) as Eh by lia.
    assert (zone_coldVotes zone = 0) as Ec by lia.
    rewrite Eh, Ec. cbn.
    repeat split; try reflexivity; try discriminate; try lia; intros; lia.
  - pose proof (hotPercentage_share zone Hh Hc Ht) as S.
    set (p := hotPercentage zone) in *.
    assert (Lh : (0 <= inject_Z (zone_hotVotes zone))%Q)
      by (change 0%Q with (inject_Z 0); now rewrite <- Zle_Qle).
    assert (Lc : (0 <= inject_Z (zone_coldVotes zone))%Q)
      by (change 0%Q with (inject_Z 0); now rewrite <- Zle_Qle).
    rewrite inject_Z_plus in S.
    assert (Lt : (0 < inject_Z (zone_hotVotes zone)
                      + inject_Z (zone_coldVotes zone))%Q).
    { rewrite <- inject_Z_plus. change 0%Q with (inject_Z 0).
      now rewrite <- Zlt_Qlt. }
    assert (Order : zone_coldVotes zone <= zone_hotVotes zone <-> (50 <= p)%Q).
    { rewrite Zle_Qle. split; intros L; nra. }
    assert (P0 : (0 <= p)%Q) by nra.
    assert (P100 : (p <= 100)%Q) by nra.
    unfold barWidth, barIsRed, Math_max. fold p.
    split; [|split; [|split]].
    + destruct (Qle_bool p (100 - p)) eqn:B.
      * apply Qle_bool_iff in B. split; lra.
      * assert (~ (p <= 100 - p)%Q) by (rewrite <- Qle_bool_iff; congruence).
        split; lra.
    + rewrite Qle_bool_iff. symmetry. exact Order.
    + intros E0. lia.
    + rewrite inject_Z_plus.
      destruct (Qle_bool p (100 - p)) eqn:B.
      * apply Qle_bool_iff in B.
        assert (zone_hotVotes zone <= zone_coldVotes zone).
        { rewrite Zle_Qle. nra. }
        rewrite Z.max_r by assumption. nra.
      * assert (~ (p <= 100 - p)%Q) by (rewrite <- Qle_bool_iff; congruence).
        assert (zone_coldVotes zone <= zone_hotVotes zone).
        { apply Order. lra. }
        rewrite Z.max_l by assumption. nra.
Qed.

Lemma vote_bar_shows_majority_witness :
  (barWidth {| zone_id := "zone-a"; zone_name := "1F Zone A";
               zone_temperature := 222 # 10; zone_hotVotes := 1;
               zone_coldVotes := 3; zone_activeVoters := 0;
               zone_lastUpdated := 0 |} == 75)%Q
  /\ barIsRed {| zone_id := "zone-a"; zone_name := "1F Zone A";
                 zone_temperature := 222 # 10; zone_hotVotes := 1;
                 zone_coldVotes := 3; zone_activeVoters := 0;
                 zone_lastUpdated := 0 |} = false.
Proof.
  destruct (vote_bar_shows_majority
              {| zone_id := "zone-a"; zone_name := "1F Zone A";
                 zone_temperature := 222 # 10; zone_hotVotes := 1;
                 zone_coldVotes := 3; zone_activeVoters := 0;
                 zone_lastUpdated := 0 |})
    as [_ [Hred [_ Hshare]]]; [simpl; lia | simpl; lia |].
  split.
  - cbn [zone_hotVotes zone_coldVotes] in Hshare.
    change (inject_Z (1 + 3)) with 4%Q in Hshare.
    change (inject_Z (Z.max 1 3)) with 3%Q in Hshare. lra.
  - destruct (barIsRed _) eqn:B; [|reflexivity].
    pose proof (proj1 Hred eq_refl) as L. simpl in L. lia.
Defined.

(** ** The updaters of the stored counts *)

(** X16. [updateZoneVotes] and [updateZoneActiveVoters] on an id that names
    no zone return [undefined] and leave the store as it was. On the id of a
    zone they return and store the zone with the new values and with
    [lastUpdated] set to now, keep its id, name and temperature, keep the list
    of zone ids, and leave every other zone untouched. *)
Theorem count_updaters_round_trip (now : Z) (id : string)
    (hotVotes coldVotes activeVoters : Z) (st : MemStorage) :
  match getZone st id with
  | None =>
      updateZoneVotes now id hotVotes coldVotes st = (None, st)
      /\ updateZoneActiveVoters now id activeVoters st = (None, st)
  | Some zone =>
      let byVotes := updateZoneVotes now id hotVotes coldVotes st in
      let byVoters := updateZoneActiveVoters now id activeVoters st in
      fst byVotes
      = Some {| zone_id := zone_id zone; zone_name := zone_name zone;
                zone_temperature := zone_temperature zone;
                zone_hotVotes := hotVotes; zone_coldVotes := coldVotes;
                zone_activeVoters := zone_activeVoters zone;
                zone_lastUpdated := now |}
      /\ getZone (snd byVotes) id = fst byVotes
      /\ fst byVoters
         = Some {| zone_id := zone_id zone; zone_name := zone_name zone;
                   zone_temperature := zone_temperature zone;
                   zone_hotVotes := zone_hotVotes zone;
                   zone_coldVotes := zone_coldVotes zone;
                   zone_activeVoters := activeVoters;
                   zone_lastUpdated := now |}
      /\ getZone (snd byVoters) id = fst byVoters
      /\ JsMap.keys (zones (snd byVotes)) = JsMap.keys (zones st)
      /\ JsMap.keys (zones (snd byVoters)) = JsMap.keys (zones st)
      /\ forall other,
           other <> id ->
           getZone (snd byVotes) other = getZone st other
           /\ getZone (snd byVoters) other = getZone st other
  end.
Proof.
  unfold getZone, updateZoneVotes, updateZoneActiveVoters.
  destruct (JsMap.get id (zones st)) as [zone|] eqn:G; [|auto].
  cbv zeta. cbn [fst snd zones with_zones].
  assert (Hk : In id (JsMap.keys (zones st))).
  { destruct (in_dec string_dec id (JsMap.keys (zones st))) as [Hk|Hk];
      [exact Hk|].
    apply get_None_keys in Hk. congruence. }
  rewrite !get_set_same, !keys_set_present by exact Hk.
  repeat split; try reflexivity; now apply get_set_other.
Qed.

(** ** The window of recent votes *)

Lemma getRecentVotesByZone_In now st zoneId minutes v :
  In v (getRecentVotesByZone now st zoneId minutes)
  <-> In v (getVotesByZone st zoneId)
      /\ now - minutes * msPerMinute <= vote_timestamp v.
Proof.
  unfold getRecentVotesByZone, getVotesByZone, msPerMinute.
  rewrite !filter_In, andb_true_iff, String.eqb_eq, Z.leb_le.
  replace (minutes * 60 * 1000) with (minutes * 60000) by lia. tauto.
Qed.

Lemma filter_length_le {A} (p p' : A -> bool) (l : list A) :
  (forall x, p x = true -> p' x = true) ->
  (List.length (filter p l) <= List.length (filter p' l))%nat.
Proof.
  intros Himp. induction l as [|x r IH]; simpl; [lia|].
  destruct (p x) eqn:E.
  - rewrite (Himp x E). simpl. lia.
  - destruct (p' x); simpl; lia.
Qed.

(** ** One zone by its id *)

(** X18. On a running server [GET /api/zones/:id] answers 404 exactly for
    the ids other than the five seeded ones; for a seeded id it answers the
    stored zone, whose [hotVotes] and [coldVotes] are 0 whatever votes the
    ledger holds (unlike the zones of [GET /api/zones]). *)
Theorem get_zone_by_id (st : MemStorage) (id : string) :
  reachable st ->
  (get_api_zone st id = Fail 404 "Zone not found"
   <-> ~ In id ["standing"; "zone-a"; "zone-b"; "zone-c"; "recharge"])
  /\ forall zone,
       get_api_zone st id = Ok200 zone ->
       zone_id zone = id /\ zone_hotVotes zone = 0 /\ zone_coldVotes zone = 0.
Proof.
  intros R. apply reachable_zonesAsSeeded in R.
  destruct (zonesAsSeeded_keys st R) as [Hkeys _].
  unfold get_api_zone, getZone. split.
  - rewrite <- Hkeys, <- get_None_keys.
    destruct (JsMap.get id (zones st)); split; congruence.
  - intros zone E.
    destruct (JsMap.get id (zones st)) as [z|] eqn:G; [|discriminate].
    injection E as ->. apply get_In in G.
    pose proof (zonesAsSeeded_entry st id zone R G) as Hin.
    unfold seedFixedPart in Hin. apply in_map_iff in Hin.
    destruct Hin as [[[id0 name0] temp0] [E _]].
    injection E as E1 E2 E3 E4 E5 E6. repeat split; congruence.
Qed.

Lemma get_zone_by_id_witness :
  get_api_zone storeAfterHotVote "attic" = Fail 404 "Zone not found"
  /\ exists zone,
       get_api_zone storeAfterHotVote "zone-a" = Ok200 zone
       /\ zone_hotVotes zone = 0
       /\ hotVotes (getRecentVoteCounts 2000 storeAfterHotVote "zone-a" 10) = 1.
Proof.
  assert (R : reachable storeAfterHotVote)
    by (exists 0, [hotVoteEvent]; reflexivity).
  split.
  - apply (proj1 (get_zone_by_id storeAfterHotVote "attic" R)).
    simpl. intuition discriminate.
  - eexists. split; [reflexivity|].
    split; [|reflexivity].
    apply (proj2 (get_zone_by_id storeAfterHotVote "zone-a" R)). reflexivity.
Defined.

(** ** A vote concerns one zone *)

Lemma getRecentVotesByZone_other now st st' zoneId minutes id vote :
  votes st' = votes st ++ [(id, vote)] ->
  vote_zoneId vote <> zoneId ->
  getRecentVotesByZone now st' zoneId minutes
  = getRecentVotesByZone now st zoneId minutes.
Proof.
  intros Ev Hz. unfold getRecentVotesByZone, JsMap.values.
  rewrite Ev, map_app, filter_app. cbn [map snd filter].
  apply String.eqb_neq in Hz. rewrite Hz. cbn [andb]. apply app_nil_r.
Qed.

(** X19. An accepted vote (with an unused vote id) changes nothing for the
    other zones: their stored records, their recency counts and their vote
    histories, read at any later time, are what they would have been without
    the vote. *)
Theorem vote_leaves_other_zones (now : Z) (rnd : Rand)
    (header : option string) (body : Body) (st : MemStorage)
    (req : VoteRequest) (zone : Zone) (other : string) :
  voteRequestSchema_parse body = Some req ->
  getZone st (vr_zoneId req) = Some zone ->
  JsMap.get (rnd_vote rnd) (votes st) = None ->
  other <> vr_zoneId req ->
  let st' := snd (post_api_vote now rnd header body st) in
  getZone st' other = getZone st other
  /\ forall later tz minutes q,
       getRecentVoteCounts later st' other minutes
       = getRecentVoteCounts later st other minutes
       /\ get_vote_history tz later st' other q
          = get_vote_history tz later st other q.
Proof.
  intros Hparse Hzone Hfresh Hother.
  destruct (post_api_vote_accepted now rnd header body st req zone
              Hparse Hzone) as [Evotes [Ezones _]].
  cbv zeta in *.
  set (st' := snd (post_api_vote now rnd header body st)) in *.
  rewrite (set_fresh _ _ _ Hfresh) in Evotes.
  split.
  - unfold getZone. rewrite Ezones. now apply get_set_other.
  - intros later tz minutes q.
    assert (E : forall m, getRecentVotesByZone later st' other m
                          = getRecentVotesByZone later st other m).
    { intros m. eapply getRecentVotesByZone_other; [exact Evotes|].
      cbn [vote_zoneId]. congruence. }
    unfold getRecentVoteCounts, get_vote_history. now rewrite !E.
Qed.

Lemma vote_leaves_other_zones_witness :
  getZone storeAfterHotVote "zone-b" = getZone (MemStorage_new 0) "zone-b"
  /\ get_vote_history 0 5000 storeAfterHotVote "zone-b" (Some "1")
     = get_vote_history 0 5000 (MemStorage_new 0) "zone-b" (Some "1").
Proof.
  destruct (vote_leaves_other_zones 1000 rndA (Some "alice")
              (BodyObject (JStr "zone-a") (JStr "hot")) (MemStorage_new 0)
              {| vr_zoneId := "zone-a"; vr_voteType := "hot" |}
              {| zone_id := "zone-a"; zone_name := "1F Zone A";
                 zone_temperature := 218 # 10; zone_hotVotes := 0;
                 zone_coldVotes := 0; zone_activeVoters := 0;
                 zone_lastUpdated := 0 |}
              "zone-b" eq_refl eq_refl eq_refl ltac:(discriminate))
    as [Hz Hrest].
  split; [exact Hz|]. exact (proj2 (Hrest 5000 0 10 (Some "1"))).
Defined.

(** ** Rounding down to a ten-minute mark *)

(** X20. Rounding an instant down to the ten-minute mark is idempotent and
    monotone, moves the instant back by less than ten minutes, and gives an
    instant whose local minutes are a multiple of 10 and whose seconds and
    milliseconds are 0. *)
Theorem ten_minute_marks (tz t t' : Z) :
  floorToTenMinutes tz (floorToTenMinutes tz t) = floorToTenMinutes tz t
  /\ (t <= t' -> floorToTenMinutes tz t <= floorToTenMinutes tz t')
  /\ floorToTenMinutes tz t <= t < floorToTenMinutes tz t + 10 * msPerMinute
  /\ getMinutes tz (floorToTenMinutes tz t) mod 10 = 0
  /\ LocalTime tz (floorToTenMinutes tz t) mod msPerMinute = 0.
Proof.
  destruct (floorToTenMinutes_bucket tz t) as [B M].
  unfold getMinutes, MinFromTime, LocalTime, msPerMinute in *.
  split; [|split; [|split; [|split]]].
  - rewrite (floorToTenMinutes_mod tz (floorToTenMinutes tz t)). rewrite M. lia.
  - intros Hle. rewrite !floorToTenMinutes_mod.
    Z.div_mod_to_equations. lia.
  - lia.
  - revert M. generalize (floorToTenMinutes tz t + tz * 60000) as x.
    intros x M. Z.div_mod_to_equations. lia.
  - revert M. generalize (floorToTenMinutes tz t + tz * 60000) as x.
    intros x M. Z.div_mod_to_equations. lia.
Qed.

Lemma ten_minute_marks_witness :
  floorToTenMinutes 345 1700000000000 <= floorToTenMinutes 345 1700000600000.
Proof.
  apply (proj1 (proj2 (ten_minute_marks 345 1700000000000 1700000600000))).
  lia.
Defined.

(** ** The zones list and the statistics agree *)

(** X21. At one instant the counts shown by [GET /api/zones] add up to the
    totals of [GET /api/stats]: the sum of the [hotVotes] of the zones of the
    first is the [hotVotes] of the second, and likewise for [coldVotes]. *)
Theorem zones_and_stats_agree (now : Z) (rnd : Rand) (header : option string)
    (st : MemStorage) :
  exists views stats,
    fst (get_api_zones now rnd header st) = Ok200 views
    /\ get_api_stats now (snd (get_api_zones now rnd header st)) = Ok200 stats
    /\ sumZ (map zone_hotVotes views) = stats_hotVotes stats
    /\ sumZ (map zone_coldVotes views) = stats_coldVotes stats
    /\ stats_zones stats = Z.of_nat (List.length views).
Proof.
  unfold get_api_zones, get_api_stats. cbn [fst snd].
  set (st1 := snd (updateConnection now (rnd_connection rnd)
                     (sessionIdOf header rnd) st)).
  eexists. eexists. split; [reflexivity|]. split; [reflexivity|].
  cbn [stats_hotVotes stats_coldVotes stats_zones].
  rewrite stats_totals_fold. cbn [fst snd]. rewrite !map_map, length_map.
  repeat split.
  - rewrite Z.add_0_l. f_equal. apply map_ext. intros z.
    unfold withRecentVotes. cbn [zone_hotVotes].
    now rewrite getRecentVoteCounts_window.
  - rewrite Z.add_0_l. f_equal. apply map_ext. intros z.
    unfold withRecentVotes. cbn [zone_coldVotes].
    now rewrite getRecentVoteCounts_window.
Qed.

(** ** Sweeps compose *)




(** * The vote history with JavaScript dates *)

(** ** Dates with their range *)

Lemma TimeClip_Some (t : Z) :
  Z.abs t <= maxTimeValue -> TimeClip t = Some t.
Proof.
  intros H. unfold TimeClip.
  destruct (Z.leb_spec (Z.abs t) maxTimeValue); [reflexivity|lia].
Qed.


Lemma TimeClip_inv (t r : Z) :
  TimeClip t = Some r -> r = t /\ Z.abs t <= maxTimeValue.
Proof.
  unfold TimeClip.
  destruct (Z.leb_spec (Z.abs t) maxTimeValue); [|discriminate].
  intros E. injection E as <-. auto.
Qed.

Lemma Js_floorToTenMinutes_Some (zone : TimeZone) (t : Z) :
  Js.floorToTenMinutes zone (Some t)
  = TimeClip (Js.UTC zone (Js.LocalTime zone t
                           - Js.LocalTime zone t mod 600000)).
Proof.
  unfold Js.floorToTenMinutes, Js.getMinutes, Js.setMinutes.
  f_equal. f_equal.
  generalize (Js.LocalTime zone t). intros lt.
  unfold Day, HourFromTime, MinFromTime, msPerDay, msPerHour, msPerMinute,
    msPerSecond.
  Z.div_mod_to_equations. lia.
Qed.

Lemma Js_floorToTenMinutes_fixed (tz t : Z) :
  Js.floorToTenMinutes (fixedOffset tz) (Some t)
  = TimeClip (floorToTenMinutes tz t).
Proof.
  rewrite Js_floorToTenMinutes_Some, floorToTenMinutes_mod.
  unfold Js.UTC, Js.LocalTime, fixedOffset, msPerMinute.
  cbn [offsetAtUtc offsetOfLocal]. f_equal. lia.
Qed.

Lemma Js_floorToTenMinutes_of_None (zone : TimeZone) (d : option Z) :
  d = None -> Js.floorToTenMinutes zone d = None.
Proof. intros ->. reflexivity. Qed.

(** In a bounded zone the mark of an instant is within [zoneMargin] of it. *)
Lemma Js_floorToTenMinutes_near (zone : TimeZone) (t r : Z) :
  zoneBounded zone ->
  Js.floorToTenMinutes zone (Some t) = Some r ->
  Z.abs (r - t) <= zoneMargin.
Proof.
  intros B E. rewrite Js_floorToTenMinutes_Some in E.
  apply TimeClip_inv in E. destruct E as [-> _].
  unfold Js.UTC, Js.LocalTime, zoneMargin, msPerMinute.
  set (lt := t + offsetAtUtc zone t).
  pose proof (B t) as [Ba _].
  pose proof (B (lt - lt mod 600000)) as [_ Bl].
  pose proof (Z.mod_pos_bound lt 600000 ltac:(lia)) as M.
  unfold lt, msPerDay in *. lia.
Qed.


Lemma fixedOffset_wholeMinutes (tz : Z) : wholeMinuteOffsets (fixedOffset tz).
Proof. intros t. cbn [fixedOffset offsetOfLocal]. apply Z.mod_mul. discriminate. Qed.

(** With offsets of whole minutes every mark is a whole minute of UTC. *)
Lemma Js_floorToTenMinutes_minute (zone : TimeZone) (d : option Z) (r : Z) :
  wholeMinuteOffsets zone ->
  Js.floorToTenMinutes zone d = Some r -> r = r / msPerMinute * msPerMinute.
Proof.
  intros W. destruct d as [t|]; [|discriminate].
  rewrite Js_floorToTenMinutes_Some. intros E.
  apply TimeClip_inv in E. destruct E as [-> _].
  unfold Js.UTC.
  generalize (Js.LocalTime zone t). intros lt.
  pose proof (W (lt - lt mod 600000)) as Wo. revert Wo.
  generalize (offsetOfLocal zone (lt - lt mod 600000)). intros o.
  unfold msPerMinute. intros Wo.
  Z.div_mod_to_equations. lia.
Qed.

Lemma IsoKey_eqb_eq (a b : IsoKey) : IsoKey_eqb a b = true <-> a = b.
Proof. exact (keqb_eq a b). Qed.

(** In the years 0 to 9999 two marks with the same key are the same mark. *)
Lemma isoPrefix16_mark_inj (a b : Z) :
  a = a / msPerMinute * msPerMinute ->
  b = b / msPerMinute * msPerMinute ->
  plainYear a = true ->
  isoPrefix16 a = isoPrefix16 b -> a = b.
Proof.
  intros Ha Hb P. unfold isoPrefix16. rewrite P.
  destruct (plainYear b); [|discriminate].
  intros E. injection E as E. rewrite Ha, Hb. now rewrite E.
Qed.

Lemma Js_hasKey_inBucket (zone : TimeZone) (d : option Z) (r : Z) (v : Vote) :
  wholeMinuteOffsets zone ->
  Js.floorToTenMinutes zone d = Some r ->
  plainYear r = true ->
  Js.hasKey zone (isoPrefix16 r) v = Js.inBucket zone r v.
Proof.
  intros W E P. unfold Js.hasKey, Js.inBucket.
  destruct (Js.floorToTenMinutes zone (TimeClip (vote_timestamp v)))
    as [r'|] eqn:E'; [|reflexivity].
  destruct (Z.eqb_spec r' r) as [->|N].
  - apply IsoKey_eqb_eq. reflexivity.
  - destruct (IsoKey_eqb (isoPrefix16 r) (isoPrefix16 r')) eqn:K;
      [|reflexivity].
    apply IsoKey_eqb_eq in K. exfalso. apply N. symmetry.
    apply isoPrefix16_mark_inj; try assumption.
    + exact (Js_floorToTenMinutes_minute _ _ _ W E).
    + exact (Js_floorToTenMinutes_minute _ _ _ W E').
Qed.

(** ** The recent votes, with invalid dates *)

Lemma Js_getRecentVotesByZone_In now st zoneId minutes v :
  In v (Js.getRecentVotesByZone now st zoneId minutes)
  <-> In v (getVotesByZone st zoneId)
      /\ Z.abs (vote_timestamp v) <= maxTimeValue
      /\ Z.abs (now - minutes * msPerMinute) <= maxTimeValue
      /\ now - minutes * msPerMinute <= vote_timestamp v.
Proof.
  unfold Js.getRecentVotesByZone, getVotesByZone, msPerMinute.
  rewrite !filter_In, andb_true_iff, String.eqb_eq.
  replace (now - minutes * 60 * 1000) with (now - minutes * 60000) by lia.
  unfold TimeClip.
  destruct (Z.leb_spec (Z.abs (vote_timestamp v)) maxTimeValue);
    destruct (Z.leb_spec (Z.abs (now - minutes * 60000)) maxTimeValue);
    rewrite ?Z.leb_le; intuition (try discriminate; try lia).
Qed.

Lemma Js_getRecentVotesByZone_invalid now st zoneId minutes :
  maxTimeValue < Z.abs (now - minutes * msPerMinute) ->
  Js.getRecentVotesByZone now st zoneId minutes = [].
Proof.
  intros H.
  destruct (Js.getRecentVotesByZone now st zoneId minutes) as [|v r] eqn:E;
    [reflexivity|].
  assert (Hin : In v (Js.getRecentVotesByZone now st zoneId minutes))
    by (rewrite E; now left).
  apply Js_getRecentVotesByZone_In in Hin. lia.
Qed.


(** With valid dates on both sides the comparison is the one of the time
    values. *)
Lemma Js_getRecentVotesByZone_valid now st zoneId minutes :
  Z.abs (now - minutes * msPerMinute) <= maxTimeValue ->
  (forall v, In v (JsMap.values (votes st)) ->
             Z.abs (vote_timestamp v) <= maxTimeValue) ->
  Js.getRecentVotesByZone now st zoneId minutes
  = getRecentVotesByZone now st zoneId minutes.
Proof.
  intros Hc Hv. unfold Js.getRecentVotesByZone, getRecentVotesByZone.
  apply filter_ext_in. intros v Hin. f_equal.
  replace (now - minutes * 60 * 1000) with (now - minutes * msPerMinute)
    by (unfold msPerMinute; lia).
  rewrite (TimeClip_Some _ (Hv v Hin)), (TimeClip_Some _ Hc). reflexivity.
Qed.

(** ** Grouping *)

Lemma Js_groupVote_None zone vs :
  fold_left (Js.groupVote zone) vs None = None.
Proof. induction vs; simpl; auto. Qed.

Lemma Js_groupVote_get zone (m m' : JsMap.t IsoKey IntervalCount) (v : Vote)
    (k : IsoKey) :
  Js.groupVote zone (Some m) v = Some m' ->
  countsOr0 (JsMap.get k m')
  = if Js.hasKey zone k v
    then (if isHot v
          then {| hot := hot (countsOr0 (JsMap.get k m)) + 1;
                  cold := cold (countsOr0 (JsMap.get k m)) |}
          else {| hot := hot (countsOr0 (JsMap.get k m));
                  cold := cold (countsOr0 (JsMap.get k m)) + 1 |})
    else countsOr0 (JsMap.get k m).
Proof.
  unfold Js.groupVote, Js.hasKey. fold (isHot v).
  destruct (Js.floorToTenMinutes zone (TimeClip (vote_timestamp v)))
    as [r|]; [|discriminate].
  set (key := isoPrefix16 r).
  set (m1 := if JsMap.has key m then m
             else JsMap.set key {| hot := 0; cold := 0 |} m).
  assert (G1 : JsMap.get key m1 = Some (countsOr0 (JsMap.get key m))).
  { unfold m1, JsMap.has. destruct (JsMap.get key m) as [d|] eqn:G.
    - exact G.
    - now rewrite get_set_same. }
  assert (G2 : forall k', k' <> key -> JsMap.get k' m1 = JsMap.get k' m).
  { intros k' N. unfold m1. destruct (JsMap.has key m); [reflexivity|].
    now apply get_set_other. }
  rewrite G1. intros E. injection E as <-.
  destruct (IsoKey_eqb k key) eqn:K.
  - apply IsoKey_eqb_eq in K. subst k.
    rewrite get_set_same. simpl. now destruct (isHot v).
  - assert (N : k <> key).
    { intros ->. rewrite (proj2 (IsoKey_eqb_eq key key) eq_refl) in K.
      discriminate. }
    rewrite get_set_other by exact N. now rewrite G2.
Qed.

Lemma Js_groupVotes_counts zone (vs : list Vote)
    (m m' : JsMap.t IsoKey IntervalCount) k :
  fold_left (Js.groupVote zone) vs (Some m) = Some m' ->
  hot (countsOr0 (JsMap.get k m'))
  = hot (countsOr0 (JsMap.get k m))
    + countVotes (fun v => (Js.hasKey zone k v && isHot v)%bool) vs
  /\ cold (countsOr0 (JsMap.get k m'))
     = cold (countsOr0 (JsMap.get k m))
       + countVotes (fun v => (Js.hasKey zone k v && negb (isHot v))%bool) vs.
Proof.
  revert m. induction vs as [|v vs IH]; intros m;
    cbn [fold_left countVotes].
  - intros E. injection E as <-. lia.
  - destruct (Js.groupVote zone (Some m) v) as [m1|] eqn:G;
      [|now rewrite Js_groupVote_None].
    intros E. destruct (IH m1 E) as [-> ->].
    rewrite (Js_groupVote_get zone m m1 v k G).
    destruct (Js.hasKey zone k v); destruct (isHot v);
      cbn [hot cold andb negb]; lia.
Qed.

(** Grouping succeeds when every vote has a valid mark. *)
Lemma Js_groupVotes_Some zone (vs : list Vote)
    (m : JsMap.t IsoKey IntervalCount) :
  (forall v, In v vs ->
             Js.floorToTenMinutes zone (TimeClip (vote_timestamp v)) <> None) ->
  exists m', fold_left (Js.groupVote zone) vs (Some m) = Some m'.
Proof.
  revert m. induction vs as [|v vs IH]; intros m Hv; cbn [fold_left].
  - now exists m.
  - assert (G : exists m1, Js.groupVote zone (Some m) v = Some m1).
    { unfold Js.groupVote.
      pose proof (Hv v (or_introl eq_refl)) as N.
      destruct (Js.floorToTenMinutes zone (TimeClip (vote_timestamp v)))
        as [r|]; [|contradiction].
      cbv zeta. destruct (JsMap.get _ _); eexists; reflexivity. }
    destruct G as [m1 ->]. apply IH. intros w Hw. apply Hv. now right.
Qed.

(** ** The loop over the buckets *)

Lemma Js_historyEntry_inv zone now d i e :
  Js.historyEntry zone now d i = Some e ->
  Z.abs now <= maxTimeValue
  /\ Z.abs (now - i * 600000) <= maxTimeValue
  /\ Js.floorToTenMinutes zone (Some (now - i * 600000))
     = Some (he_timestamp e)
  /\ he_hotVotes e
     = hot (countsOr0 (JsMap.get (isoPrefix16 (he_timestamp e)) d))
  /\ he_coldVotes e
     = cold (countsOr0 (JsMap.get (isoPrefix16 (he_timestamp e)) d)).
Proof.
  unfold Js.historyEntry.
  destruct (TimeClip now) as [n0|] eqn:En;
    [|rewrite Js_floorToTenMinutes_of_None by reflexivity; intros E;
      discriminate E].
  apply TimeClip_inv in En. destruct En as [-> Hn].
  replace (now - i * 10 * 60 * 1000) with (now - i * 600000) by lia.
  destruct (TimeClip (now - i * 600000)) as [t|] eqn:Et;
    [|rewrite Js_floorToTenMinutes_of_None by reflexivity; intros E;
      discriminate E].
  apply TimeClip_inv in Et. destruct Et as [-> Ht].
  destruct (Js.floorToTenMinutes zone (Some (now - i * 600000))) as [r|];
    [|discriminate].
  intros E. injection E as <-. cbn [he_timestamp he_hotVotes he_coldVotes].
  unfold countsOr0. auto.
Qed.

Lemma Js_historyEntry_Some zone now d i r :
  Z.abs now <= maxTimeValue ->
  Z.abs (now - i * 600000) <= maxTimeValue ->
  Js.floorToTenMinutes zone (Some (now - i * 600000)) = Some r ->
  Js.historyEntry zone now d i
  = Some {| he_timestamp := r;
            he_hotVotes := hot (countsOr0 (JsMap.get (isoPrefix16 r) d));
            he_coldVotes := cold (countsOr0 (JsMap.get (isoPrefix16 r) d)) |}.
Proof.
  intros Hn Ht E. unfold Js.historyEntry.
  rewrite (TimeClip_Some _ Hn).
  replace (now - i * 10 * 60 * 1000) with (now - i * 600000) by lia.
  rewrite (TimeClip_Some _ Ht), E. reflexivity.
Qed.



(** The [k]-th entry of the series, counted from the oldest. *)
Lemma Js_historyLoop_nth zone now d n l k e :
  Js.historyLoop zone now d n = Some l ->
  nth_error l k = Some e ->
  (k < n)%nat /\ Js.historyEntry zone now d (Z.of_nat (n - 1 - k)) = Some e.
Proof.
  revert l k. induction n as [|i IH]; intros l k; cbn [Js.historyLoop].
  - intros E. injection E as <-. now destruct k.
  - destruct (Js.historyEntry zone now d (Z.of_nat i)) as [e0|] eqn:E0;
      [|discriminate].
    destruct (Js.historyLoop zone now d i) as [r|]; [|discriminate].
    intros E. injection E as <-. destruct k as [|k]; cbn [nth_error].
    + intros E. injection E as <-.
      replace (S i - 1 - 0)%nat with i by lia. split; [lia|exact E0].
    + intros E. destruct (IH r k eq_refl E) as [Hk He].
      replace (S i - 1 - S k)%nat with (i - 1 - k)%nat by lia.
      split; [lia|exact He].
Qed.

Lemma Js_historyLoop_In zone now d n l e :
  Js.historyLoop zone now d n = Some l ->
  In e l ->
  exists i, (i < n)%nat /\ Js.historyEntry zone now d (Z.of_nat i) = Some e.
Proof.
  intros E Hin. apply In_nth_error in Hin. destruct Hin as [k Hk].
  destruct (Js_historyLoop_nth _ _ _ _ _ _ _ E Hk) as [Hlt He].
  exists (n - 1 - k)%nat. split; [lia|exact He].
Qed.

Lemma Js_historyLoop_Some zone now d n :
  (forall i, (i < n)%nat ->
             Js.historyEntry zone now d (Z.of_nat i) <> None) ->
  exists l, Js.historyLoop zone now d n = Some l.
Proof.
  induction n as [|i IH]; intros H; cbn [Js.historyLoop].
  - now exists [].
  - pose proof (H i ltac:(lia)) as N.
    destruct (Js.historyEntry zone now d (Z.of_nat i)) as [e|];
      [|contradiction].
    destruct IH as [r ->]; [intros j Hj; apply H; lia|].
    now eexists.
Qed.



(** ** The handler *)




Lemma floorToTenMinutes_back (tz t i : Z) :
  floorToTenMinutes tz (t - i * 600000) = floorToTenMinutes tz t - i * 600000.
Proof.
  replace (t - i * 600000) with (t - i * 10 * 60 * 1000) by lia.
  apply floorToTenMinutes_shift.
Qed.


(** With a fixed offset every fetched vote has a valid mark when the start
    of the window is ten minutes inside the range of dates. *)
Lemma Js_fetched_marks_valid tz now st zoneId minutes v :
  - maxTimeValue + 600000 <= now - minutes * msPerMinute ->
  In v (Js.getRecentVotesByZone now st zoneId minutes) ->
  Js.floorToTenMinutes (fixedOffset tz) (TimeClip (vote_timestamp v))
  = Some (floorToTenMinutes tz (vote_timestamp v)).
Proof.
  intros Hlo Hin. apply Js_getRecentVotesByZone_In in Hin.
  destruct Hin as [_ [Hts [_ Hle]]].
  rewrite (TimeClip_Some _ Hts), Js_floorToTenMinutes_fixed.
  apply TimeClip_Some.
  pose proof (floorToTenMinutes_bucket tz (vote_timestamp v)) as [B _].
  lia.
Qed.





Lemma fixedOffset_bounded (tz : Z) :
  Z.abs tz <= 1440 -> zoneBounded (fixedOffset tz).
Proof.
  intros H t. cbn [fixedOffset offsetAtUtc offsetOfLocal].
  unfold msPerMinute, msPerDay. lia.
Qed.







(** X1. When the handler of the vote history answers 200, in whatever host
    time zone, every entry counts, among the votes of the zone that the
    handler fetched (those of the last [hours * 60] minutes), the ones whose
    mark has the key of the entry: the hot ones under [hotVotes] and all the
    others under [coldVotes]. For an entry in the years 0 to 9999, in a zone
    whose offsets are whole minutes, these are the fetched votes whose
    timestamp rounds down to the entry's ten-minute mark. *)
Theorem vote_history_bucket_counts (zone : TimeZone) (now : Z)
    (st : MemStorage) (zoneId : string) (q : option string)
    (series : list HistoryEntry) :
  Js.get_vote_history zone now st zoneId q = Ok200 series ->
  let fetched := Js.getRecentVotesByZone now st zoneId (hoursOf q * 60) in
  Forall
    (fun e =>
       he_hotVotes e
       = countVotes
           (fun v => (Js.hasKey zone (isoPrefix16 (he_timestamp e)) v
                      && isHot v)%bool) fetched
       /\ he_coldVotes e
          = countVotes
              (fun v => (Js.hasKey zone (isoPrefix16 (he_timestamp e)) v
                         && negb (isHot v))%bool) fetched
       /\ (wholeMinuteOffsets zone ->
           plainYear (he_timestamp e) = true ->
           he_hotVotes e
           = countVotes
               (fun v => (Js.inBucket zone (he_timestamp e) v
                          && isHot v)%bool) fetched
           /\ he_coldVotes e
              = countVotes
                  (fun v => (Js.inBucket zone (he_timestamp e) v
                             && negb (isHot v))%bool) fetched))
    series.
Proof.
  unfold Js.get_vote_history. cbv zeta.
  set (fetched := Js.getRecentVotesByZone now st zoneId (hoursOf q * 60)).
  destruct (fold_left (Js.groupVote zone) fetched (Some JsMap.empty))
    as [d|] eqn:Ed; [|discriminate].
  destruct (Js.historyLoop zone now d (Z.to_nat (hoursOf q * 6)))
    as [l|] eqn:El; [|discriminate].
  intros E. injection E as <-.
  apply Forall_forall. intros e Hin.
  destruct (Js_historyLoop_In _ _ _ _ _ _ El Hin) as [i [_ He]].
  apply Js_historyEntry_inv in He.
  destruct He as [_ [_ [Er [Hh Hc]]]].
  destruct (Js_groupVotes_counts zone fetched JsMap.empty d
              (isoPrefix16 (he_timestamp e)) Ed) as [Gh Gc].
  cbn [JsMap.get JsMap.empty countsOr0 hot cold] in Gh, Gc.
  rewrite Z.add_0_l in Gh, Gc.
  assert (Kh : he_hotVotes e
               = countVotes
                   (fun v => (Js.hasKey zone (isoPrefix16 (he_timestamp e)) v
                              && isHot v)%bool) fetched) by congruence.
  assert (Kc : he_coldVotes e
               = countVotes
                   (fun v => (Js.hasKey zone (isoPrefix16 (he_timestamp e)) v
                              && negb (isHot v))%bool) fetched) by congruence.
  split; [exact Kh|]. split; [exact Kc|].
  intros W P. rewrite Kh, Kc.
  split; apply countVotes_ext; intros v _;
    now rewrite (Js_hasKey_inBucket zone _ _ v W Er P).
Qed.

Lemma vote_history_bucket_counts_witness :
  exists series,
    Js.get_vote_history newYork2023 1699165500000
      (run [EvPostVote 1699160700000 rndA (Some "alice")
              (BodyObject (JStr "zone-a") (JStr "hot"))] (MemStorage_new 0))
      "zone-a" (Some "2")
    = Ok200 series
    /\ Forall
         (fun e =>
            plainYear (he_timestamp e) = true ->
            he_hotVotes e
            = countVotes
                (fun v => (Js.inBucket newYork2023 (he_timestamp e) v
                           && isHot v)%bool)
                (Js.getRecentVotesByZone 1699165500000
                   (run [EvPostVote 1699160700000 rndA (Some "alice")
                           (BodyObject (JStr "zone-a") (JStr "hot"))]
                      (MemStorage_new 0))
                   "zone-a" 120))
         series.
Proof.
  eexists. split; [vm_compute; reflexivity|].
  eapply Forall_impl;
    [|exact (vote_history_bucket_counts newYork2023 1699165500000
               (run [EvPostVote 1699160700000 rndA (Some "alice")
                       (BodyObject (JStr "zone-a") (JStr "hot"))]
                  (MemStorage_new 0))
               "zone-a" (Some "2") _ eq_refl)].
  intros e [_ [_ P]] Y. refine (proj1 (P _ Y)).
  intros t. unfold newYork2023, oneTransition. cbn [offsetOfLocal].
  destruct (t <? _); reflexivity.
Defined.

(** Grouping throws as soon as one vote has no valid mark. *)
Lemma Js_groupVotes_marks zone (vs : list Vote)
    (m m' : JsMap.t IsoKey IntervalCount) v :
  fold_left (Js.groupVote zone) vs (Some m) = Some m' ->
  In v vs ->
  Js.floorToTenMinutes zone (TimeClip (vote_timestamp v)) <> None.
Proof.
  revert m. induction vs as [|w vs IH]; intros m E Hin; [destruct Hin|].
  cbn [fold_left] in E.
  destruct (Js.groupVote zone (Some m) w) as [m1|] eqn:G;
    [|now rewrite Js_groupVote_None in E].
  destruct Hin as [->|Hin]; [|exact (IH m1 E Hin)].
  unfold Js.groupVote in G.
  destruct (Js.floorToTenMinutes zone (TimeClip (vote_timestamp v)));
    [discriminate|discriminate G].
Qed.

Lemma Js_inBucket_fixed tz (r : Z) (v : Vote) :
  Js.floorToTenMinutes (fixedOffset tz) (TimeClip (vote_timestamp v)) <> None ->
  Js.inBucket (fixedOffset tz) r v = inBucket tz r v.
Proof.
  intros N. unfold Js.inBucket, inBucket.
  destruct (TimeClip (vote_timestamp v)) as [t|] eqn:Et;
    [|now rewrite Js_floorToTenMinutes_of_None in N].
  apply TimeClip_inv in Et. destruct Et as [-> _].
  rewrite Js_floorToTenMinutes_fixed in *.
  destruct (TimeClip (floorToTenMinutes tz (vote_timestamp v))) as [r'|] eqn:Er;
    [|contradiction].
  apply TimeClip_inv in Er. now destruct Er as [-> _].
Qed.

(** An entry of the series of a host with a fixed offset, in the years 0 to
    9999, is the entry [historyEntry] of the plain reading. *)
Lemma Js_historyEntry_fixed tz now vs d i e :
  fold_left (Js.groupVote (fixedOffset tz)) vs (Some JsMap.empty) = Some d ->
  Js.historyEntry (fixedOffset tz) now d i = Some e ->
  plainYear (floorToTenMinutes tz now - i * 600000) = true ->
  e = historyEntry tz now (fold_left (groupVote tz) vs JsMap.empty) i.
Proof.
  intros Ed He P.
  apply Js_historyEntry_inv in He. destruct He as [_ [_ [Er [Hh Hc]]]].
  rewrite Js_floorToTenMinutes_fixed in Er.
  pose proof Er as Er'. apply TimeClip_inv in Er'. destruct Er' as [Et _].
  rewrite floorToTenMinutes_back in Et.
  destruct (Js_groupVotes_counts (fixedOffset tz) vs JsMap.empty d
              (isoPrefix16 (he_timestamp e)) Ed) as [Gh Gc].
  cbn [JsMap.get JsMap.empty countsOr0 hot cold] in Gh, Gc.
  rewrite Z.add_0_l in Gh, Gc.
  destruct (historyEntry_counts tz now vs i) as [Ih Ic].
  pose proof (historyEntry_timestamp tz now
                (fold_left (groupVote tz) vs JsMap.empty) i) as It.
  revert Ih Ic It.
  generalize (historyEntry tz now (fold_left (groupVote tz) vs JsMap.empty) i).
  intros e' Ih Ic It.
  assert (T : he_timestamp e = he_timestamp e') by congruence.
  assert (K : forall v, In v vs ->
                        Js.hasKey (fixedOffset tz)
                          (isoPrefix16 (he_timestamp e)) v
                        = inBucket tz (he_timestamp e') v).
  { intros v Hin.
    rewrite (Js_hasKey_inBucket (fixedOffset tz)
               (Some (now - i * 600000)) (he_timestamp e) v).
    - rewrite T. apply Js_inBucket_fixed.
      exact (Js_groupVotes_marks _ _ _ _ _ Ed Hin).
    - apply fixedOffset_wholeMinutes.
    - rewrite Js_floorToTenMinutes_fixed. exact Er.
    - now rewrite Et. }
  assert (H1 : he_hotVotes e = he_hotVotes e').
  { rewrite Hh, Gh, Ih. apply countVotes_ext. intros v Hin.
    now rewrite (K v Hin). }
  assert (H2 : he_coldVotes e = he_coldVotes e').
  { rewrite Hc, Gc, Ic. apply countVotes_ext. intros v Hin.
    now rewrite (K v Hin). }
  destruct e as [t1 h1 c1], e' as [t2 h2 c2].
  cbn [he_timestamp he_hotVotes he_coldVotes] in *.
  congruence.
Qed.

Lemma Js_historyLoop_fixed tz now vs d n l :
  fold_left (Js.groupVote (fixedOffset tz)) vs (Some JsMap.empty) = Some d ->
  Js.historyLoop (fixedOffset tz) now d n = Some l ->
  (forall i, (i < n)%nat ->
             plainYear (floorToTenMinutes tz now - Z.of_nat i * 600000)
             = true) ->
  l = historyLoop tz now (fold_left (groupVote tz) vs JsMap.empty) n.
Proof.
  intros Ed. revert l. induction n as [|i IH]; intros l El P;
    cbn [Js.historyLoop historyLoop] in *.
  - now injection El as <-.
  - destruct (Js.historyEntry (fixedOffset tz) now d (Z.of_nat i))
      as [e|] eqn:Ee; [|discriminate].
    destruct (Js.historyLoop (fixedOffset tz) now d i) as [r|];
      [|discriminate].
    injection El as <-. f_equal.
    + apply (Js_historyEntry_fixed tz now vs d (Z.of_nat i) e Ed Ee).
      apply P. lia.
    + apply IH; [reflexivity|]. intros j Hj. apply P. lia.
Qed.

(** The grid of a request lies in the years 0 to 9999. *)
Lemma plainYear_grid tz now (n : nat) (i : nat) :
  plainYear now = true ->
  plainYear (now - Z.of_nat n * 600000) = true ->
  (i < n)%nat ->
  plainYear (floorToTenMinutes tz now - Z.of_nat i * 600000) = true.
Proof.
  unfold plainYear. rewrite !andb_true_iff, !Z.leb_le, !Z.ltb_lt.
  intros [_ Hhi] [Hlo _] Hi.
  pose proof (floorToTenMinutes_bucket tz now) as [B _]. lia.
Qed.

(** On a host with a fixed offset and with a window in the years 0 to 9999
    the handler answers 200 with the series of the plain reading, built from
    the votes that it fetched. *)
Lemma Js_get_vote_history_plain tz now st zoneId q :
  0 < hoursOf q ->
  plainYear now = true ->
  plainYear (now - hoursOf q * msPerHour) = true ->
  Js.get_vote_history (fixedOffset tz) now st zoneId q
  = Ok200 (historyLoop tz now
             (fold_left (groupVote tz)
                (Js.getRecentVotesByZone now st zoneId (hoursOf q * 60))
                JsMap.empty)
             (Z.to_nat (hoursOf q * 6))).
Proof.
  intros Hpos Pn Pc.
  assert (Rlo : - maxTimeValue + 600000
                <= now - hoursOf q * 60 * msPerMinute).
  { unfold plainYear in Pn, Pc. unfold msPerHour, msPerMinute in *.
    apply andb_true_iff in Pn, Pc.
    rewrite Z.leb_le, Z.ltb_lt in Pn, Pc. unfold maxTimeValue. lia. }
  unfold Js.get_vote_history.
  destruct (Js_groupVotes_Some (fixedOffset tz)
              (Js.getRecentVotesByZone now st zoneId (hoursOf q * 60))
              JsMap.empty) as [d Ed].
  { intros v Hin.
    rewrite (Js_fetched_marks_valid tz now st zoneId (hoursOf q * 60) v);
      [discriminate|exact Rlo|exact Hin]. }
  rewrite Ed.
  assert (P : forall i, (i < Z.to_nat (hoursOf q * 6))%nat ->
                        plainYear (floorToTenMinutes tz now
                                   - Z.of_nat i * 600000) = true).
  { intros i Hi. apply (plainYear_grid tz now (Z.to_nat (hoursOf q * 6)));
      [exact Pn| |exact Hi].
    replace (now - Z.of_nat (Z.to_nat (hoursOf q * 6)) * 600000)
      with (now - hoursOf q * msPerHour)
      by (unfold msPerHour; lia).
    exact Pc. }
  destruct (Js_historyLoop_Some (fixedOffset tz) now d
              (Z.to_nat (hoursOf q * 6))) as [l El].
  { intros i Hi.
    pose proof (P i Hi) as Pi. unfold plainYear in Pi.
    apply andb_true_iff in Pi. rewrite Z.leb_le, Z.ltb_lt in Pi.
    pose proof (floorToTenMinutes_bucket tz now) as [B _].
    unfold plainYear in Pn. apply andb_true_iff in Pn.
    rewrite Z.leb_le, Z.ltb_lt in Pn.
    rewrite (Js_historyEntry_Some _ now d (Z.of_nat i)
               (floorToTenMinutes tz now - Z.of_nat i * 600000));
      [discriminate|unfold maxTimeValue; lia|unfold maxTimeValue; lia|].
    rewrite Js_floorToTenMinutes_fixed, floorToTenMinutes_back.
    apply TimeClip_Some. unfold maxTimeValue. lia. }
  rewrite El. f_equal.
  exact (Js_historyLoop_fixed tz now _ d _ l Ed El P).
Qed.

(** With valid dates in the ledger as well, the handler answers what its
    plain reading [get_vote_history] answers. *)
Lemma Js_get_vote_history_fixed tz now st zoneId q :
  (forall v, In v (JsMap.values (votes st)) ->
             Z.abs (vote_timestamp v) <= maxTimeValue) ->
  0 < hoursOf q ->
  plainYear now = true ->
  plainYear (now - hoursOf q * msPerHour) = true ->
  Js.get_vote_history (fixedOffset tz) now st zoneId q
  = get_vote_history tz now st zoneId q.
Proof.
  intros Hv Hpos Pn Pc.
  rewrite Js_get_vote_history_plain by assumption.
  unfold get_vote_history.
  rewrite Js_getRecentVotesByZone_valid; [reflexivity| |exact Hv].
  unfold plainYear in Pc. apply andb_true_iff in Pc.
  rewrite Z.leb_le, Z.ltb_lt in Pc.
  unfold msPerHour, msPerMinute, maxTimeValue in *. lia.
Qed.

(** X2. On a host whose offset from UTC does not change, for a window in
    the years 0 to 9999, the counts of a vote history add up to the number of
    fetched votes (votes of the zone in the last [hours * 60] minutes) whose
    timestamp lies between the start of the oldest bucket and the end of the
    bucket of [now]. A fetched vote older than the first bucket's start is in
    no bucket. *)
Theorem vote_history_total (tz now : Z) (st : MemStorage) (zoneId : string)
    (q : option string) :
  0 < hoursOf q ->
  plainYear now = true ->
  plainYear (now - hoursOf q * msPerHour) = true ->
  let oldest := floorToTenMinutes tz now - (hoursOf q * 6 - 1) * 600000 in
  exists series,
    Js.get_vote_history (fixedOffset tz) now st zoneId q = Ok200 series
    /\ sumZ (map (fun e => he_hotVotes e + he_coldVotes e) series)
       = countVotes
           (fun v =>
              ((oldest <=? vote_timestamp v)
               && (vote_timestamp v <? floorToTenMinutes tz now + 600000))%bool)
           (Js.getRecentVotesByZone now st zoneId (hoursOf q * 60)).
Proof.
  intros Hpos Pn Pc. cbv zeta.
  rewrite Js_get_vote_history_plain by assumption.
  eexists. split; [reflexivity|].
  rewrite historyLoop_total. apply countVotes_ext. intros v _.
  replace (hoursOf q * 6) with (Z.of_nat (Z.to_nat (hoursOf q * 6))) at 2
    by lia.
  apply bucket_range.
Qed.

Lemma vote_history_total_witness :
  exists series,
    Js.get_vote_history (fixedOffset (-300)) 1699165500000
      (run [EvPostVote 1699160700000 rndA (Some "alice")
              (BodyObject (JStr "zone-a") (JStr "hot"))] (MemStorage_new 0))
      "zone-a" (Some "2")
    = Ok200 series
    /\ sumZ (map (fun e => he_hotVotes e + he_coldVotes e) series) = 1.
Proof.
  destruct (vote_history_total (-300) 1699165500000
              (run [EvPostVote 1699160700000 rndA (Some "alice")
                      (BodyObject (JStr "zone-a") (JStr "hot"))]
                 (MemStorage_new 0))
              "zone-a" (Some "2") eq_refl eq_refl eq_refl)
    as [series [E T]].
  exists series. split; [exact E|]. rewrite T. reflexivity.
Defined.

(** Where the offset changes the sum can count a vote twice: in New York on
    2023-11-05 at 06:25 UTC the one vote of 05:05 UTC is counted by the bucket
    of 05:00 UTC, which the series of [?hours=2] has twice. *)
Example vote_history_counts_twice :
  let st :=
    run [EvPostVote 1699160700000 rndA (Some "alice")
           (BodyObject (JStr "zone-a") (JStr "hot"))] (MemStorage_new 0) in
  List.length (Js.getRecentVotesByZone 1699165500000 st "zone-a" 120) = 1%nat
  /\ exists series,
       Js.get_vote_history newYork2023 1699165500000 st "zone-a" (Some "2")
       = Ok200 series
       /\ sumZ (map (fun e => he_hotVotes e + he_coldVotes e) series) = 2.
Proof.
  split; [reflexivity|]. eexists. split; reflexivity.
Qed.

(** ** The recent votes of a zone *)

(** X17. The recent votes of a zone are its votes with a valid timestamp
    that are at most [minutes] minutes old, a vote exactly that old included,
    when the cutoff [now - minutes] is a valid date; when it is not, there is
    no recent vote at all. Widening the window never loses a vote as long as
    the wider cutoff is a valid date. *)
Theorem recent_votes_grow_with_window (now : Z) (st : MemStorage)
    (zoneId : string) (minutes minutes' : Z) :
  minutes <= minutes' ->
  (forall v,
     In v (Js.getRecentVotesByZone now st zoneId minutes)
     <-> In v (getVotesByZone st zoneId)
         /\ Z.abs (vote_timestamp v) <= maxTimeValue
         /\ Z.abs (now - minutes * msPerMinute) <= maxTimeValue
         /\ now - minutes * msPerMinute <= vote_timestamp v)
  /\ (maxTimeValue < Z.abs (now - minutes * msPerMinute) ->
      Js.getRecentVotesByZone now st zoneId minutes = [])
  /\ (Z.abs (now - minutes' * msPerMinute) <= maxTimeValue ->
      incl (Js.getRecentVotesByZone now st zoneId minutes)
           (Js.getRecentVotesByZone now st zoneId minutes')
      /\ (List.length (Js.getRecentVotesByZone now st zoneId minutes)
          <= List.length (Js.getRecentVotesByZone now st zoneId minutes'))%nat).
Proof.
  intros Hle.
  split; [intros v; apply Js_getRecentVotesByZone_In|].
  split; [apply Js_getRecentVotesByZone_invalid|].
  intros Hc'. split.
  - intros v Hin. apply Js_getRecentVotesByZone_In in Hin.
    apply Js_getRecentVotesByZone_In. unfold msPerMinute in *.
    destruct Hin as [Hin [Hts [_ Hcut]]].
    repeat split; try assumption. lia.
  - unfold Js.getRecentVotesByZone. apply filter_length_le. intros v Hv.
    apply andb_true_iff in Hv. destruct Hv as [Hz Ht]. rewrite Hz.
    cbn [andb].
    replace (now - minutes' * 60 * 1000) with (now - minutes' * msPerMinute)
      by (unfold msPerMinute; lia).
    rewrite (TimeClip_Some _ Hc').
    destruct (TimeClip (vote_timestamp v)) as [t|]; [|discriminate].
    destruct (TimeClip (now - minutes * 60 * 1000)) as [c|] eqn:Ec;
      [|discriminate].
    apply TimeClip_inv in Ec. destruct Ec as [-> _].
    apply Z.leb_le in Ht. apply Z.leb_le. unfold msPerMinute. lia.
Qed.

Lemma recent_votes_grow_with_window_witness :
  incl (Js.getRecentVotesByZone 700000 storeAfterHotVote "zone-a" 10)
       (Js.getRecentVotesByZone 700000 storeAfterHotVote "zone-a" 12)
  /\ Js.getRecentVotesByZone 700000 storeAfterHotVote "zone-a" 10 = []
  /\ List.length (Js.getRecentVotesByZone 700000 storeAfterHotVote "zone-a" 12)
     = 1%nat.
Proof.
  destruct (recent_votes_grow_with_window 700000 storeAfterHotVote "zone-a"
              10 12 ltac:(lia)) as [_ [_ G]].
  destruct (G ltac:(vm_compute; discriminate)) as [Hincl _].
  split; [exact Hincl|]. split; reflexivity.
Defined.

(** A window of 180000000000 minutes starts before the first date: the
    cutoff is an Invalid Date, every comparison with it is false, and the
    vote that a window of 12 minutes has is lost. *)
Example recent_votes_invalid_cutoff :
  List.length (Js.getRecentVotesByZone 700000 storeAfterHotVote "zone-a" 12)
  = 1%nat
  /\ Js.getRecentVotesByZone 700000 storeAfterHotVote "zone-a" 180000000000
     = [].
Proof. split; reflexivity. Qed.

(** ** The two readings *)

(** X23. The plain reading of the dates, in which every integer is a time
    value and the local time is UTC shifted by [tz] minutes, is the behaviour
    of the code where no date is invalid and the offset of the host does not
    change: with valid timestamps in the ledger, [getRecentVotesByZone] agrees
    with the query on dates when the cutoff is a valid date, and
    [get_vote_history] agrees with the handler for a positive number of
    hours when the window lies in the years 0 to 9999. *)
Theorem plain_reading_agrees (tz now : Z) (st : MemStorage) (zoneId : string)
    (minutes : Z) (q : option string) :
  (forall v, In v (JsMap.values (votes st)) ->
             Z.abs (vote_timestamp v) <= maxTimeValue) ->
  (Z.abs (now - minutes * msPerMinute) <= maxTimeValue ->
   Js.getRecentVotesByZone now st zoneId minutes
   = getRecentVotesByZone now st zoneId minutes)
  /\ (0 < hoursOf q ->
      plainYear now = true ->
      plainYear (now - hoursOf q * msPerHour) = true ->
      Js.get_vote_history (fixedOffset tz) now st zoneId q
      = get_vote_history tz now st zoneId q).
Proof.
  intros Hv. split.
  - intros Hc. now apply Js_getRecentVotesByZone_valid.
  - intros Hpos Pn Pc. now apply Js_get_vote_history_fixed.
Qed.

Lemma plain_reading_agrees_witness :
  Js.getRecentVotesByZone 700000 storeAfterHotVote "zone-a" 12
  = getRecentVotesByZone 700000 storeAfterHotVote "zone-a" 12
  /\ Js.get_vote_history (fixedOffset 540) 700000 storeAfterHotVote "zone-a"
       (Some "1")
     = get_vote_history 540 700000 storeAfterHotVote "zone-a" (Some "1").
Proof.
  assert (Hv : forall v, In v (JsMap.values (votes storeAfterHotVote)) ->
                         Z.abs (vote_timestamp v) <= maxTimeValue).
  { intros v [<-|[]]. vm_compute. discriminate. }
  destruct (plain_reading_agrees 540 700000 storeAfterHotVote "zone-a" 12
              (Some "1") Hv) as [G1 G2].
  split.
  - apply G1. vm_compute. discriminate.
  - apply G2; reflexivity.
Defined.


